(** * HR 8799 REBOUND notebooks: a shallow embedding

    The repository is two Jupyter notebooks that drive the external REBOUND
    N-body library.  A notebook cell is embedded as a computation in a
    state-and-exception monad over the Python kernel: the global names, the
    simulation objects they refer to (by reference, so that [sim] and
    [op.sim] can alias), the file system, the printed output and the trace
    of external calls.  REBOUND itself is an interface ([Rebound]): its
    numerics are not part of the repository.  Floating point numbers are
    read as the real numbers they denote; the sum the animation loops take,
    [sim.t + framestep], is rounded by the interpreter ([round]), and the
    products and quotients of the angle bookkeeping are read exactly. *)

From Stdlib Require Import Reals Lra Sorted.
From stdpp Require Import base functions gmap strings list.

Open Scope R_scope.

(* Keep float literals such as 5e-3 as written when simplifying. *)
#[global] Arguments Z.pow_pos : simpl never.

(** ** Data owned by the external library *)

(** A body: mass and Cartesian state. *)
Record Particle := {
  p_m : R; p_x : R; p_y : R; p_z : R; p_vx : R; p_vy : R; p_vz : R
}.

(** [sim.units = ('AU','yr','Msun')] *)
Definition Units : Type := string * string * string.

(** The fields of a simulation the notebooks read or assign. *)
Record Simulation := {
  sim_particles : list Particle;
  sim_t : R;
  sim_dt : R;
  sim_G : R;
  sim_units : option Units
}.

Definition set_dt (x : R) (s : Simulation) : Simulation :=
  {| sim_particles := sim_particles s; sim_t := sim_t s; sim_dt := x;
     sim_G := sim_G s; sim_units := sim_units s |}.

Definition set_G (g : R) (s : Simulation) : Simulation :=
  {| sim_particles := sim_particles s; sim_t := sim_t s; sim_dt := sim_dt s;
     sim_G := g; sim_units := sim_units s |}.

(** Keyword arguments of [sim.add]; an absent keyword is [None]. *)
Record AddArgs := {
  kw_m : option R;
  kw_a : option R;
  kw_e : option R;
  kw_omega : option R;
  kw_M : option R;
  kw_inc : option R;
  kw_Omega : option R
}.

(** The attributes of an orbit object the notebooks read. *)
Record Orbit := {
  o_a : R; o_e : R; o_omega : R; o_inc : R; o_Omega : R; o_P : R
}.

(** What a library call returns: a value, or an exception with its message. *)
Inductive result (A : Type) : Type :=
| Ok (a : A)
| Err (msg : string).
Arguments Ok {A} a.
Arguments Err {A} msg.

(** The part of REBOUND the notebooks call.  [Archive] is the contents of a
    checkpoint file, in the library's own format; [save] is given the
    present contents of the file, if any, and [load] is given [None] when
    the file does not exist.  With it comes what else the notebooks run on
    and do not define: [round], the rounding of a sum of two floats to a
    float by the interpreter. *)
Class Rebound := {
  Archive : Type;
  new_simulation : Simulation;
  assign_units : Units -> Simulation -> result Simulation;
  add : AddArgs -> Simulation -> result Simulation;
  calculate_orbits : Simulation -> result (list Orbit);
  move_to_com : Simulation -> result Simulation;
  integrate : R -> Simulation -> result Simulation;
  save : Simulation -> option Archive -> result Archive;
  load : option Archive -> result Simulation;
  status : Simulation -> result unit;
  orbit_plot : Simulation -> result unit;
  plot_update : Simulation -> result unit;
  round : R -> R
}.

(** ** The Python kernel *)

(** References to simulation objects. *)
Abbreviation ref := nat (only parsing).

(** Global names bound to floats. *)
Inductive fvar :=
| dtor | inc_pl | Omega_pl | mass_e | mass_d | mass_c | mass_b | framestep.

#[global] Instance fvar_eq_dec : EqDecision fvar.
Proof. solve_decision. Defined.

Definition fvar_name (x : fvar) : string :=
  match x with
  | dtor => "dtor" | inc_pl => "inc_pl" | Omega_pl => "Omega_pl"
  | mass_e => "mass_e" | mass_d => "mass_d" | mass_c => "mass_c"
  | mass_b => "mass_b" | framestep => "framestep"
  end.

(** A [rebound.OrbitPlot] keeps the simulation it was created from. *)
Record OrbitPlot := { op_sim : ref }.

(** One external call, as made. *)
Inductive Event :=
| EShell (cmd : string)
| EImport (module : string)
| ENew (r : ref)
| ELoad (file : string) (r : ref)
| ESetUnits (r : ref) (u : Units)
| ESetG (r : ref) (g : R)
| ESetDt (r : ref) (x : R)
| EAdd (r : ref) (args : AddArgs)
| ECalculateOrbits (r : ref)
| EMoveToCom (r : ref)
| EIntegrate (r : ref) (tmax : R)
| ESave (r : ref) (file : string)
| EStatus (r : ref)
| EOrbitPlot (r : ref)
| EPlotUpdate (r : ref)
| EDisplay (call : string).

(** One printed line: text, or the numbers handed to a format string. *)
Inductive Line :=
| Text (s : string)
| Row (xs : list R).

Inductive exn :=
| NameError (name : string)
| ZeroDivisionError
| ReboundError (msg : string).

(** ** Kernel state and the cell monad *)

Module Py.
Section Monad.
Context `{L : Rebound}.

(** The names the notebooks bind ([g_*]), the objects they refer to
    ([heap], allocated at [next]), the files, the printed lines and the
    calls made so far.  The loop variables [i], [o] and [p] are never read
    outside their loops and are left out. *)
Record Kernel := {
  g_sim : option ref;
  g_op : option OrbitPlot;
  g_fig : option unit;
  g_nframe : option nat;
  g_float : fvar -> option R;
  heap : ref -> Simulation;
  next : ref;
  files : gmap string Archive;
  out : list Line;
  log : list Event
}.

Definition with_sim (v : option ref) (k : Kernel) : Kernel :=
  {| g_sim := v; g_op := g_op k; g_fig := g_fig k; g_nframe := g_nframe k;
     g_float := g_float k; heap := heap k; next := next k; files := files k;
     out := out k; log := log k |}.

Definition with_op (v : option OrbitPlot) (k : Kernel) : Kernel :=
  {| g_sim := g_sim k; g_op := v; g_fig := g_fig k; g_nframe := g_nframe k;
     g_float := g_float k; heap := heap k; next := next k; files := files k;
     out := out k; log := log k |}.

Definition with_fig (v : option unit) (k : Kernel) : Kernel :=
  {| g_sim := g_sim k; g_op := g_op k; g_fig := v; g_nframe := g_nframe k;
     g_float := g_float k; heap := heap k; next := next k; files := files k;
     out := out k; log := log k |}.

Definition with_nframe (v : option nat) (k : Kernel) : Kernel :=
  {| g_sim := g_sim k; g_op := g_op k; g_fig := g_fig k; g_nframe := v;
     g_float := g_float k; heap := heap k; next := next k; files := files k;
     out := out k; log := log k |}.

Definition with_float (x : fvar) (v : R) (k : Kernel) : Kernel :=
  {| g_sim := g_sim k; g_op := g_op k; g_fig := g_fig k; g_nframe := g_nframe k;
     g_float := <[x := Some v]> (g_float k); heap := heap k; next := next k;
     files := files k; out := out k; log := log k |}.

Definition with_object (r : ref) (s : Simulation) (k : Kernel) : Kernel :=
  {| g_sim := g_sim k; g_op := g_op k; g_fig := g_fig k; g_nframe := g_nframe k;
     g_float := g_float k; heap := <[r := s]> (heap k); next := next k;
     files := files k; out := out k; log := log k |}.

Definition with_next (n : ref) (k : Kernel) : Kernel :=
  {| g_sim := g_sim k; g_op := g_op k; g_fig := g_fig k; g_nframe := g_nframe k;
     g_float := g_float k; heap := heap k; next := n; files := files k;
     out := out k; log := log k |}.

Definition with_file (f : string) (ar : Archive) (k : Kernel) : Kernel :=
  {| g_sim := g_sim k; g_op := g_op k; g_fig := g_fig k; g_nframe := g_nframe k;
     g_float := g_float k; heap := heap k; next := next k;
     files := <[f := ar]> (files k); out := out k; log := log k |}.

Definition with_line (l : Line) (k : Kernel) : Kernel :=
  {| g_sim := g_sim k; g_op := g_op k; g_fig := g_fig k; g_nframe := g_nframe k;
     g_float := g_float k; heap := heap k; next := next k; files := files k;
     out := out k ++ [l]; log := log k |}.

Definition with_event (ev : Event) (k : Kernel) : Kernel :=
  {| g_sim := g_sim k; g_op := g_op k; g_fig := g_fig k; g_nframe := g_nframe k;
     g_float := g_float k; heap := heap k; next := next k; files := files k;
     out := out k; log := log k ++ [ev] |}.

(** A statement either completes with a value or raises; both leave a
    kernel behind.  Nothing in the notebooks catches an exception, so the
    monad has no handler. *)
Inductive outcome (A : Type) : Type :=
| Done (a : A) (k : Kernel)
| Raise (e : exn) (k : Kernel).
Arguments Done {A} a k.
Arguments Raise {A} e k.

Definition NB (A : Type) : Type := Kernel -> outcome A.

Definition ret {A} (a : A) : NB A := fun k => Done a k.

Definition bind {A B} (m : NB A) (f : A -> NB B) : NB B :=
  fun k => match m k with
           | Done a k' => f a k'
           | Raise e k' => Raise e k'
           end.

Definition raise {A} (e : exn) : NB A := fun k => Raise e k.

Definition kernel_of {A} (o : outcome A) : Kernel :=
  match o with Done _ k => k | Raise _ k => k end.

End Monad.

Arguments Done {L A} a k.
Arguments Raise {L A} e k.

#[global] Instance nb_ret `{L : Rebound} : MRet NB := @ret L.
#[global] Instance nb_bind `{L : Rebound} : MBind NB :=
  fun A B f m => bind m f.


(** ** Statements *)

Section Statements.
Context `{L : Rebound}.

Definition emit (ev : Event) : NB unit := fun k => Done tt (with_event ev k).

Definition print (l : Line) : NB unit := fun k => Done tt (with_line l k).

(** Reading an unbound name raises [NameError]. *)
Definition get_sim : NB ref :=
  fun k => match g_sim k with
           | Some r => Done r k
           | None => Raise (NameError "sim") k
           end.

Definition assign_sim (r : ref) : NB unit :=
  fun k => Done tt (with_sim (Some r) k).

(** [del sim] *)
Definition del_sim : NB unit :=
  fun k => match g_sim k with
           | Some _ => Done tt (with_sim None k)
           | None => Raise (NameError "sim") k
           end.

Definition get_op : NB OrbitPlot :=
  fun k => match g_op k with
           | Some p => Done p k
           | None => Raise (NameError "op") k
           end.

Definition assign_op (p : OrbitPlot) : NB unit :=
  fun k => Done tt (with_op (Some p) k).

Definition get_fig : NB unit :=
  fun k => match g_fig k with
           | Some f => Done f k
           | None => Raise (NameError "fig") k
           end.

Definition assign_fig (f : unit) : NB unit :=
  fun k => Done tt (with_fig (Some f) k).

Definition get_nframe : NB nat :=
  fun k => match g_nframe k with
           | Some n => Done n k
           | None => Raise (NameError "nframe") k
           end.

Definition assign_nframe (n : nat) : NB unit :=
  fun k => Done tt (with_nframe (Some n) k).

Definition get_float (x : fvar) : NB R :=
  fun k => match g_float k x with
           | Some v => Done v k
           | None => Raise (NameError (fvar_name x)) k
           end.

Definition assign_float (x : fvar) (v : R) : NB unit :=
  fun k => Done tt (with_float x v k).

(** Objects. *)
Definition deref (r : ref) : NB Simulation := fun k => Done (heap k r) k.

Definition store (r : ref) (s : Simulation) : NB unit :=
  fun k => Done tt (with_object r s k).

Definition fresh : NB ref := fun k => Done (next k) k.

Definition alloc (s : Simulation) : NB ref :=
  fun k => Done (next k) (with_next (S (next k)) (with_object (next k) s k)).

Definition read_file (f : string) : NB (option Archive) :=
  fun k => Done (files k !! f) k.

Definition write_file (f : string) (ar : Archive) : NB unit :=
  fun k => Done tt (with_file f ar k).

(** An exception of the library becomes an exception of the cell. *)
Definition lift {A} (res : result A) : NB A :=
  match res with
  | Ok a => mret a
  | Err msg => raise (ReboundError msg)
  end.

(** Float addition [x + y]: the sum, rounded. *)
Definition fadd (x y : R) : R := round (x + y).

(** Float division. *)
Definition div (x y : R) : NB R :=
  if Req_dec_T y 0 then raise ZeroDivisionError else mret (x / y).

Fixpoint for_each {A} (xs : list A) (body : A -> NB unit) : NB unit :=
  match xs with
  | [] => mret tt
  | x :: xs' => body x;; for_each xs' body
  end.

Definition range (n : nat) : list nat := seq 0 n.

(** *** Calls into REBOUND, matplotlib and IPython *)

(** [rebound.Simulation()] *)
Definition rb_Simulation : NB ref :=
  r ← fresh; emit (ENew r);; alloc new_simulation.

(** [rebound.Simulation(file)] *)
Definition rb_Simulation_from (file : string) : NB ref :=
  r ← fresh; emit (ELoad file r);;
  ar ← read_file file; s ← lift (load ar); alloc s.

(** [sim.units = u] *)
Definition rb_set_units (r : ref) (u : Units) : NB unit :=
  emit (ESetUnits r u);; s ← deref r; s' ← lift (assign_units u s); store r s'.

(** [sim.G = g] *)
Definition rb_set_G (r : ref) (g : R) : NB unit :=
  emit (ESetG r g);; s ← deref r; store r (set_G g s).

(** [sim.dt = x] *)
Definition rb_set_dt (r : ref) (x : R) : NB unit :=
  emit (ESetDt r x);; s ← deref r; store r (set_dt x s).

(** [sim.add(m=..., a=..., ...)] *)
Definition rb_add (r : ref) (args : AddArgs) : NB unit :=
  emit (EAdd r args);; s ← deref r; s' ← lift (add args s); store r s'.

(** [sim.calculate_orbits()] *)
Definition rb_calculate_orbits (r : ref) : NB (list Orbit) :=
  emit (ECalculateOrbits r);; s ← deref r; lift (calculate_orbits s).

(** [sim.move_to_com()] *)
Definition rb_move_to_com (r : ref) : NB unit :=
  emit (EMoveToCom r);; s ← deref r; s' ← lift (move_to_com s); store r s'.

(** [sim.integrate(tmax)] *)
Definition rb_integrate (r : ref) (tmax : R) : NB unit :=
  emit (EIntegrate r tmax);; s ← deref r; s' ← lift (integrate tmax s);
  store r s'.

(** [sim.save(file)] *)
Definition rb_save (r : ref) (file : string) : NB unit :=
  emit (ESave r file);; s ← deref r; old ← read_file file;
  ar ← lift (save s old); write_file file ar.

(** [sim.status(showAllFields=False)] *)
Definition rb_status (r : ref) : NB unit :=
  emit (EStatus r);; s ← deref r; lift (status s).

(** [rebound.OrbitPlot(sim, ...)]; the styling keywords are not modelled. *)
Definition rb_OrbitPlot (r : ref) : NB OrbitPlot :=
  emit (EOrbitPlot r);; s ← deref r; lift (orbit_plot s);;
  mret {| op_sim := r |}.

(** [op.update()] *)
Definition rb_update (p : OrbitPlot) : NB unit :=
  emit (EPlotUpdate (op_sim p));; s ← deref (op_sim p); lift (plot_update s).

(** A matplotlib or IPython display call. *)
Definition display (call : string) : NB unit := emit (EDisplay call).

(** A shell command or IPython magic, and an import. *)
Definition shell (cmd : string) : NB unit := emit (EShell cmd).
Definition import (module : string) : NB unit := emit (EImport module).

End Statements.

End Py.

(** ** The cells

    Code cells are named by their notebook id.  Cells whose code is the
    same in both notebooks are in [Cells]; [Part000] is
    src/unnamed/part_000 and [HR8799] is src/rebound_HR8799.ipynb. *)

Module Cells.
Section Cells.
Context `{L : Rebound}.
Import Py.

Definition header : string :=
  "      a (au)          e       omega (deg)  inc (deg)    Omega (deg)".

(** [x/dtor] *)
Definition over_dtor (x : R) : NB R := d ← get_float dtor; div x d.

(** The recurring report:
    [print(); print(header);
     for o in sim.calculate_orbits(): print(fmt % (o.a, o.e, o.omega/dtor, o.inc/dtor, o.Omega/dtor))] *)
Definition print_elements : NB unit :=
  print (Text "");;
  print (Text header);;
  r ← get_sim; os ← rb_calculate_orbits r;
  for_each os (fun o =>
    w ← over_dtor (o_omega o);
    i ← over_dtor (o_inc o);
    O ← over_dtor (o_Omega o);
    print (Row [o_a o; o_e o; w; i; O])).

(** [sim.add(m=1.50)] *)
Definition star_args : AddArgs :=
  {| kw_m := Some 1.50; kw_a := None; kw_e := None; kw_omega := None;
     kw_M := None; kw_inc := None; kw_Omega := None |}.

Definition add_star : NB unit := r ← get_sim; rb_add r star_args.

(** [sim.add(m=mass, a=a, e=e, omega=omega_deg*dtor, M=M, inc=inc_pl, Omega=Omega_pl)] *)
Definition planet_args (m a e omega M inc Omega : R) : AddArgs :=
  {| kw_m := Some m; kw_a := Some a; kw_e := Some e; kw_omega := Some omega;
     kw_M := Some M; kw_inc := Some inc; kw_Omega := Some Omega |}.

Definition add_planet (mass : fvar) (a e omega_deg M : R) : NB unit :=
  r ← get_sim;
  m ← get_float mass;
  d ← get_float dtor;
  i ← get_float inc_pl;
  O ← get_float Omega_pl;
  rb_add r (planet_args m a e (omega_deg * d) M i O).

(** [op.sim.integrate(sim.t + framestep)] *)
Definition timestep : NB unit :=
  p ← get_op; r ← get_sim; s ← deref r; f ← get_float framestep;
  rb_integrate (op_sim p) (fadd (sim_t s) f).

Definition cell_ae108e7f : NB unit :=
  r ← rb_Simulation; assign_sim r;;
  r ← get_sim; rb_set_units r ("AU", "yr", "Msun")%string;;
  r ← get_sim; rb_set_G r 39.476926408897626.

Definition cell_a20bd72a : NB unit :=
  add_star;;
  assign_float dtor (PI / 180);;
  d ← get_float dtor; assign_float inc_pl (27.8 * d);;
  d ← get_float dtor; assign_float Omega_pl (60.1 * d);;
  assign_float mass_e 5e-3;;
  m ← get_float mass_e; assign_float mass_d m;;
  add_planet mass_e 16.64 0.1397 118.8 1.261;;
  add_planet mass_d 26.29 0.1112 24.3 2.032;;
  print_elements.

Definition cell_6b6cbae2 : NB unit :=
  print (Text "   P (yr) ");;
  r ← get_sim; os ← rb_calculate_orbits r;
  for_each os (fun o => print (Row [o_P o]));;
  r ← get_sim; rb_set_dt r 1.0.

Definition cell_2eb7fc48 : NB unit :=
  r ← get_sim; rb_move_to_com r;;
  print (Text "   X (au)    Y (au)    Z (au) ");;
  r ← get_sim; s ← deref r;
  for_each (sim_particles s) (fun p => print (Row [p_x p; p_y p; p_z p])).

Definition cell_2a7b7034 : NB unit :=
  r ← get_sim; p ← rb_OrbitPlot r; assign_op p;;
  r ← get_sim; rb_save r "start.bin".

Definition cell_1d189774 : NB unit :=
  r ← get_sim; rb_status r;;
  r ← get_sim; rb_move_to_com r;;
  print_elements.

Definition cell_ea6ed7d6 : NB unit :=
  del_sim;;
  r ← rb_Simulation_from "start.bin"; assign_sim r;;
  m ← get_float mass_e; assign_float mass_c m;;
  assign_float mass_b 3e-3;;
  add_planet mass_c 43.12 0.0561 28.5 4.232;;
  add_planet mass_b 70.50 0.0113 213.6 2.642;;
  r ← get_sim; rb_move_to_com r;;
  r ← get_sim; rb_status r;;
  print_elements.

Definition cell_76ca7354 : NB unit :=
  r ← get_sim; p ← rb_OrbitPlot r; assign_op p.

Definition cell_40ea86cc : NB unit :=
  r ← get_sim; rb_integrate r 100000;;
  print_elements.

(** The literal bound to [mass_e] is 7.3e-3 in one notebook and 5e-3 in the
    other. *)
Definition cell_6cb48360 (mass : R) : NB unit :=
  del_sim;;
  r ← rb_Simulation; assign_sim r;;
  add_star;;
  assign_float mass_e mass;;
  m ← get_float mass_e; assign_float mass_d m;;
  m ← get_float mass_e; assign_float mass_c m;;
  m ← get_float mass_e; assign_float mass_b (m * 0.5);;
  add_planet mass_e 16.64 0.1397 118.8 1.261;;
  add_planet mass_d 26.29 0.1112 24.3 2.032;;
  add_planet mass_c 43.12 0.0561 28.5 4.232;;
  add_planet mass_b 70.50 0.0113 213.6 2.642;;
  r ← get_sim; rb_move_to_com r.

Definition cell_75724b6c : NB unit :=
  r ← get_sim; rb_integrate r 1000000;;
  r ← get_sim; p ← rb_OrbitPlot r; assign_op p.

Definition cell_44c27ba9 : NB unit :=
  r ← get_sim; rb_status r.

(** Run the cells from top to bottom; the first exception stops the run. *)
Definition run_all (cells : list (NB unit)) : NB unit :=
  for_each cells (fun c => c).

End Cells.
End Cells.

Module Part000.
Section Notebook.
Context `{L : Rebound}.
Import Py Cells.

Definition cell_90bb9693 : NB unit := shell "pip install rebound".

Definition cell_37cd1c10 : NB unit :=
  shell "%matplotlib inline";;
  shell "%matplotlib widget";;
  import "matplotlib.pyplot";;
  import "numpy";;
  import "rebound";;
  import "IPython.display".

Definition animation_frame : NB unit :=
  timestep;;
  display "clear_output";;
  p ← get_op; rb_update p;;
  get_fig;; display "fig.canvas.draw".

Definition cell_337451a2 : NB unit :=
  assign_nframe 500;;
  r ← get_sim; s ← deref r; assign_float framestep (sim_dt s);;
  get_op;; assign_fig tt;;
  n ← get_nframe;
  for_each (range n) (fun _ => animation_frame).

Definition cell_6e7036c7 : NB unit :=
  r ← get_sim; p ← rb_OrbitPlot r; assign_op p.

Definition zoom_frame : NB unit :=
  timestep;;
  p ← get_op; rb_update p;;
  get_fig;; display "fig.canvas.draw".

Definition cell_fa08bc25 : NB unit :=
  assign_nframe 500;;
  r ← get_sim; s ← deref r; assign_float framestep (1 * sim_dt s);;
  get_op;; assign_fig tt;;
  n ← get_nframe;
  for_each (range n) (fun _ => zoom_frame).

Definition notebook : list (NB unit) :=
  [ cell_90bb9693; cell_37cd1c10; cell_ae108e7f; cell_a20bd72a; cell_6b6cbae2;
    cell_2eb7fc48; cell_2a7b7034; cell_337451a2; cell_1d189774; cell_ea6ed7d6;
    cell_76ca7354; cell_40ea86cc; cell_6e7036c7; cell_fa08bc25;
    cell_6cb48360 7.3e-3; cell_75724b6c; cell_44c27ba9 ].

End Notebook.
End Part000.

Module HR8799.
Section Notebook.
Context `{L : Rebound}.
Import Py Cells.

Definition cell_90bb9693 : NB unit := shell "pip install rebound==3.28.4".

Definition cell_37c0d5dd : NB unit :=
  shell "%matplotlib inline";;
  shell "%matplotlib widget";;
  import "matplotlib.pyplot";;
  import "numpy";;
  import "rebound";;
  import "IPython".

Definition animation_frame : NB unit :=
  timestep;;
  display "plt.gcf";; display "display.display";;
  display "display.clear_output";;
  p ← get_op; rb_update p.

Definition cell_337451a2 : NB unit :=
  assign_nframe 220;;
  r ← get_sim; s ← deref r; assign_float framestep (sim_dt s);;
  get_op;; assign_fig tt;;
  n ← get_nframe;
  for_each (range n) (fun _ => animation_frame).

Definition cell_fa08bc25 : NB unit :=
  r ← get_sim; p ← rb_OrbitPlot r; assign_op p;;
  display "plt.plot";;
  assign_nframe 220;;
  r ← get_sim; s ← deref r; assign_float framestep (1 * sim_dt s);;
  n ← get_nframe;
  for_each (range n) (fun _ => animation_frame).

Definition notebook : list (NB unit) :=
  [ cell_90bb9693; cell_37c0d5dd; cell_ae108e7f; cell_a20bd72a; cell_6b6cbae2;
    cell_2eb7fc48; cell_2a7b7034; cell_337451a2; cell_1d189774; cell_ea6ed7d6;
    cell_76ca7354; cell_40ea86cc; cell_fa08bc25;
    cell_6cb48360 5e-3; cell_75724b6c; cell_44c27ba9 ].

End Notebook.
End HR8799.

(** ** Traces *)

Section Traces.
Context `{L : Rebound}.
Import Py.

(** The calls a statement makes: what it adds to the trace, in any outcome,
    all satisfy [P]. *)
Definition appends (P : Event -> Prop) (k k' : Kernel) : Prop :=
  exists evs, log k' = log k ++ evs /\ Forall P evs.

(** A property of a statement that holds from every kernel and whether it
    completes or raises. *)
Definition respects (R : Kernel -> Kernel -> Prop) {A} (m : NB A) : Prop :=
  forall k, R k (kernel_of (m k)).

(** What holds of the result and the kernel whenever [m] completes from
    [k]. *)
Definition wp {A} (m : NB A) (Q : A -> Kernel -> Prop) (k : Kernel) : Prop :=
  forall a k', m k = Done a k' -> Q a k'.

(** [m] completes from [k], with a result and a kernel of which [Q] holds. *)
Definition twp {A} (m : NB A) (Q : A -> Kernel -> Prop) (k : Kernel) : Prop :=
  exists a k', m k = Done a k' /\ Q a k'.

Definition supplied (o : option R) : bool :=
  match o with Some _ => true | None => false end.

(** All six orbital elements are given. *)
Definition keplerian (args : AddArgs) : bool :=
  supplied (kw_a args) && supplied (kw_e args) && supplied (kw_inc args)
  && supplied (kw_Omega args) && supplied (kw_omega args)
  && supplied (kw_M args).

(** Only the mass is given. *)
Definition mass_only (args : AddArgs) : bool :=
  supplied (kw_m args)
  && negb (supplied (kw_a args) || supplied (kw_e args) || supplied (kw_inc args)
           || supplied (kw_Omega args) || supplied (kw_omega args)
           || supplied (kw_M args)).

Definition add_is_keplerian (ev : Event) : Prop :=
  match ev with
  | EAdd _ args => keplerian args = true
  | _ => True
  end.

Definition add_is_star_or_keplerian (ev : Event) : Prop :=
  match ev with
  | EAdd _ args =>
      args = Cells.star_args \/ (supplied (kw_m args) && keplerian args = true)
  | _ => True
  end.

(** The initial kernel: nothing bound, nothing allocated, no files. *)
Definition initial : Kernel :=
  {| g_sim := None; g_op := None; g_fig := None; g_nframe := None;
     g_float := fun _ => None; heap := fun _ => new_simulation; next := 0%nat;
     files := ∅; out := []; log := [] |}.

End Traces.

(** ** What the proofs assume of the library, where they assume anything *)

Section Contracts.
Context `{L : Rebound}.

(** [sim.integrate(tmax)] returns with the clock at [tmax]. *)
Definition integrate_reaches_tmax : Prop :=
  forall tmax s s', integrate tmax s = Ok s' -> sim_t s' = tmax.


(** A call that raises nothing. *)
Definition total {A B} (f : A -> result B) : Prop :=
  forall a, exists b, f a = Ok b.

(** A call that leaves the gravitational constant and the units alone. *)
Definition keeps_G (f : Simulation -> result Simulation) : Prop :=
  forall s s', f s = Ok s' -> sim_G s' = sim_G s /\ sim_units s' = sim_units s.

(** [calculate_orbits] gives back the elements bodies were added with: a
    simulation holding the star alone has no orbit; a body added by its
    elements to a simulation that holds a body already adds, to the orbits
    there were, one with those elements; and [add] adds one body. *)
Definition returns_elements : Prop :=
  (forall s s',
      sim_particles s = [] -> add Cells.star_args s = Ok s' ->
      calculate_orbits s' = Ok [])
  /\ (forall s s' os m a e w M i O,
        sim_particles s <> [] -> calculate_orbits s = Ok os ->
        add (Cells.planet_args m a e w M i O) s = Ok s' ->
        exists P,
          calculate_orbits s' =
          Ok (os ++ [{| o_a := a; o_e := e; o_omega := w; o_inc := i;
                        o_Omega := O; o_P := P |}]))
  /\ (forall args s s',
        add args s = Ok s' ->
        length (sim_particles s') = S (length (sim_particles s))).

End Contracts.

(** ** Where simulation states come from *)

Section Provenance.
Context `{L : Rebound}.
Import Py.

(** One change of a simulation: the result of a library call on it, or the
    assignment of one of its attributes [G] and [dt]. *)
Inductive lib_step : Simulation -> Simulation -> Prop :=
| by_assign_units u s s' : assign_units u s = Ok s' -> lib_step s s'
| by_add args s s' : add args s = Ok s' -> lib_step s s'
| by_move_to_com s s' : move_to_com s = Ok s' -> lib_step s s'
| by_integrate tmax s s' : integrate tmax s = Ok s' -> lib_step s s'
| by_set_G g s : lib_step s (set_G g s)
| by_set_dt x s : lib_step s (set_dt x s).

(** A simulation the library created or loaded, and then changed so. *)
Definition derived (s : Simulation) : Prop :=
  exists s0,
    (s0 = new_simulation \/ exists ar, load ar = Ok s0) /\ rtc lib_step s0 s.

(** Between two kernels, every simulation object that was there went
    through changes of the kind above, every new one was created or loaded
    by the library and then changed so, and every file that is not as it
    was holds what the library's [save] returned. *)
Definition delegated (k k' : Kernel) : Prop :=
  (next k <= next k')%nat
  /\ (forall r, (r < next k)%nat -> rtc lib_step (heap k r) (heap k' r))
  /\ (forall r, (next k <= r < next k')%nat -> derived (heap k' r))
  /\ (forall f ar,
        files k' !! f = Some ar ->
        files k !! f = Some ar \/ exists s old, save s old = Ok ar).

(** A state the library made: a state of one of the simulation objects of
    [k], or one the library created or loaded, after changes of the kind
    above. *)
Definition from_library (k : Kernel) (s : Simulation) : Prop :=
  (exists r, rtc lib_step (heap k r) s) \/ derived s.

(** The numbers of a printed line are read off what the library holds or
    returned: the elements of an orbit [calculate_orbits] returned, its
    three angles divided by one number; the period of such an orbit; or the
    coordinates of a body of the simulation. *)
Definition library_line (k : Kernel) (l : Line) : Prop :=
  match l with
  | Text _ => True
  | Row xs =>
      exists s,
        from_library k s
        /\ ((exists os o d,
                calculate_orbits s = Ok os /\ In o os
                /\ xs = [o_a o; o_e o; o_omega o / d; o_inc o / d;
                         o_Omega o / d])
            \/ (exists os o,
                  calculate_orbits s = Ok os /\ In o os /\ xs = [o_P o])
            \/ (exists p,
                  In p (sim_particles s) /\ xs = [p_x p; p_y p; p_z p]))
  end.

(** Between two kernels, every simulation state is the library's and every
    line printed is read off the library's. *)
Definition reported (k k' : Kernel) : Prop :=
  (forall r, from_library k (heap k' r))
  /\ exists ls, out k' = out k ++ ls /\ Forall (library_line k) ls.

End Provenance.

(** ** Reading the trace *)

Section Reading.
Context `{L : Rebound}.
Import Py.

Definition is_integrate (ev : Event) : bool :=
  match ev with EIntegrate _ _ => true | _ => false end.

Definition is_plot_update (ev : Event) : bool :=
  match ev with EPlotUpdate _ => true | _ => false end.

Definition count (p : Event -> bool) (l : list Event) : nat :=
  length (List.filter p l).

(** Calls that create, fill, save or configure a simulation. *)
Definition is_structural (ev : Event) : bool :=
  match ev with
  | ENew _ | ELoad _ _ | ESave _ _ | EAdd _ _ | ESetUnits _ _ | ESetG _ _ => true
  | _ => false
  end.

Definition structural (l : list Event) : list Event :=
  List.filter is_structural l.



Definition sets_G_or_units (ev : Event) : bool :=
  match ev with ESetUnits _ _ | ESetG _ _ => true | _ => false end.


(** Files other than [f] are as they were. *)
Definition files_agree_off (f : string) (k k' : Kernel) : Prop :=
  forall f', f' <> f -> files k' !! f' = files k !! f'.

(** A statement that creates, fills, saves and configures nothing and
    leaves [sim], the allocator and the float names other than [framestep]
    as they were. *)
Definition quiet (k k' : Kernel) : Prop :=
  g_sim k' = g_sim k /\ next k' = next k
  /\ (forall x, x <> framestep -> g_float k' x = g_float k x)
  /\ structural (log k') = structural (log k).

(** [sim] and [op.sim] are the same object [r]. *)
Definition aliased (r : ref) (k : Kernel) : Prop :=
  g_sim k = Some r /\ g_op k = Some {| op_sim := r |}.

(** A kernel in which [sim] and [op.sim] are object 0. *)
Definition plotted : Kernel :=
  with_op (Some {| op_sim := 0%nat |})
    (with_sim (Some 0%nat) (with_next 1%nat initial)).

(** The clock [t] after [n] frames: [f] added to it [n] times, each sum
    rounded. *)
Definition stepped (n : nat) (f t : R) : R :=
  Nat.iter n (fun t => fadd t f) t.

(** A kernel in which [sim] is object 0 and [op] is unbound. *)
Definition unplotted : Kernel :=
  with_sim (Some 0%nat) (with_next 1%nat initial).

(** A kernel in which [op.sim] is object 0 and [sim] is object 1. *)
Definition replaced : Kernel :=
  with_sim (Some 1%nat) (with_next 2%nat plotted).

(** The loop bodies of the animation cells. *)
Definition frames : list (NB unit) :=
  [ Part000.animation_frame; Part000.zoom_frame; HR8799.animation_frame ].

(** What a frame needs to find bound. *)
Definition frame_ready (k : Kernel) : Prop :=
  is_Some (g_sim k) /\ is_Some (g_op k) /\ is_Some (g_float k framestep)
  /\ is_Some (g_fig k).

Definition frame_ready_nofig (k : Kernel) : Prop :=
  is_Some (g_sim k) /\ is_Some (g_op k) /\ is_Some (g_float k framestep).

(** [sim] and [op.sim] are [r] and [framestep] is [f]. *)
Definition stepping (r : ref) (f : R) (k : Kernel) : Prop :=
  aliased r k /\ g_float k framestep = Some f.

(** What a run from top to bottom has to keep track of: the object [sim]
    names, the next free reference, the floats the body additions read, and
    the creating, filling, saving and configuring calls so far. *)
Definition at_state (k : Kernel) (s : option ref) (n : ref)
    (d i O me : option R) (tr : list Event) : Prop :=
  g_sim k = s /\ next k = n /\ g_float k dtor = d /\ g_float k inc_pl = i
  /\ g_float k Omega_pl = O /\ g_float k mass_e = me
  /\ structural (log k) = tr.

(** Cells that create, fill, save and configure nothing. *)
Definition quiet_cells : list (NB unit) :=
  [ Part000.cell_90bb9693; Part000.cell_37cd1c10; Cells.cell_6b6cbae2;
    Cells.cell_2eb7fc48; Part000.cell_337451a2; Cells.cell_1d189774;
    Cells.cell_76ca7354; Cells.cell_40ea86cc; Part000.cell_6e7036c7;
    Part000.cell_fa08bc25; Cells.cell_75724b6c; Cells.cell_44c27ba9;
    HR8799.cell_90bb9693; HR8799.cell_37c0d5dd; HR8799.cell_337451a2;
    HR8799.cell_fa08bc25 ].

(** The row of the report for an orbit, with [d] bound to [dtor]. *)
Definition row (d : R) (o : Orbit) : Line :=
  Row [o_a o; o_e o; o_omega o / d; o_inc o / d; o_Omega o / d].

Definition with_lines (ls : list Line) (k : Kernel) : Kernel :=
  foldl (fun k l => with_line l k) k ls.

(** The kernel the set-up cell leaves when run first. *)
Definition set_up : Kernel := kernel_of (Cells.cell_ae108e7f initial).

(** The two notebooks, each with the literal of its last experiment. *)
Definition notebooks : list (list (NB unit) * R) :=
  [ (Part000.notebook, 7.3e-3); (HR8799.notebook, 5e-3) ].


(** The animation cells, each with the literal it binds to [nframe]. *)
Definition animation_cells : list (NB unit * nat) :=
  [ (Part000.cell_337451a2, 500%nat); (Part000.cell_fa08bc25, 500%nat);
    (HR8799.cell_337451a2, 220%nat); (HR8799.cell_fa08bc25, 220%nat) ].





(** The creating, filling, saving and configuring calls of a run of a
    notebook from top to bottom, with [n] the first free reference and [m]
    the literal of the last experiment. *)
Definition script (n : ref) (m : R) : list Event :=
  let d := PI / 180 in
  let planet mass a e w M :=
    Cells.planet_args mass a e (w * d) M (27.8 * d) (60.1 * d) in
  [ ENew n; ESetUnits n ("AU", "yr", "Msun")%string;
    ESetG n 39.476926408897626;
    EAdd n Cells.star_args;
    EAdd n (planet 5e-3 16.64 0.1397 118.8 1.261);
    EAdd n (planet 5e-3 26.29 0.1112 24.3 2.032);
    ESave n "start.bin";
    ELoad "start.bin" (S n);
    EAdd (S n) (planet 5e-3 43.12 0.0561 28.5 4.232);
    EAdd (S n) (planet 3e-3 70.50 0.0113 213.6 2.642);
    ENew (S (S n));
    EAdd (S (S n)) Cells.star_args;
    EAdd (S (S n)) (planet m 16.64 0.1397 118.8 1.261);
    EAdd (S (S n)) (planet m 26.29 0.1112 24.3 2.032);
    EAdd (S (S n)) (planet m 43.12 0.0561 28.5 4.232);
    EAdd (S (S n)) (planet (m * 0.5) 70.50 0.0113 213.6 2.642) ].

(** The angles a body-addition call hands to the library (argument of
    periastron, inclination, longitude of the node), and its mean anomaly. *)
Definition angles_of (ev : Event) : option (R * R * R) :=
  match ev with
  | EAdd _ a =>
      w ← kw_omega a; i ← kw_inc a; O ← kw_Omega a; Some (w, i, O)
  | _ => None
  end.

Definition anomaly_of (ev : Event) : option R :=
  match ev with EAdd _ a => kw_M a | _ => None end.

(** A planet's angles as the notebooks write them: [omega = w*dtor] with
    [inc = inc_pl = 27.8*dtor] and [Omega = Omega_pl = 60.1*dtor], where
    [dtor = np.pi/180]. *)
Definition written_angles (w : R) : R * R * R :=
  (w * (PI / 180), 27.8 * (PI / 180), 60.1 * (PI / 180)).

End Reading.

(** ** Running the cells in and out of order *)

Section Order.
Context `{L : Rebound}.
Import Py.

(** No call the notebooks make into the library raises; [load] is only
    asked of a file that is there. *)
Definition never_raises : Prop :=
  (forall u, total (assign_units u))
  /\ (forall a, total (add a))
  /\ total calculate_orbits
  /\ total move_to_com
  /\ (forall tmax, total (integrate tmax))
  /\ (forall s, total (save s))
  /\ (forall ar, exists s, load (Some ar) = Ok s)
  /\ total status
  /\ total orbit_plot
  /\ total plot_update.

(** What the cell that adds the first bodies leaves bound: [sim], [dtor]
    (pi/180), and the angles and the mass the body additions read. *)
Definition named (k : Kernel) : Prop :=
  is_Some (g_sim k)
  /\ g_float k dtor = Some (PI / 180)
  /\ is_Some (g_float k inc_pl) /\ is_Some (g_float k Omega_pl)
  /\ is_Some (g_float k mass_e).

(** What the first seven code cells leave behind them: those names, [op],
    and the file "start.bin". *)
Definition ready (k : Kernel) : Prop :=
  named k /\ is_Some (g_op k) /\ is_Some (files k !! "start.bin").

Definition is_add (ev : Event) : bool :=
  match ev with EAdd _ _ => true | _ => false end.

(** The files are as they were. *)
Definition same_files (k k' : Kernel) : Prop := files k' = files k.

(** The cells of a notebook other than the one that saves "start.bin". *)
Definition unsaving (nb : list (NB unit)) : list (NB unit) :=
  take 6 nb ++ drop 7 nb.

(** [load] gives back the simulation [save] was given. *)
Definition load_inverts_save : Prop :=
  forall s old ar, save s old = Ok ar -> load (Some ar) = Ok s.

End Order.

(** ** Exceptions of the library *)

Section Raising.
Context `{L : Rebound}.
Import Py.

(** The calls into the library that can raise. *)
Definition is_library_call (ev : Event) : bool :=
  match ev with
  | ELoad _ _ | ESetUnits _ _ | EAdd _ _ | ECalculateOrbits _ | EMoveToCom _
  | EIntegrate _ _ | ESave _ _ | EStatus _ | EOrbitPlot _ | EPlotUpdate _ =>
      true
  | _ => false
  end.

(** The library raises [msg] at every call that [bad] marks, whatever the
    simulation or the file it is made on. *)
Definition fails_on (bad : Event -> bool) (msg : string) : Prop :=
  (forall f r ar, bad (ELoad f r) = true -> load ar = Err msg)
  /\ (forall r u s, bad (ESetUnits r u) = true -> assign_units u s = Err msg)
  /\ (forall r a s, bad (EAdd r a) = true -> add a s = Err msg)
  /\ (forall r s, bad (ECalculateOrbits r) = true ->
        calculate_orbits s = Err msg)
  /\ (forall r s, bad (EMoveToCom r) = true -> move_to_com s = Err msg)
  /\ (forall r t s, bad (EIntegrate r t) = true -> integrate t s = Err msg)
  /\ (forall r f s old, bad (ESave r f) = true -> save s old = Err msg)
  /\ (forall r s, bad (EStatus r) = true -> status s = Err msg)
  /\ (forall r s, bad (EOrbitPlot r) = true -> orbit_plot s = Err msg)
  /\ (forall r s, bad (EPlotUpdate r) = true -> plot_update s = Err msg).

(** What a statement that handles no exception of a marked call has added
    to the trace, with its outcome: no marked call, or a marked call as the
    last thing it did, the statement ending there with the exception of the
    library. *)
Definition stops_at (bad : Event -> bool) (msg : string) {A}
    (o : outcome A) (evs : list Event) : Prop :=
  Forall (fun ev => bad ev = false) evs
  \/ exists pre ev k',
       evs = pre ++ [ev] /\ Forall (fun e => bad e = false) pre
       /\ bad ev = true /\ o = Raise (ReboundError msg) k'.

Definition propagates (bad : Event -> bool) (msg : string) {A}
    (m : NB A) : Prop :=
  forall k,
    exists evs,
      log (kernel_of (m k)) = log k ++ evs /\ stops_at bad msg (m k) evs.

End Raising.

(** ** A stand-in library

    It keeps the elements it is given instead of integrating: a body's
    elements are stored in the fields of its particle, integration only
    moves the clock, and a checkpoint is the simulation itself.  It is used
    to run the cells on concrete inputs. *)

Definition stub_particle (args : AddArgs) : Particle :=
  {| p_m := default 0 (kw_m args);
     p_x := default 0 (kw_a args);
     p_y := default 0 (kw_e args);
     p_z := default 0 (kw_omega args);
     p_vx := default 0 (kw_inc args);
     p_vy := default 0 (kw_Omega args);
     p_vz := default 0 (kw_M args) |}.

Definition stub_orbit (p : Particle) : Orbit :=
  {| o_a := p_x p; o_e := p_y p; o_omega := p_z p; o_inc := p_vx p;
     o_Omega := p_vy p; o_P := 0 |}.

Definition stub_rebound : Rebound :=
  {| Archive := Simulation;
     new_simulation :=
       {| sim_particles := []; sim_t := 0; sim_dt := 0.001; sim_G := 1;
          sim_units := None |};
     assign_units := fun u s =>
       Ok {| sim_particles := sim_particles s; sim_t := sim_t s;
             sim_dt := sim_dt s; sim_G := sim_G s; sim_units := Some u |};
     add := fun args s =>
       Ok {| sim_particles := sim_particles s ++ [stub_particle args];
             sim_t := sim_t s; sim_dt := sim_dt s; sim_G := sim_G s;
             sim_units := sim_units s |};
     calculate_orbits := fun s => Ok (stub_orbit <$> tail (sim_particles s));
     move_to_com := fun s => Ok s;
     integrate := fun tmax s =>
       Ok {| sim_particles := sim_particles s; sim_t := tmax;
             sim_dt := sim_dt s; sim_G := sim_G s; sim_units := sim_units s |};
     save := fun s _ => Ok s;
     load := fun ar =>
       match ar with
       | Some s => Ok s
       | None => Err "file not found"
       end;
     status := fun _ => Ok tt;
     orbit_plot := fun _ => Ok tt;
     plot_update := fun _ => Ok tt;
     round := fun x => x |}.

(** A kernel of the stand-in library as the first seven code cells leave
    it, with an empty simulation for [sim], [op.sim] and the checkpoint. *)
Definition checkpointed : @Py.Kernel stub_rebound :=
  Py.with_file (L:=stub_rebound) "start.bin"
    (new_simulation (Rebound:=stub_rebound))
    (Py.with_float mass_e 5e-3
       (Py.with_float Omega_pl (60.1 * (PI / 180))
          (Py.with_float inc_pl (27.8 * (PI / 180))
             (Py.with_float dtor (PI / 180) plotted)))).

(** A simulation of the stand-in library that holds the star and a
    planet, and a kernel in which [sim] and [op.sim] name it. *)
Definition two_bodies : Simulation :=
  {| sim_particles :=
       [stub_particle Cells.star_args;
        stub_particle (Cells.planet_args 5e-3 16.64 0.1397 2 1.261 0.5 1)];
     sim_t := 0; sim_dt := 0.001; sim_G := 1; sim_units := None |}.

Definition populated : @Py.Kernel stub_rebound :=
  Py.with_object 0%nat two_bodies plotted.


(** The stand-in library with an [integrate] that always raises. *)
Definition brittle_rebound : Rebound :=
  {| Archive := Simulation;
     new_simulation := @new_simulation stub_rebound;
     assign_units := @assign_units stub_rebound;
     add := @add stub_rebound;
     calculate_orbits := @calculate_orbits stub_rebound;
     move_to_com := @move_to_com stub_rebound;
     integrate := fun _ _ => Err "integration failed";
     save := @save stub_rebound;
     load := @load stub_rebound;
     status := @status stub_rebound;
     orbit_plot := @orbit_plot stub_rebound;
     plot_update := @plot_update stub_rebound;
     round := fun x => x |}.

(** A library that accepts every call and does nothing. *)
Definition idle_rebound : Rebound :=
  {| Archive := unit;
     new_simulation :=
       {| sim_particles := []; sim_t := 0; sim_dt := 0.001; sim_G := 1;
          sim_units := None |};
     assign_units := fun _ s => Ok s;
     add := fun _ s => Ok s;
     calculate_orbits := fun _ => Ok [];
     move_to_com := fun s => Ok s;
     integrate := fun _ s => Ok s;
     save := fun _ _ => Ok tt;
     load := fun _ => Ok
       {| sim_particles := []; sim_t := 0; sim_dt := 0.001; sim_G := 1;
          sim_units := None |};
     status := fun _ => Ok tt;
     orbit_plot := fun _ => Ok tt;
     plot_update := fun _ => Ok tt;
     round := fun x => x |}.

(** * Proofs *)

(** ** Composition of statements *)

Section Composition.
Context `{L : Rebound}.
Import Py.

Lemma bind_done {A B} (m : NB A) (f : A -> NB B) k b k' :
  (m ≫= f) k = Done b k' ->
  exists a k1, m k = Done a k1 /\ f a k1 = Done b k'.
Proof.
  unfold mbind, nb_bind, bind. destruct (m k) as [a k1|e k1]; [eauto|discriminate].
Qed.

Lemma bind_raise {A B} (m : NB A) (f : A -> NB B) k e k' :
  m k = Raise e k' -> (m ≫= f) k = Raise e k'.
Proof. unfold mbind, nb_bind, bind. intros ->. reflexivity. Qed.

Lemma bind_step {A B} (m : NB A) (f : A -> NB B) k a k1 :
  m k = Done a k1 -> (m ≫= f) k = f a k1.
Proof. unfold mbind, nb_bind, bind. intros ->. reflexivity. Qed.

Lemma respects_ret (R : Kernel -> Kernel -> Prop) `{!Reflexive R} {A} (a : A) :
  respects R (mret a : NB A).
Proof. intros k. reflexivity. Qed.

Lemma respects_raise (R : Kernel -> Kernel -> Prop) `{!Reflexive R} {A} e :
  respects R (raise e : NB A).
Proof. intros k. reflexivity. Qed.

Lemma respects_bind (R : Kernel -> Kernel -> Prop) `{!Transitive R} {A B}
    (m : NB A) (f : A -> NB B) :
  respects R m -> (forall a, respects R (f a)) -> respects R (m ≫= f).
Proof.
  intros Hm Hf k. specialize (Hm k).
  unfold mbind, nb_bind, bind. destruct (m k) as [a k1|e k1]; cbn in *.
  - etrans; [exact Hm|apply Hf].
  - exact Hm.
Qed.

Lemma respects_lift (R : Kernel -> Kernel -> Prop) `{!Reflexive R} {A}
    (res : result A) :
  respects R (lift res).
Proof. destruct res; intros k; reflexivity. Qed.

Lemma respects_for_each (R : Kernel -> Kernel -> Prop) `{!PreOrder R} {A}
    (xs : list A) (body : A -> NB unit) :
  (forall x, respects R (body x)) -> respects R (for_each xs body).
Proof.
  intros Hb. induction xs as [|x xs IH]; cbn.
  - apply respects_ret; apply _.
  - apply respects_bind; [apply _|apply Hb|intros _; exact IH].
Qed.

#[global] Instance appends_preorder P : PreOrder (appends P).
Proof.
  split.
  - intros k. exists []. rewrite app_nil_r. auto.
  - intros k1 k2 k3 (e1 & H1 & F1) (e2 & H2 & F2).
    exists (e1 ++ e2). rewrite H2, H1, app_assoc. split; [done|].
    apply Forall_app; auto.
Qed.

End Composition.

(** Proving [respects R m] by following the structure of [m]; [leaf] closes
    the goals [R k k'] for the kernels [k'] a single statement leaves, and
    [call], when it applies, proves [respects R m] for a library call [m]
    as a whole. *)

Ltac head_of t :=
  lazymatch t with
  | ?f _ => head_of f
  | _ => t
  end.

Ltac respects_leaf leaf :=
  let k := fresh "k" in
  intros k;
  unfold Py.emit, Py.print, Py.get_sim, Py.assign_sim, Py.del_sim, Py.get_op,
    Py.assign_op, Py.get_fig, Py.assign_fig, Py.get_nframe, Py.assign_nframe,
    Py.get_float, Py.assign_float, Py.deref, Py.store, Py.fresh, Py.alloc,
    Py.read_file, Py.write_file;
  cbn; repeat case_match; cbn; leaf.

Ltac respects_calls call leaf :=
  lazymatch goal with
  | |- respects _ (_ ≫= _) =>
      apply respects_bind;
      [apply _ | respects_calls call leaf | intros ?; respects_calls call leaf]
  | |- respects _ (Py.for_each _ _) =>
      apply respects_for_each; [apply _ | intros ?; respects_calls call leaf]
  | |- respects _ (Py.lift _) => apply respects_lift; apply _
  | |- respects _ (mret _) => apply respects_ret; apply _
  | |- respects _ (Py.raise _) => apply respects_raise; apply _
  | |- respects _ (Py.div _ _) =>
      unfold Py.div; case_match; respects_calls call leaf
  | |- respects _ ?m =>
      let h := head_of m in
      lazymatch h with
      | @Py.emit => respects_leaf leaf
      | @Py.print => respects_leaf leaf
      | @Py.get_sim => respects_leaf leaf
      | @Py.assign_sim => respects_leaf leaf
      | @Py.del_sim => respects_leaf leaf
      | @Py.get_op => respects_leaf leaf
      | @Py.assign_op => respects_leaf leaf
      | @Py.get_fig => respects_leaf leaf
      | @Py.assign_fig => respects_leaf leaf
      | @Py.get_nframe => respects_leaf leaf
      | @Py.assign_nframe => respects_leaf leaf
      | @Py.get_float => respects_leaf leaf
      | @Py.assign_float => respects_leaf leaf
      | @Py.deref => respects_leaf leaf
      | @Py.store => respects_leaf leaf
      | @Py.fresh => respects_leaf leaf
      | @Py.alloc => respects_leaf leaf
      | @Py.read_file => respects_leaf leaf
      | @Py.write_file => respects_leaf leaf
      | _ => first [ call | unfold h; respects_calls call leaf ]
      end
  end.

Ltac respects_go leaf := respects_calls ltac:(fail) leaf.

(** The leaf for [appends P]: the trace is unchanged, or one event [ev] with
    [P ev] (closed by [tac]) was added. *)
Ltac appends_leaf tac :=
  first
    [ reflexivity
    | exists []; split; [cbn; by rewrite app_nil_r | constructor]
    | eexists [_]; split; [reflexivity | constructor; [tac | constructor]] ].

(** Unfolding the statements down to kernel updates. *)
Create HintDb nb discriminated.
#[global] Hint Unfold Py.emit Py.print Py.get_sim Py.assign_sim Py.del_sim
  Py.get_op Py.assign_op Py.get_fig Py.assign_fig Py.get_nframe
  Py.assign_nframe Py.get_float Py.assign_float Py.deref Py.store Py.fresh
  Py.alloc Py.read_file Py.write_file Py.lift Py.raise Py.ret Py.bind
  Py.rb_Simulation Py.rb_Simulation_from Py.rb_set_units Py.rb_set_G
  Py.rb_set_dt Py.rb_add Py.rb_calculate_orbits Py.rb_move_to_com
  Py.rb_integrate Py.rb_save Py.rb_status Py.rb_OrbitPlot Py.rb_update
  Py.display Py.shell Py.import Py.nb_ret Py.nb_bind Py.div
  Cells.over_dtor Cells.add_star Cells.add_planet
  Cells.timestep Cells.cell_ae108e7f Cells.cell_a20bd72a Cells.cell_6b6cbae2
  Cells.cell_2eb7fc48 Cells.cell_2a7b7034 Cells.cell_1d189774
  Cells.cell_ea6ed7d6 Cells.cell_76ca7354 Cells.cell_40ea86cc
  Cells.cell_6cb48360 Cells.cell_75724b6c Cells.cell_44c27ba9
  Part000.cell_90bb9693 Part000.cell_37cd1c10
  Part000.cell_337451a2 Part000.cell_6e7036c7
  Part000.cell_fa08bc25 HR8799.cell_90bb9693 HR8799.cell_37c0d5dd
  HR8799.cell_337451a2 HR8799.cell_fa08bc25 : nb.

Ltac nb_unfold := autounfold with nb; unfold mbind, mret.
Ltac nb_unfold_in H := autounfold with nb in H; unfold mbind, mret in H.

(** Simplifying after unfolding: kernel projections by computation, lookups
    of updated names and objects by rewriting. *)
Ltac nb_simpl :=
  cbn;
  repeat (first [ rewrite fn_lookup_insert
                | rewrite fn_lookup_insert_ne by (done || lia) ]; cbn).

Ltac nb_simpl_in H :=
  cbn in H;
  repeat (first [ rewrite fn_lookup_insert in H
                | rewrite fn_lookup_insert_ne in H by (done || lia) ]; cbn in H).

Ltac nb_eval := repeat (progress (nb_unfold; nb_simpl)).
Ltac nb_eval_in H := repeat (progress (nb_unfold_in H; nb_simpl_in H)).

(** Running a statement on a concrete kernel, splitting on the divisions. *)
Ltac nb_run :=
  repeat first
    [ progress nb_eval
    | match goal with
      | |- context [Req_dec_T ?a ?b] => destruct (Req_dec_T a b)
      end ].

(** Following a statement that completed: [H : m k = Done a k'] is unfolded
    and simplified; the outcome of each library call and each read of a
    name is split on, or taken from the context when it is known there. *)
Ltac find_scrutinee t tac :=
  lazymatch t with
  | context [match ?x with _ => _ end] =>
      lazymatch x with
      | context [match _ with _ => _ end] => find_scrutinee x tac
      | _ => tac x
      end
  end.

Ltac nb_split H :=
  let T := type of H in
  find_scrutinee T ltac:(fun x =>
    first
      [ match goal with E : x = _ |- _ => rewrite E in H end
      | let E := fresh "E" in destruct x eqn:E; try discriminate H ]).

Ltac nb_exec H :=
  repeat first [ progress nb_eval_in H | nb_split H ].

(** [H : Done a k1 = Done a k'] names the final kernel. *)
Ltac nb_done H k' := injection H as H; subst k'.

Ltac nb_split_goal :=
  lazymatch goal with
  | |- ?T =>
      find_scrutinee T ltac:(fun x =>
        first
          [ match goal with E : x = _ |- _ => rewrite E end
          | let E := fresh "E" in destruct x eqn:E ])
  end.

Ltac nb_exec_goal :=
  repeat first [ progress nb_eval | nb_split_goal ].

Section Loops.
Context `{L : Rebound}.
Import Py.

Lemma count_app p l1 l2 : count p (l1 ++ l2) = (count p l1 + count p l2)%nat.
Proof. unfold count. by rewrite List.filter_app, length_app. Qed.

Lemma for_each_cons {A} (x : A) xs (body : A -> NB unit) k :
  for_each (x :: xs) body k =
  match body x k with
  | Done _ k1 => for_each xs body k1
  | Raise e k1 => Raise e k1
  end.
Proof. reflexivity. Qed.

(** An invariant indexed by the number of iterations done. *)
Lemma for_each_invariant {A} (I : nat -> Kernel -> Prop) (body : A -> NB unit) :
  (forall x j k k', I j k -> body x k = Done tt k' -> I (S j) k') ->
  forall xs j k k',
    I j k -> for_each xs body k = Done tt k' -> I (j + length xs)%nat k'.
Proof.
  intros Hb xs. induction xs as [|x xs IH]; intros j k k' HI H.
  - cbn in H. injection H as <-. by rewrite Nat.add_0_r.
  - rewrite for_each_cons in H.
    destruct (body x k) as [[] k1|] eqn:E; [|discriminate].
    cbn [length]. rewrite <- Nat.add_succ_comm. eauto.
Qed.

(** A loop whose body completes under the invariant completes. *)
Lemma for_each_completes {A} (I : Kernel -> Prop) (body : A -> NB unit) :
  (forall x k, I k -> exists k', body x k = Done tt k' /\ I k') ->
  forall xs k, I k -> exists k', for_each xs body k = Done tt k'.
Proof.
  intros Hb xs. induction xs as [|x xs IH]; intros k HI.
  - eexists. reflexivity.
  - rewrite for_each_cons. destruct (Hb x k HI) as (k1 & -> & HI1). eauto.
Qed.

(** Calls are counted iteration by iteration: exactly when the loop
    completes, and as a bound in any outcome. *)
Lemma for_each_counts {A} (p : Event -> bool) (body : A -> NB unit) c :
  (forall x k k', body x k = Done tt k' ->
     exists evs, log k' = log k ++ evs /\ count p evs = c) ->
  forall xs k k',
    for_each xs body k = Done tt k' ->
    exists evs, log k' = log k ++ evs /\ count p evs = (length xs * c)%nat.
Proof.
  intros Hb xs. induction xs as [|x xs IH]; intros k k' H.
  - cbn in H. injection H as <-. exists []. by rewrite app_nil_r.
  - rewrite for_each_cons in H.
    destruct (body x k) as [[] k1|] eqn:E; [|discriminate].
    destruct (Hb _ _ _ E) as (e1 & H1 & C1).
    destruct (IH _ _ H) as (e2 & H2 & C2).
    exists (e1 ++ e2). rewrite H2, H1, app_assoc, count_app, C1, C2.
    split; [done|]. cbn [length]. lia.
Qed.

Lemma for_each_counts_le {A} (p : Event -> bool) (body : A -> NB unit) c :
  (forall x k,
     exists evs, log (kernel_of (body x k)) = log k ++ evs
                 /\ (count p evs <= c)%nat) ->
  forall xs k,
    exists evs, log (kernel_of (for_each xs body k)) = log k ++ evs
                /\ (count p evs <= length xs * c)%nat.
Proof.
  intros Hb xs. induction xs as [|x xs IH]; intros k.
  - exists []. cbn. rewrite app_nil_r. split; [done|]. unfold count. cbn. lia.
  - rewrite for_each_cons. destruct (Hb x k) as (e1 & H1 & C1).
    destruct (body x k) as [[] k1|e k1]; cbn in H1.
    + destruct (IH k1) as (e2 & H2 & C2).
      exists (e1 ++ e2). rewrite H2, H1, app_assoc, count_app.
      split; [done|]. cbn [length]. lia.
    + exists e1. split; [done|]. cbn [length]. lia.
Qed.

Lemma length_range n : length (range n) = n.
Proof. apply length_seq. Qed.

End Loops.

#[global] Arguments Py.range : simpl never.
#[global] Opaque Py.range.

(** ** C2: which body additions carry orbital elements *)

Section Body_additions.
Import Py Cells.

(** What a statement has put on the trace stays there. *)
Lemma bind_keeps_trace `{L : Rebound} {A B} (m : NB A) (f : A -> NB B) k :
  (forall a, respects (appends (fun _ => True)) (f a)) ->
  exists evs,
    log (kernel_of ((m ≫= f) k)) = log (kernel_of (m k)) ++ evs.
Proof.
  intros Hf. unfold mbind, nb_bind, bind.
  destruct (m k) as [a k1|e k1]; cbn.
  - destruct (Hf a k1) as (evs & -> & _). eauto.
  - exists []. by rewrite app_nil_r.
Qed.

(** C2, as stated, fails: run on the stand-in library after the set-up cell,
    the fourth call of the trace of cell a20bd72a is [sim.add(m=1.50)], the
    central star, which is given a mass and none of the six elements. *)
Lemma C2_star_added_without_elements :
  let k := kernel_of (cell_ae108e7f (L:=stub_rebound) initial) in
  log (kernel_of (cell_a20bd72a k)) !! 3%nat = Some (EAdd 0%nat star_args)
  /\ keplerian star_args = false.
Proof.
  split; [|reflexivity].
  unfold cell_a20bd72a.
  match goal with
  | |- context [kernel_of ((?m ≫= ?f) ?k)] =>
      destruct (bind_keeps_trace m f k) as [evs ->]
  end.
  - intros _. respects_go ltac:(appends_leaf ltac:(exact I)).
  - reflexivity.
Qed.

(** C2, amended: whatever the library does and from whatever kernel a cell
    of either notebook is run, each [sim.add] call it makes is either the
    star's [sim.add(m=1.50)] or gives a mass and all six orbital elements. *)
Theorem C2_additions_are_star_or_keplerian `{L : Rebound} :
  Forall (respects (appends add_is_star_or_keplerian))
         (Part000.notebook ++ HR8799.notebook).
Proof.
  repeat constructor; respects_go ltac:(appends_leaf ltac:(cbn; auto)).
Qed.

End Body_additions.

(** ** The animation loops (C7, C1) *)

(** Closing a goal [exists evs, log k' = log k ++ evs /\ _] once [k'] is an
    explicit update of [k]. *)
Ltac trace_done :=
  cbn; rewrite <- ?app_assoc;
  first [ exists []; split; [by rewrite app_nil_r|]
        | eexists; split; [reflexivity|] ].

(** A library call that cannot fail did not fail. *)
Ltac absurd_total :=
  match goal with
  | E : integrate ?t ?s = Err _, T : forall tmax, total (integrate tmax) |- _ =>
      destruct (T t s); congruence
  | E : ?f ?a = Err _, T : total ?f |- _ => destruct (T a); congruence
  end.

Ltac unfold_frames :=
  unfold Part000.animation_frame, Part000.zoom_frame, HR8799.animation_frame.
Ltac unfold_frames_in H :=
  unfold Part000.animation_frame, Part000.zoom_frame, HR8799.animation_frame
    in H.

Section Frames.
Context `{L : Rebound}.
Import Py Cells.

(** One frame makes one [integrate] call and one [op.update()] call. *)
Lemma frame_calls_done frame k k' :
  In frame frames -> frame k = Done tt k' ->
  exists evs, log k' = log k ++ evs
              /\ count is_integrate evs = 1%nat
              /\ count is_plot_update evs = 1%nat.
Proof.
  intros [<-|[<-|[<-|[]]]] H; unfold_frames_in H; nb_exec H; simplify_eq;
    trace_done; done.
Qed.

Lemma frame_calls_le frame k :
  In frame frames ->
  exists evs, log (kernel_of (frame k)) = log k ++ evs
              /\ (count is_integrate evs <= 1)%nat.
Proof.
  intros [<-|[<-|[<-|[]]]]; unfold_frames; nb_exec_goal; trace_done;
    unfold count; cbn; lia.
Qed.

Lemma frame_completes frame k :
  (forall tmax, total (integrate tmax)) -> total plot_update ->
  In frame [Part000.animation_frame; Part000.zoom_frame] ->
  frame_ready k -> exists k', frame k = Done tt k' /\ frame_ready k'.
Proof.
  intros Hi Hu Hin ([r Hr] & [p Hp] & [f Hf] & [u Hu']).
  destruct Hin as [<-|[<-|[]]]; unfold_frames; nb_exec_goal;
    try absurd_total; (eexists; split; [reflexivity|]);
    unfold frame_ready; cbn; rewrite Hr, Hp, Hf, Hu'; eauto.
Qed.

Lemma frame_completes_nofig k :
  (forall tmax, total (integrate tmax)) -> total plot_update ->
  frame_ready_nofig k ->
  exists k', HR8799.animation_frame k = Done tt k' /\ frame_ready_nofig k'.
Proof.
  intros Hi Hu ([r Hr] & [p Hp] & [f Hf]).
  unfold_frames; nb_exec_goal;
    try absurd_total; repeat match goal with u : () |- _ => destruct u end;
    (eexists; split; [reflexivity|]);
    unfold frame_ready_nofig; cbn; rewrite Hr, Hp, Hf; eauto.
Qed.

(** With [sim] and [op.sim] the same object, a frame moves its clock on by
    [framestep]. *)
Lemma frame_advances frame r f k k' :
  integrate_reaches_tmax -> In frame frames ->
  stepping r f k -> frame k = Done tt k' ->
  stepping r f k' /\ sim_t (heap k' r) = fadd (sim_t (heap k r)) f.
Proof.
  intros Hlaw Hin [[Hs Hp] Hf] H.
  destruct Hin as [<-|[<-|[<-|[]]]]; unfold_frames_in H; nb_exec H;
    simplify_eq; unfold stepping, aliased; nb_simpl;
    (split; [done|]);
    match goal with E : integrate _ _ = Ok _ |- _ => apply Hlaw in E end;
    done.
Qed.

Lemma frames_advance frame r f xs k k' :
  integrate_reaches_tmax -> In frame frames ->
  stepping r f k -> for_each xs (fun _ : nat => frame) k = Done tt k' ->
  stepping r f k'
  /\ sim_t (heap k' r) = stepped (length xs) f (sim_t (heap k r)).
Proof.
  intros Hlaw Hin Hk H.
  pose (I := fun (j : nat) (k1 : Kernel) =>
    stepping r f k1 /\ sim_t (heap k1 r) = stepped j f (sim_t (heap k r))).
  assert (HI : I (0 + length xs)%nat k').
  { eapply (for_each_invariant I); [|split; [exact Hk|reflexivity]|exact H].
    intros _ j k1 k2 [Hs Ht] Hb.
    destruct (frame_advances frame r f k1 k2 Hlaw Hin Hs Hb) as [Hs' Ht'].
    split; [done|]. by rewrite Ht', Ht. }
  exact HI.
Qed.


End Frames.

Section Animation.
Context `{L : Rebound}.
Import Py Cells.

Lemma frames_calls_done frame xs k k' :
  In frame frames -> for_each xs (fun _ : nat => frame) k = Done tt k' ->
  exists evs, log k' = log k ++ evs
              /\ count is_integrate evs = length xs
              /\ count is_plot_update evs = length xs.
Proof.
  intros Hin H.
  destruct (for_each_counts is_integrate (fun _ : nat => frame) 1) with
    (xs := xs) (k := k) (k' := k') as (e1 & H1 & C1); [|done|].
  { intros _ k1 k2 Hb.
    destruct (frame_calls_done _ _ _ Hin Hb) as (e & ? & ? & ?). eauto. }
  destruct (for_each_counts is_plot_update (fun _ : nat => frame) 1) with
    (xs := xs) (k := k) (k' := k') as (e2 & H2 & C2); [|done|].
  { intros _ k1 k2 Hb.
    destruct (frame_calls_done _ _ _ Hin Hb) as (e & ? & ? & ?). eauto. }
  rewrite H1 in H2. apply app_inv_head in H2. subst e2.
  exists e1. rewrite C1, C2. split_and!; [done|lia|lia].
Qed.

Lemma frames_calls_le frame xs k :
  In frame frames ->
  exists evs, log (kernel_of (for_each xs (fun _ : nat => frame) k))
              = log k ++ evs
              /\ (count is_integrate evs <= length xs)%nat.
Proof.
  intros Hin.
  destruct (for_each_counts_le is_integrate (fun _ : nat => frame) 1) with
    (xs := xs) (k := k) as (e & H & C).
  { intros _ k1. by apply frame_calls_le. }
  exists e. split; [done|lia].
Qed.

Lemma animation_calls_done c n k k' :
  In (c, n) animation_cells -> c k = Done tt k' ->
  exists evs, log k' = log k ++ evs
              /\ count is_integrate evs = n
              /\ count is_plot_update evs = n.
Proof.
  intros Hin H.
  destruct Hin as [Hc|[Hc|[Hc|[Hc|[]]]]]; injection Hc as <- <-;
    nb_exec H;
    apply frames_calls_done in H; [|cbn; auto..];
    destruct H as (e & H & C1 & C2); rewrite length_range in C1, C2;
    revert H; cbn; rewrite <- ?app_assoc; intros H;
    eexists; (split; [exact H|]); rewrite ?count_app, C1, C2; done.
Qed.

Lemma animation_calls_le c n k :
  In (c, n) animation_cells ->
  exists evs, log (kernel_of (c k)) = log k ++ evs
              /\ (count is_integrate evs <= n)%nat.
Proof.
  intros Hin.
  destruct Hin as [Hc|[Hc|[Hc|[Hc|[]]]]]; injection Hc as <- <-;
    nb_exec_goal;
    lazymatch goal with
    | |- context [for_each ?xs (fun _ => ?frame) ?k0] =>
        destruct (frames_calls_le frame xs k0) as (e & -> & C);
        [cbn; auto|rewrite length_range in C];
        cbn; rewrite <- ?app_assoc; eexists; (split; [reflexivity|]);
        rewrite ?count_app; unfold count in *; cbn; lia
    | |- _ => trace_done; unfold count; cbn; lia
    end.
Qed.

Lemma animation_completes c n k :
  In (c, n) animation_cells ->
  (forall tmax, total (integrate tmax)) -> total plot_update ->
  total orbit_plot -> is_Some (g_sim k) -> is_Some (g_op k) ->
  exists k', c k = Done tt k'.
Proof.
  intros Hin Hi Hu Ho [r Hr] [p Hp].
  destruct Hin as [Hc|[Hc|[Hc|[Hc|[]]]]]; injection Hc as <- <-;
    nb_exec_goal; try absurd_total.
  - apply (for_each_completes frame_ready).
    + intros _ k1 Hk1. apply frame_completes; cbn; auto.
    + unfold frame_ready; nb_simpl. rewrite Hr, Hp. eauto.
  - apply (for_each_completes frame_ready).
    + intros _ k1 Hk1. apply frame_completes; cbn; auto.
    + unfold frame_ready; nb_simpl. rewrite Hr, Hp. eauto.
  - apply (for_each_completes frame_ready_nofig).
    + intros _ k1 Hk1. by apply frame_completes_nofig.
    + unfold frame_ready_nofig; nb_simpl. rewrite Hr, Hp. eauto.
  - apply (for_each_completes frame_ready_nofig).
    + intros _ k1 Hk1. by apply frame_completes_nofig.
    + unfold frame_ready_nofig; nb_simpl. rewrite Hr. eauto.
Qed.


End Animation.

(** Splitting a [Forall] over an explicit list of cells. *)
Ltac each_cell := repeat first [apply List.Forall_nil | apply List.Forall_cons].

Section Animation_claims.
Import Py Cells.

(** The cells that create a plot leave [op.sim] the object [sim] names, so
    the animation cell that follows finds them the same. *)
Lemma plot_cells_alias `{L : Rebound} :
  Forall (fun c : NB unit =>
            forall k k', c k = Done tt k' -> exists r, aliased r k')
    [cell_2a7b7034; cell_76ca7354; Part000.cell_6e7036c7; cell_75724b6c].
Proof.
  each_cell; intros k k' H; nb_exec H; simplify_eq;
    unfold aliased; cbn; eauto.
Qed.

(** C7: an animation cell makes at most [nframe] [integrate] calls (500 in
    one notebook, 220 in the other) however it ends; when it completes it
    has made exactly [nframe] of them and as many [op.update()] calls; and
    it does complete when [sim] and [op] are bound and the library calls
    of the loop raise nothing. *)
Theorem C7_animation_runs_nframe_frames `{L : Rebound} c n k :
  In (c, n) animation_cells ->
  (exists evs,
      log (kernel_of (c k)) = log k ++ evs
      /\ (count is_integrate evs <= n)%nat
      /\ (forall k', c k = Done tt k' ->
            count is_integrate evs = n /\ count is_plot_update evs = n))
  /\ ((forall tmax, total (integrate tmax)) -> total plot_update ->
      total orbit_plot -> is_Some (g_sim k) -> is_Some (g_op k) ->
      exists k', c k = Done tt k').
Proof.
  intros Hin. split.
  - destruct (animation_calls_le c n k Hin) as (evs & Hlog & Hle).
    exists evs. split_and!; [done|done|].
    intros k' Hk'. rewrite Hk' in Hlog. cbn in Hlog.
    destruct (animation_calls_done c n k k' Hin Hk') as (evs' & Hlog' & ? & ?).
    rewrite Hlog in Hlog'. apply app_inv_head in Hlog'. by subst.
  - by apply (animation_completes c n).
Qed.

(** C7 on the stand-in library: the first animation cell of part_000, run
    with [sim] and [op] bound, completes after 500 [integrate] calls. *)
Lemma C7_animation_runs_500_frames :
  exists (k' : @Kernel stub_rebound) evs,
    Part000.cell_337451a2 plotted = Done tt k'
    /\ log k' = log (plotted (L:=stub_rebound)) ++ evs
    /\ count is_integrate evs = 500%nat.
Proof.
  destruct (C7_animation_runs_nframe_frames (L:=stub_rebound)
              Part000.cell_337451a2 500%nat plotted (or_introl eq_refl))
    as [(evs & Hlog & _ & Hdone) Htot].
  destruct Htot as [k' Hk'].
  - intros tmax s. eexists. reflexivity.
  - intros s. eexists. reflexivity.
  - intros s. eexists. reflexivity.
  - eexists. reflexivity.
  - eexists. reflexivity.
  - exists k', evs. rewrite Hk' in Hlog. split_and!; [done|done|].
    by destruct (Hdone k' Hk').
Defined.



End Animation_claims.

(** ** Runs from top to bottom *)

Ltac quiet_leaf :=
  unfold quiet, structural; cbn; split_and!;
  first [ done
        | intros ? ?; by rewrite fn_lookup_insert_ne
        | rewrite List.filter_app; cbn; by rewrite app_nil_r ].

(** The structural calls of an explicit update of [k], from those of [k]. *)
Ltac structural_done :=
  unfold structural in *; cbn; rewrite ?List.filter_app; cbn;
  rewrite <- ?app_assoc; cbn; rewrite ?app_nil_r; reflexivity.

(** Closing [at_state k' ...] for an explicit update [k'] of [k]. *)
Ltac at_state_done :=
  unfold at_state; nb_simpl; split_and!;
  lazymatch goal with
  | |- @eq (list Event) _ _ => structural_done
  | |- _ => first [reflexivity | assumption]
  end.

Section Runs.
Context `{L : Rebound}.
Import Py Cells.

#[local] Instance quiet_preorder : PreOrder quiet.
Proof.
  split.
  - intros k. by unfold quiet.
  - intros k1 k2 k3 (S1 & N1 & F1 & T1) (S2 & N2 & F2 & T2).
    unfold quiet. split_and!; [congruence|congruence| |congruence].
    intros x Hx. rewrite F2, F1; done.
Qed.

Lemma quiet_print_elements : respects quiet print_elements.
Proof. respects_go quiet_leaf. Qed.

Lemma quiet_cells_are_quiet : Forall (respects quiet) quiet_cells.
Proof. each_cell; respects_go quiet_leaf. Qed.

Lemma quiet_at k k' s n d i O me tr :
  quiet k k' -> at_state k s n d i O me tr -> at_state k' s n d i O me tr.
Proof.
  intros (S1 & N1 & F1 & T1) (? & ? & ? & ? & ? & ? & ?).
  unfold at_state. rewrite S1, N1, T1, !F1; done.
Qed.

Lemma respects_done (R : Kernel -> Kernel -> Prop) {A} (m : NB A) k a k' :
  respects R m -> m k = Done a k' -> R k k'.
Proof. intros H E. specialize (H k). by rewrite E in H. Qed.

Lemma at_ae108e7f k k' s n d i O me tr :
  at_state k s n d i O me tr -> cell_ae108e7f k = Done tt k' ->
  at_state k' (Some n) (S n) d i O me
    (tr ++ [ENew n; ESetUnits n ("AU", "yr", "Msun")%string;
            ESetG n 39.476926408897626]).
Proof.
  intros (Hs & Hn & Hd & Hi & HO & Hm & Ht) H. subst.
  nb_exec H. nb_done H k'. at_state_done.
Qed.

End Runs.

(** ** Following a cell statement by statement

    [wp m Q k] is proved along the structure of [m], one rule per
    statement, so that no large term has to be evaluated at once. *)

Section Wp.
Context `{L : Rebound}.
Import Py.

Lemma wp_bind {A B} (m : NB A) (f : A -> NB B) Q k :
  wp m (fun a k1 => wp (f a) Q k1) k -> wp (m ≫= f) Q k.
Proof.
  intros H b k' E. apply bind_done in E as (a & k1 & E1 & E2).
  exact (H a k1 E1 b k' E2).
Qed.

Lemma wp_ret {A} (a : A) Q k : Q a k -> wp (mret a) Q k.
Proof. intros H b k' E. injection E as <- <-. exact H. Qed.

Lemma wp_raise {A} e (Q : A -> Kernel -> Prop) k : wp (raise e) Q k.
Proof. intros b k' E. discriminate. Qed.

Lemma wp_emit ev Q k : Q tt (with_event ev k) -> wp (emit ev) Q k.
Proof. intros H [] k' E. injection E as <-. exact H. Qed.

Lemma wp_print l Q k : Q tt (with_line l k) -> wp (print l) Q k.
Proof. intros H [] k' E. injection E as <-. exact H. Qed.

Lemma wp_get_sim Q k :
  (forall r, g_sim k = Some r -> Q r k) -> wp get_sim Q k.
Proof.
  intros H r k' E. unfold get_sim in E.
  destruct (g_sim k) eqn:Es; [|discriminate]. injection E as <- <-. auto.
Qed.

Lemma wp_assign_sim r Q k :
  Q tt (with_sim (Some r) k) -> wp (assign_sim r) Q k.
Proof. intros H [] k' E. injection E as <-. exact H. Qed.

Lemma wp_del_sim Q k :
  (forall r, g_sim k = Some r -> Q tt (with_sim None k)) -> wp del_sim Q k.
Proof.
  intros H [] k' E. unfold del_sim in E.
  destruct (g_sim k) eqn:Es; [|discriminate]. injection E as <-. eauto.
Qed.

Lemma wp_get_op Q k :
  (forall p, g_op k = Some p -> Q p k) -> wp get_op Q k.
Proof.
  intros H r k' E. unfold get_op in E.
  destruct (g_op k) eqn:Es; [|discriminate]. injection E as <- <-. auto.
Qed.

Lemma wp_assign_op p Q k :
  Q tt (with_op (Some p) k) -> wp (assign_op p) Q k.
Proof. intros H [] k' E. injection E as <-. exact H. Qed.

Lemma wp_get_fig Q k :
  (forall u, g_fig k = Some u -> Q u k) -> wp get_fig Q k.
Proof.
  intros H r k' E. unfold get_fig in E.
  destruct (g_fig k) eqn:Es; [|discriminate]. injection E as <- <-. auto.
Qed.

Lemma wp_assign_fig u Q k :
  Q tt (with_fig (Some u) k) -> wp (assign_fig u) Q k.
Proof. intros H [] k' E. injection E as <-. exact H. Qed.

Lemma wp_get_nframe Q k :
  (forall n, g_nframe k = Some n -> Q n k) -> wp get_nframe Q k.
Proof.
  intros H r k' E. unfold get_nframe in E.
  destruct (g_nframe k) eqn:Es; [|discriminate]. injection E as <- <-. auto.
Qed.

Lemma wp_assign_nframe n Q k :
  Q tt (with_nframe (Some n) k) -> wp (assign_nframe n) Q k.
Proof. intros H [] k' E. injection E as <-. exact H. Qed.

Lemma wp_get_float x Q k :
  (forall v, g_float k x = Some v -> Q v k) -> wp (get_float x) Q k.
Proof.
  intros H r k' E. unfold get_float in E.
  destruct (g_float k x) eqn:Es; [|discriminate]. injection E as <- <-. auto.
Qed.

Lemma wp_assign_float x v Q k :
  Q tt (with_float x v k) -> wp (assign_float x v) Q k.
Proof. intros H [] k' E. injection E as <-. exact H. Qed.

Lemma wp_deref r Q k : Q (heap k r) k -> wp (deref r) Q k.
Proof. intros H s k' E. injection E as <- <-. exact H. Qed.

Lemma wp_store r s Q k : Q tt (with_object r s k) -> wp (store r s) Q k.
Proof. intros H [] k' E. injection E as <-. exact H. Qed.

Lemma wp_fresh Q k : Q (next k) k -> wp fresh Q k.
Proof. intros H s k' E. injection E as <- <-. exact H. Qed.

Lemma wp_alloc s Q k :
  Q (next k) (with_next (S (next k)) (with_object (next k) s k)) ->
  wp (alloc s) Q k.
Proof. intros H r k' E. injection E as <- <-. exact H. Qed.

Lemma wp_read_file f Q k : Q (files k !! f) k -> wp (read_file f) Q k.
Proof. intros H s k' E. injection E as <- <-. exact H. Qed.

Lemma wp_write_file f ar Q k :
  Q tt (with_file f ar k) -> wp (write_file f ar) Q k.
Proof. intros H [] k' E. injection E as <-. exact H. Qed.

Lemma wp_lift {A} (res : result A) Q k :
  (forall a, res = Ok a -> Q a k) -> wp (lift res) Q k.
Proof.
  intros H a k' E. destruct res as [a0|msg]; [|discriminate].
  injection E as <- <-. auto.
Qed.

Lemma wp_div x y Q k : (y <> 0 -> Q (x / y) k) -> wp (div x y) Q k.
Proof.
  intros H a k' E. unfold div in E.
  destruct (Req_dec_T y 0); [discriminate|]. injection E as <- <-. auto.
Qed.

Lemma wp_use {A} (m : NB A) Q k a k' :
  m k = Done a k' -> wp m Q k -> Q a k'.
Proof. intros E H. exact (H a k' E). Qed.

(** A statement known only by a relation it respects. *)
Lemma wp_respects (R : Kernel -> Kernel -> Prop) {A} (m : NB A) Q k :
  respects R m -> (forall a k', R k k' -> Q a k') -> wp m Q k.
Proof. intros Hm H a k' E. apply H. by eapply respects_done. Qed.

End Wp.

(** A name just read: its value is the one known, if one is. *)
Ltac wp_known H v :=
  nb_simpl_in H;
  try (lazymatch type of H with
       | Some _ = Some _ => injection H as H; subst v
       | ?x = Some _ =>
           match goal with
           | E : x = Some _ |- _ =>
               assert_fails (constr_eq E H);
               rewrite E in H; injection H as H; subst v
           end
       end).

Ltac wp_step :=
  lazymatch goal with
  | |- wp (_ ≫= _) _ _ => apply wp_bind
  | |- wp (mret _) _ _ => apply wp_ret
  | |- wp (Py.raise _) _ _ => apply wp_raise
  | |- wp (Py.emit _) _ _ => apply wp_emit
  | |- wp (Py.print _) _ _ => apply wp_print
  | |- wp Py.get_sim _ _ =>
      let v := fresh "r" in let H := fresh "Hsim" in
      apply wp_get_sim; intros v H; wp_known H v
  | |- wp (Py.assign_sim _) _ _ => apply wp_assign_sim
  | |- wp Py.del_sim _ _ =>
      let v := fresh "r" in let H := fresh "Hsim" in
      apply wp_del_sim; intros v H; wp_known H v
  | |- wp Py.get_op _ _ =>
      let v := fresh "p" in let H := fresh "Hop" in
      apply wp_get_op; intros v H; wp_known H v
  | |- wp (Py.assign_op _) _ _ => apply wp_assign_op
  | |- wp Py.get_fig _ _ =>
      let v := fresh "u" in let H := fresh "Hfig" in
      apply wp_get_fig; intros v H; wp_known H v
  | |- wp (Py.assign_fig _) _ _ => apply wp_assign_fig
  | |- wp Py.get_nframe _ _ =>
      let v := fresh "n" in let H := fresh "Hnframe" in
      apply wp_get_nframe; intros v H; wp_known H v
  | |- wp (Py.assign_nframe _) _ _ => apply wp_assign_nframe
  | |- wp (Py.get_float _) _ _ =>
      let v := fresh "v" in let H := fresh "Hfloat" in
      apply wp_get_float; intros v H; wp_known H v
  | |- wp (Py.assign_float _ _) _ _ => apply wp_assign_float
  | |- wp (Py.deref _) _ _ => apply wp_deref
  | |- wp (Py.store _ _) _ _ => apply wp_store
  | |- wp Py.fresh _ _ => apply wp_fresh
  | |- wp (Py.alloc _) _ _ => apply wp_alloc
  | |- wp (Py.read_file _) _ _ => apply wp_read_file
  | |- wp (Py.write_file _ _) _ _ => apply wp_write_file
  | |- wp (Py.lift _) _ _ =>
      let a := fresh "a" in let H := fresh "Hcall" in
      apply wp_lift; intros a H; nb_simpl_in H
  | |- wp (Py.div _ _) _ _ =>
      let H := fresh "Hdiv" in apply wp_div; intros H
  | |- wp Cells.print_elements _ _ => fail
  | |- wp (Py.for_each _ _) _ _ => fail
  | |- wp ?m _ _ => let h := head_of m in unfold h
  end; cbv beta.

Ltac wp_go := repeat wp_step.

(** From [H : m k = Done a k'] and a goal about [k'] to [wp m _ k]. *)
Ltac wp_start H :=
  lazymatch type of H with
  | ?m ?k = Py.Done ?a ?k' =>
      lazymatch goal with
      | |- ?G =>
          let G' := eval pattern k' in G in
          lazymatch G' with
          | ?F k' => apply (wp_use m (fun _ => F) k a k' H)
          end
      end
  end; clear H; cbv beta.

Section Cell_by_cell.
Context `{L : Rebound}.
Import Py Cells.

(** A cell whose last statement is the report. *)
Ltac after_report :=
  apply (wp_respects quiet); [apply quiet_print_elements|];
  let Hq := fresh "Hq" in
  intros _ ? Hq; eapply quiet_at; [exact Hq|].

Lemma at_a20bd72a k k' r n d i O me tr :
  at_state k (Some r) n d i O me tr -> cell_a20bd72a k = Done tt k' ->
  at_state k' (Some r) n (Some (PI / 180)) (Some (27.8 * (PI / 180)))
    (Some (60.1 * (PI / 180))) (Some 5e-3)
    (tr ++ [EAdd r star_args;
            EAdd r (planet_args 5e-3 16.64 0.1397 (118.8 * (PI / 180)) 1.261
                      (27.8 * (PI / 180)) (60.1 * (PI / 180)));
            EAdd r (planet_args 5e-3 26.29 0.1112 (24.3 * (PI / 180)) 2.032
                      (27.8 * (PI / 180)) (60.1 * (PI / 180)))]).
Proof.
  intros (Hs & Hn & Hd & Hi & HO & Hm & Ht) H. subst.
  wp_start H. wp_go. after_report. at_state_done.
Qed.

Lemma at_2a7b7034 k k' r n d i O me tr :
  at_state k (Some r) n d i O me tr -> cell_2a7b7034 k = Done tt k' ->
  at_state k' (Some r) n d i O me (tr ++ [ESave r "start.bin"]).
Proof.
  intros (Hs & Hn & Hd & Hi & HO & Hm & Ht) H. subst.
  wp_start H. wp_go. at_state_done.
Qed.

Lemma at_ea6ed7d6 k k' s n d i O me tr :
  at_state k s n (Some d) (Some i) (Some O) (Some me) tr ->
  cell_ea6ed7d6 k = Done tt k' ->
  at_state k' (Some n) (S n) (Some d) (Some i) (Some O) (Some me)
    (tr ++ [ELoad "start.bin" n;
            EAdd n (planet_args me 43.12 0.0561 (28.5 * d) 4.232 i O);
            EAdd n (planet_args 3e-3 70.50 0.0113 (213.6 * d) 2.642 i O)]).
Proof.
  intros (Hs & Hn & Hd & Hi & HO & Hm & Ht) H. subst.
  wp_start H. wp_go. after_report. at_state_done.
Qed.

Lemma at_6cb48360 m k k' s n d i O me tr :
  at_state k s n (Some d) (Some i) (Some O) me tr ->
  cell_6cb48360 m k = Done tt k' ->
  at_state k' (Some n) (S n) (Some d) (Some i) (Some O) (Some m)
    (tr ++ [ENew n; EAdd n star_args;
            EAdd n (planet_args m 16.64 0.1397 (118.8 * d) 1.261 i O);
            EAdd n (planet_args m 26.29 0.1112 (24.3 * d) 2.032 i O);
            EAdd n (planet_args m 43.12 0.0561 (28.5 * d) 4.232 i O);
            EAdd n (planet_args (m * 0.5) 70.50 0.0113 (213.6 * d) 2.642
                      i O)]).
Proof.
  intros (Hs & Hn & Hd & Hi & HO & Hm & Ht) H. subst.
  wp_start H. wp_go. at_state_done.
Qed.

End Cell_by_cell.

Section Top_to_bottom.
Context `{L : Rebound}.
Import Py Cells.

Lemma run_all_cons c cs k k' :
  run_all (c :: cs) k = Done tt k' ->
  exists k1, c k = Done tt k1 /\ run_all cs k1 = Done tt k'.
Proof.
  unfold run_all. rewrite for_each_cons.
  destruct (c k) as [[] k1|] eqn:E; [eauto|discriminate].
Qed.

Lemma run_all_nil k k' : run_all [] k = Done tt k' -> k' = k.
Proof. intros H. by injection H. Qed.

Lemma quiet_cell c : In c quiet_cells -> respects quiet c.
Proof.
  intros H.
  exact (proj1 (List.Forall_forall _ _) quiet_cells_are_quiet c H).
Qed.

End Top_to_bottom.

(** One cell of a run: a quiet cell keeps what is tracked, the others
    change it as their lemma says. *)
Ltac in_list := repeat first [left; reflexivity | right].

Ltac run_step :=
  lazymatch goal with
  | Hat : at_state ?k _ _ _ _ _ _ _, H : Cells.run_all (_ :: _) ?k = _ |- _ =>
      let k1 := fresh "k" in
      let Hc := fresh "Hc" in
      apply run_all_cons in H as (k1 & Hc & H);
      first
        [ apply (at_ae108e7f _ _ _ _ _ _ _ _ _ Hat) in Hc
        | apply (at_a20bd72a _ _ _ _ _ _ _ _ _ Hat) in Hc
        | apply (at_2a7b7034 _ _ _ _ _ _ _ _ _ Hat) in Hc
        | apply (at_ea6ed7d6 _ _ _ _ _ _ _ _ _ Hat) in Hc
        | apply (at_6cb48360 _ _ _ _ _ _ _ _ _ _ Hat) in Hc
        | apply (respects_done quiet) in Hc; [|apply quiet_cell; in_list];
          apply (fun q => quiet_at _ _ _ _ _ _ _ _ _ q Hat) in Hc ];
      clear Hat
  end.

Section Scripts.
Context `{L : Rebound}.
Import Py Cells.

(** A run of either notebook from top to bottom that completes has made
    the creating, filling, saving and configuring calls of [script], and
    leaves [sim] bound to the last simulation created. *)
Lemma notebook_script nb m k k' :
  In (nb, m) notebooks -> run_all nb k = Done tt k' ->
  structural (log k') = structural (log k) ++ script (next k) m
  /\ g_sim k' = Some (S (S (next k))).
Proof.
  intros Hin H.
  assert (Hat : at_state k (g_sim k) (next k) (g_float k dtor)
                  (g_float k inc_pl) (g_float k Omega_pl) (g_float k mass_e)
                  (structural (log k))) by (unfold at_state; done).
  destruct Hin as [Hnb|[Hnb|[]]]; injection Hnb as <- <-;
    unfold Part000.notebook, HR8799.notebook in H;
    repeat run_step;
    apply run_all_nil in H; subst;
    match goal with Hc : at_state _ _ _ _ _ _ _ _ |- _ =>
      destruct Hc as (Hs & _ & _ & _ & _ & _ & Ht) end;
    (split; [|exact Hs]);
    rewrite Ht; unfold script; cbv zeta beta;
    rewrite <- ?app_assoc; reflexivity.
Qed.

End Scripts.

Section Run_traces.
Context `{L : Rebound}.
Import Py Cells.

Lemma respects_for_each_in (R : Kernel -> Kernel -> Prop) `{!PreOrder R} {A}
    (xs : list A) (body : A -> NB unit) :
  Forall (fun x => respects R (body x)) xs -> respects R (for_each xs body).
Proof.
  induction 1 as [|x xs Hx _ IH]; cbn.
  - apply respects_ret; apply _.
  - apply respects_bind; [apply _|exact Hx|intros _; exact IH].
Qed.

Lemma cells_append_trace :
  Forall (respects (appends (fun _ => True)))
         (Part000.notebook ++ HR8799.notebook).
Proof. each_cell; respects_go ltac:(appends_leaf ltac:(exact I)). Qed.

(** What a completed run of a notebook has added to the trace. *)
Lemma notebook_appends nb m k k' :
  In (nb, m) notebooks -> run_all nb k = Done tt k' ->
  exists evs,
    log k' = log k ++ evs /\ structural evs = script (next k) m
    /\ g_sim k' = Some (S (S (next k))).
Proof.
  intros Hin H.
  destruct (notebook_script nb m k k' Hin H) as [Hscript Hsim].
  assert (Hr : respects (appends (fun _ => True)) (run_all nb)).
  { apply respects_for_each_in; [apply _|].
    pose proof cells_append_trace as Hall.
    apply Forall_app in Hall as [H1 H2].
    destruct Hin as [Hnb|[Hnb|[]]]; injection Hnb as <- <-; assumption. }
  destruct (respects_done _ _ _ _ _ Hr H) as (evs & Hlog & _).
  exists evs. split_and!; [done| |done].
  rewrite Hlog in Hscript. unfold structural in *.
  rewrite List.filter_app in Hscript. by apply app_inv_head in Hscript.
Qed.













End Run_traces.

Section Idle_runs.
Import Py Cells.

(** On the library that does nothing, both notebooks run to the end. *)
Lemma idle_run nb m :
  In (nb, m) notebooks ->
  exists k', run_all (L:=idle_rebound) nb initial = Done tt k'.
Proof.
  intros [H|[H|[]]]; injection H as <- <-; eexists; vm_compute; reflexivity.
Qed.

End Idle_runs.

(** ** C9: the simulations the notebooks build *)

Section Configurations.
Import Py Cells.





End Configurations.

(** ** C5: the only file is the checkpoint *)


Section Files.
Import Py Cells.

#[local] Instance files_agree_off_preorder `{L : Rebound} f :
  PreOrder (files_agree_off f).
Proof.
  split.
  - by intros k f' ?.
  - intros k1 k2 k3 H1 H2 f' Hf'. by rewrite H2, H1.
Qed.

Lemma filter_filter_sub {A} (p q : A -> bool) l :
  (forall x, p x = true -> q x = true) ->
  List.filter p (List.filter q l) = List.filter p l.
Proof.
  intros Hpq. induction l as [|x l IH]; [done|]. cbn.
  destruct (q x) eqn:Eq, (p x) eqn:Ep; cbn; rewrite ?Ep, ?IH; try done.
  apply Hpq in Ep. congruence.
Qed.



End Files.

(** ** C8: the gravitational constant of the last experiment *)

(** What the calls that keep G and the units have kept. *)
Ltac kept :=
  repeat match goal with
  | K : forall args, keeps_G (add args), H : add ?a ?s = Ok _ |- _ =>
      apply (K a) in H as [? ?]
  | K : forall tmax, keeps_G (integrate tmax),
    H : integrate ?t ?s = Ok _ |- _ =>
      apply (K t) in H as [? ?]
  | K : keeps_G move_to_com, H : move_to_com ?s = Ok _ |- _ =>
      apply K in H as [? ?]
  end.

Section Gravitational_constant.
Import Py Cells.

(** The set-up cell leaves [sim] a new simulation with G as assigned. *)
Lemma after_ae108e7f `{L : Rebound} k k' :
  cell_ae108e7f k = Done tt k' ->
  g_sim k' = Some (next k)
  /\ sim_G (heap k' (next k)) = 39.476926408897626.
Proof.
  intros H. wp_start H. wp_go. nb_simpl. done.
Qed.

(** The last experiment leaves [sim] a new simulation with the G and the
    units the library gives a new simulation. *)
Lemma after_6cb48360 `{L : Rebound} m k k' :
  (forall args, keeps_G (add args)) -> keeps_G move_to_com ->
  cell_6cb48360 m k = Done tt k' ->
  g_sim k' = Some (next k)
  /\ sim_G (heap k' (next k)) = sim_G new_simulation
  /\ sim_units (heap k' (next k)) = sim_units new_simulation.
Proof.
  intros Ka Km H. wp_start H. wp_go. nb_simpl. kept.
  split_and!; [done|congruence..].
Qed.

Lemma after_75724b6c `{L : Rebound} k k' r :
  (forall tmax, keeps_G (integrate tmax)) ->
  g_sim k = Some r -> cell_75724b6c k = Done tt k' ->
  g_sim k' = Some r
  /\ sim_G (heap k' r) = sim_G (heap k r)
  /\ sim_units (heap k' r) = sim_units (heap k r).
Proof.
  intros Ki Hs H. wp_start H. wp_go. nb_simpl. kept. done.
Qed.

Lemma after_44c27ba9 `{L : Rebound} k k' r :
  g_sim k = Some r -> cell_44c27ba9 k = Done tt k' ->
  g_sim k' = Some r /\ heap k' = heap k.
Proof.
  intros Hs H. wp_start H. wp_go. nb_simpl. done.
Qed.

Lemma filter_sets_G_or_units_script n m :
  List.filter sets_G_or_units (script n m) =
  [ESetUnits n ("AU", "yr", "Msun")%string; ESetG n 39.476926408897626].
Proof. reflexivity. Qed.

(** C8: when a notebook has run from top to bottom, the units and G were
    assigned once each, in the set-up cell and to the first simulation,
    which that cell leaves with G = 39.476926408897626; [sim] is bound to
    the third simulation, and, the library's [add], [move_to_com] and
    [integrate] leaving G and the units alone, that simulation has the G
    and the units the library gives a new simulation. *)
Theorem C8_last_simulation_keeps_the_default_G `{L : Rebound} nb m k k' :
  (forall args, keeps_G (add args)) -> keeps_G move_to_com ->
  (forall tmax, keeps_G (integrate tmax)) ->
  In (nb, m) notebooks -> run_all nb k = Done tt k' ->
  (exists evs,
      log k' = log k ++ evs
      /\ List.filter sets_G_or_units evs =
         [ESetUnits (next k) ("AU", "yr", "Msun")%string;
          ESetG (next k) 39.476926408897626])
  /\ g_sim k' = Some (S (S (next k)))
  /\ sim_G (heap k' (S (S (next k)))) = sim_G new_simulation
  /\ sim_units (heap k' (S (S (next k)))) = sim_units new_simulation
  /\ (forall k0 k1, cell_ae108e7f k0 = Done tt k1 ->
        g_sim k1 = Some (next k0)
        /\ sim_G (heap k1 (next k0)) = 39.476926408897626).
Proof.
  intros Ka Km Ki Hin H.
  destruct (notebook_appends nb m k k' Hin H) as (evs & Hlog & Hscript & Hsim).
  split_and!.
  - exists evs. split; [done|].
    rewrite <- (filter_filter_sub sets_G_or_units is_structural)
      by (by intros []).
    fold (structural evs). by rewrite Hscript.
  - done.
  - destruct Hin as [Hnb|[Hnb|[]]]; injection Hnb as <- <-;
      unfold Part000.notebook, HR8799.notebook in H;
      repeat (apply run_all_cons in H as (? & ? & H));
      apply run_all_nil in H; subst;
      repeat match goal with
      | H6 : cell_6cb48360 _ _ = Done _ _ |- _ =>
          apply (after_6cb48360 _ _ _ Ka Km) in H6 as (? & ? & ?)
      | Hs : g_sim ?k1 = Some _, H7 : cell_75724b6c ?k1 = Done _ _ |- _ =>
          apply (after_75724b6c _ _ _ Ki Hs) in H7 as (? & ? & ?)
      | Hs : g_sim ?k1 = Some _, H4 : cell_44c27ba9 ?k1 = Done _ _ |- _ =>
          apply (after_44c27ba9 _ _ _ Hs) in H4 as (? & ?)
      end;
      match goal with
      | Hs' : g_sim ?kk = Some (next _), He : heap ?kk = _ |- _ =>
          rewrite Hs' in Hsim; injection Hsim as <-; rewrite He; congruence
      end.
  - destruct Hin as [Hnb|[Hnb|[]]]; injection Hnb as <- <-;
      unfold Part000.notebook, HR8799.notebook in H;
      repeat (apply run_all_cons in H as (? & ? & H));
      apply run_all_nil in H; subst;
      repeat match goal with
      | H6 : cell_6cb48360 _ _ = Done _ _ |- _ =>
          apply (after_6cb48360 _ _ _ Ka Km) in H6 as (? & ? & ?)
      | Hs : g_sim ?k1 = Some _, H7 : cell_75724b6c ?k1 = Done _ _ |- _ =>
          apply (after_75724b6c _ _ _ Ki Hs) in H7 as (? & ? & ?)
      | Hs : g_sim ?k1 = Some _, H4 : cell_44c27ba9 ?k1 = Done _ _ |- _ =>
          apply (after_44c27ba9 _ _ _ Hs) in H4 as (? & ?)
      end;
      match goal with
      | Hs' : g_sim ?kk = Some (next _), He : heap ?kk = _ |- _ =>
          rewrite Hs' in Hsim; injection Hsim as <-; rewrite He; congruence
      end.
  - intros k0 k1. apply after_ae108e7f.
Qed.

End Gravitational_constant.

Lemma idle_keeps_G :
  (forall args, keeps_G (@add idle_rebound args))
  /\ keeps_G (@move_to_com idle_rebound)
  /\ (forall tmax, keeps_G (@integrate idle_rebound tmax)).
Proof.
  split_and!; [intros args|..|intros tmax]; intros s s' H;
    injection H as <-; done.
Qed.

(** C8 on the library that does nothing, whose new simulations have G = 1:
    part_000 runs to the end and leaves [sim] the third simulation, with
    G = 1. *)
Lemma C8_part000_ends_with_default_G :
  exists k' : @Py.Kernel idle_rebound,
    Cells.run_all Part000.notebook initial = Py.Done tt k'
    /\ Py.g_sim k' = Some 2%nat /\ sim_G (Py.heap k' 2%nat) = 1.
Proof.
  destruct (idle_run Part000.notebook 7.3e-3 (or_introl eq_refl)) as [k' Hk'].
  destruct idle_keeps_G as (Ka & Km & Ki).
  destruct (C8_last_simulation_keeps_the_default_G (L:=idle_rebound)
              Part000.notebook 7.3e-3 initial k' Ka Km Ki
              (or_introl eq_refl) Hk') as (_ & Hs & HG & _).
  exists k'. exact (conj Hk' (conj Hs HG)).
Defined.

(** ** C4: exceptions of the library are not handled *)

(** A statement that puts nothing on the trace. *)
Ltac silent :=
  let k := fresh "k" in
  intros k;
  unfold Py.print, Py.get_sim, Py.assign_sim, Py.del_sim, Py.get_op,
    Py.assign_op, Py.get_fig, Py.assign_fig, Py.get_nframe, Py.assign_nframe,
    Py.get_float, Py.assign_float, Py.deref, Py.store, Py.fresh, Py.alloc,
    Py.read_file, Py.write_file, Py.lift, Py.div, Py.raise, Py.ret, mret,
    Py.nb_ret;
  cbn; repeat case_match; reflexivity.

Section Propagation.
Context `{L : Rebound}.
Variables (bad : Event -> bool) (msg : string).
Hypothesis Hlib : forall ev, bad ev = true -> is_library_call ev = true.
Hypothesis Hfails : fails_on bad msg.
Import Py Cells.

Lemma propagates_silent {A} (m : NB A) :
  (forall k, log (kernel_of (m k)) = log k) -> propagates bad msg m.
Proof.
  intros H k. exists []. rewrite app_nil_r. split; [apply H|].
  left. apply List.Forall_nil.
Qed.

Lemma propagates_bind {A B} (m : NB A) (f : A -> NB B) :
  propagates bad msg m -> (forall a, propagates bad msg (f a)) ->
  propagates bad msg (m ≫= f).
Proof.
  intros Hm Hf k. destruct (Hm k) as (e1 & H1 & S1).
  unfold mbind, nb_bind, bind.
  destruct (m k) as [a k1|e k1] eqn:E; cbn in H1.
  - destruct (Hf a k1) as (e2 & H2 & S2).
    destruct S1 as [F1|(pre & ev & k' & _ & _ & _ & Hr)]; [|discriminate].
    exists (e1 ++ e2). rewrite H2, H1, app_assoc. split; [done|].
    destruct S2 as [F2|(pre & ev & k' & -> & Fp & Hb & Hr)].
    + left. by apply Forall_app.
    + right. exists (e1 ++ pre), ev, k'. rewrite app_assoc.
      split_and!; [done|by apply Forall_app|done|done].
  - exists e1. split; [done|].
    destruct S1 as [F1|(pre & ev & k' & -> & Fp & Hb & Hr)]; [by left|].
    injection Hr as -> ->. right. by exists pre, ev, k'.
Qed.

Lemma propagates_for_each {A} (xs : list A) (body : A -> NB unit) :
  (forall x, propagates bad msg (body x)) ->
  propagates bad msg (for_each xs body).
Proof.
  intros Hb. induction xs as [|x xs IH]; cbn.
  - apply propagates_silent. by intros k.
  - apply propagates_bind; [apply Hb|intros _; exact IH].
Qed.

(** A statement that makes one call: when the call is marked the library
    raises and so does the statement. *)
Lemma propagates_call {A} (m : NB A) (ev : Kernel -> Event) :
  (forall k, log (kernel_of (m k)) = log k ++ [ev k]) ->
  (forall k, bad (ev k) = true ->
             exists k', m k = Raise (ReboundError msg) k') ->
  propagates bad msg m.
Proof.
  intros Hlog Hraise k. exists [ev k]. split; [apply Hlog|].
  destruct (bad (ev k)) eqn:Hb.
  - right. destruct (Hraise k Hb) as [k' Hk'].
    exists [], (ev k), k'. split_and!; [done|apply List.Forall_nil|done|done].
  - left. apply List.Forall_cons; [done|apply List.Forall_nil].
Qed.

Lemma not_marked ev : is_library_call ev = false -> bad ev = false.
Proof.
  intros H. destruct (bad ev) eqn:Hb; [|done].
  apply Hlib in Hb. congruence.
Qed.

End Propagation.

(** One call of the library, or one event that is no such call. *)
Ltac one_call ev :=
  apply (propagates_call _ _ _ ev);
  [ let k := fresh "k" in
    intros k; nb_unfold; cbn; repeat case_match; simplify_eq; reflexivity
  | let k := fresh "k" in
    let Hb := fresh "Hb" in
    intros k Hb;
    first
      [ exfalso;
        lazymatch goal with
        | Hlib : forall ev, _ ev = true -> is_library_call ev = true |- _ =>
            apply Hlib in Hb; discriminate Hb
        end
      | nb_unfold; cbn;
        lazymatch goal with
        | Hf : fails_on _ _ |- _ =>
            let F1 := fresh in let F2 := fresh in let F3 := fresh in
            let F4 := fresh in let F5 := fresh in let F6 := fresh in
            let F7 := fresh in let F8 := fresh in let F9 := fresh in
            let F10 := fresh in
            destruct Hf as (F1 & F2 & F3 & F4 & F5 & F6 & F7 & F8 & F9 & F10);
            first [ rewrite (F1 _ _ _ Hb) | rewrite (F2 _ _ _ Hb)
                  | rewrite (F3 _ _ _ Hb) | rewrite (F4 _ _ Hb)
                  | rewrite (F5 _ _ Hb) | rewrite (F6 _ _ _ Hb)
                  | rewrite (F7 _ _ _ _ Hb) | rewrite (F8 _ _ Hb)
                  | rewrite (F9 _ _ Hb) | rewrite (F10 _ _ Hb) ]
        end;
        eexists; reflexivity ] ].

Ltac propagates_go :=
  lazymatch goal with
  | |- propagates _ _ (_ ≫= _) =>
      apply propagates_bind; [propagates_go|intros ?; propagates_go]
  | |- propagates _ _ (Py.for_each _ _) =>
      apply propagates_for_each; intros ?; propagates_go
  | |- propagates _ _ ?m =>
      let h := head_of m in
      lazymatch h with
      | @Py.rb_Simulation => one_call (fun k => ENew (Py.next k))
      | @Py.rb_Simulation_from =>
          lazymatch m with
          | Py.rb_Simulation_from ?f => one_call (fun k => ELoad f (Py.next k))
          end
      | @Py.rb_set_units =>
          lazymatch m with
          | Py.rb_set_units ?r ?u =>
              one_call (fun _ : Py.Kernel => ESetUnits r u)
          end
      | @Py.rb_set_G =>
          lazymatch m with
          | Py.rb_set_G ?r ?g => one_call (fun _ : Py.Kernel => ESetG r g)
          end
      | @Py.rb_set_dt =>
          lazymatch m with
          | Py.rb_set_dt ?r ?x => one_call (fun _ : Py.Kernel => ESetDt r x)
          end
      | @Py.rb_add =>
          lazymatch m with
          | Py.rb_add ?r ?a => one_call (fun _ : Py.Kernel => EAdd r a)
          end
      | @Py.rb_calculate_orbits =>
          lazymatch m with
          | Py.rb_calculate_orbits ?r =>
              one_call (fun _ : Py.Kernel => ECalculateOrbits r)
          end
      | @Py.rb_move_to_com =>
          lazymatch m with
          | Py.rb_move_to_com ?r =>
              one_call (fun _ : Py.Kernel => EMoveToCom r)
          end
      | @Py.rb_integrate =>
          lazymatch m with
          | Py.rb_integrate ?r ?t =>
              one_call (fun _ : Py.Kernel => EIntegrate r t)
          end
      | @Py.rb_save =>
          lazymatch m with
          | Py.rb_save ?r ?f => one_call (fun _ : Py.Kernel => ESave r f)
          end
      | @Py.rb_status =>
          lazymatch m with
          | Py.rb_status ?r => one_call (fun _ : Py.Kernel => EStatus r)
          end
      | @Py.rb_OrbitPlot =>
          lazymatch m with
          | Py.rb_OrbitPlot ?r => one_call (fun _ : Py.Kernel => EOrbitPlot r)
          end
      | @Py.rb_update =>
          lazymatch m with
          | Py.rb_update ?p =>
              one_call (fun _ : Py.Kernel => EPlotUpdate (op_sim p))
          end
      | @Py.display =>
          lazymatch m with
          | Py.display ?c => one_call (fun _ : Py.Kernel => EDisplay c)
          end
      | @Py.shell =>
          lazymatch m with
          | Py.shell ?c => one_call (fun _ : Py.Kernel => EShell c)
          end
      | @Py.import =>
          lazymatch m with
          | Py.import ?c => one_call (fun _ : Py.Kernel => EImport c)
          end
      | @Py.print => apply propagates_silent; silent
      | @Py.get_sim => apply propagates_silent; silent
      | @Py.assign_sim => apply propagates_silent; silent
      | @Py.del_sim => apply propagates_silent; silent
      | @Py.get_op => apply propagates_silent; silent
      | @Py.assign_op => apply propagates_silent; silent
      | @Py.get_fig => apply propagates_silent; silent
      | @Py.assign_fig => apply propagates_silent; silent
      | @Py.get_nframe => apply propagates_silent; silent
      | @Py.assign_nframe => apply propagates_silent; silent
      | @Py.get_float => apply propagates_silent; silent
      | @Py.assign_float => apply propagates_silent; silent
      | @Py.deref => apply propagates_silent; silent
      | @Py.div => apply propagates_silent; silent
      | @Py.lift => apply propagates_silent; silent
      | @mret => apply propagates_silent; silent
      | _ => unfold h; propagates_go
      end
  end.

Section Exceptions.
Import Py Cells.

Lemma run_all_raise `{L : Rebound} c cs k e k' :
  c k = Raise e k' -> run_all (c :: cs) k = Raise e k'.
Proof. intros H. unfold run_all. rewrite for_each_cons. by rewrite H. Qed.

Lemma propagates_run `{L : Rebound} bad msg cells :
  Forall (propagates bad msg) cells -> propagates bad msg (run_all cells).
Proof.
  intros H. unfold run_all. induction H as [|c cs Hc _ IH]; cbn.
  - apply propagates_silent. by intros k.
  - apply propagates_bind; [exact Hc|intros _; exact IH].
Qed.

(** C4: no cell handles an exception of the library.  Whatever calls the
    library refuses, always and with the same exception, every cell of
    both notebooks, run in any kernel, makes at most one such call, as the
    last thing it does, and ends there with that exception; so does a run
    from top to bottom.  The reset cell, run while the library cannot load
    "start.bin" (the file is missing, say), raises the library's exception
    after [del sim], so that [sim] is left unbound, and the run stops
    there; and an exception raised by [add] or [integrate] on the
    simulation at hand is raised by the call statement as it is. *)
Theorem C4_library_exceptions_leave_the_cell
    `{L : Rebound} bad msg k r msg0 :
  (forall ev, bad ev = true -> is_library_call ev = true) ->
  fails_on bad msg ->
  g_sim k = Some r -> load (files k !! "start.bin") = Err msg0 ->
  let k1 := with_event (ELoad "start.bin" (next k)) (with_sim None k) in
  Forall (propagates bad msg) (Part000.notebook ++ HR8799.notebook)
  /\ (forall nb m, In (nb, m) notebooks -> propagates bad msg (run_all nb))
  /\ cell_ea6ed7d6 k = Raise (ReboundError msg0) k1
  /\ g_sim k1 = None
  /\ (forall rest,
        run_all (cell_ea6ed7d6 :: rest) k = Raise (ReboundError msg0) k1)
  /\ (forall args r0 k0 msg1,
        add args (heap k0 r0) = Err msg1 ->
        rb_add r0 args k0
        = Raise (ReboundError msg1) (with_event (EAdd r0 args) k0))
  /\ (forall tmax r0 k0 msg1,
        integrate tmax (heap k0 r0) = Err msg1 ->
        rb_integrate r0 tmax k0
        = Raise (ReboundError msg1) (with_event (EIntegrate r0 tmax) k0)).
Proof.
  intros Hlib Hf Hs Hload k1.
  assert (Hcells : Forall (propagates bad msg)
                     (Part000.notebook ++ HR8799.notebook)).
  { each_cell; propagates_go. }
  assert (Hcell : cell_ea6ed7d6 k = Raise (ReboundError msg0) k1).
  { unfold cell_ea6ed7d6, del_sim, rb_Simulation_from, fresh, emit, read_file,
      lift, mbind, nb_bind, bind. rewrite Hs. cbn. by rewrite Hload. }
  split_and!.
  - exact Hcells.
  - intros nb m Hin. apply propagates_run.
    apply Forall_app in Hcells as [H1 H2].
    destruct Hin as [Hnb|[Hnb|[]]]; injection Hnb as <- <-; assumption.
  - exact Hcell.
  - reflexivity.
  - intros rest. by apply run_all_raise.
  - intros args r0 k0 msg1 H.
    unfold rb_add, emit, deref, store, lift, mbind, nb_bind, bind. cbn.
    by rewrite H.
  - intros tmax r0 k0 msg1 H.
    unfold rb_integrate, emit, deref, store, lift, mbind, nb_bind, bind. cbn.
    by rewrite H.
Qed.

(** C4 on a stand-in library whose [integrate] always raises, in a kernel
    with no file at all: no cell goes on after an [integrate] call, and
    the reset cell raises the library's "file not found" and leaves [sim]
    unbound. *)
Lemma C4_missing_checkpoint_raises :
  Forall (propagates (L:=brittle_rebound) is_integrate "integration failed")
    (Part000.notebook ++ HR8799.notebook)
  /\ cell_ea6ed7d6 (L:=brittle_rebound) plotted
     = Raise (ReboundError "file not found")
         (with_event (ELoad "start.bin" 1%nat) (with_sim None plotted)).
Proof.
  assert (Hlib : forall ev, is_integrate ev = true ->
                            is_library_call ev = true)
    by (intros []; cbn; congruence).
  assert (Hf : fails_on (L:=brittle_rebound) is_integrate
                 "integration failed")
    by (split_and!; intros; first [discriminate|reflexivity]).
  destruct (C4_library_exceptions_leave_the_cell (L:=brittle_rebound)
              is_integrate "integration failed" plotted 0%nat
              "file not found" Hlib Hf eq_refl eq_refl)
    as (H1 & _ & H2 & _).
  exact (conj H1 H2).
Defined.

End Exceptions.

(** ** C6: the numerics are the library's *)

(** A library call as a whole: its outcomes, with what the library
    returned in each. *)
Ltac whole_call leaf :=
  lazymatch goal with
  | |- respects _ ?m =>
      let h := head_of m in
      lazymatch h with
      | @Py.rb_Simulation => idtac
      | @Py.rb_Simulation_from => idtac
      | @Py.rb_set_units => idtac
      | @Py.rb_set_G => idtac
      | @Py.rb_set_dt => idtac
      | @Py.rb_add => idtac
      | @Py.rb_move_to_com => idtac
      | @Py.rb_integrate => idtac
      | @Py.rb_save => idtac
      end
  end;
  let k := fresh "k" in
  intros k; nb_exec_goal; leaf.

Ltac heap_done :=
  let r0 := fresh "r" in
  intros r0 ?;
  lazymatch goal with
  | |- rtc _ (_ ?r0) (<[?r := _]> _ ?r0) =>
      destruct (decide (r = r0));
      [ first
          [ exfalso; lia
          | subst; rewrite fn_lookup_insert; apply rtc_once;
            first [ eapply by_assign_units; eassumption
                  | eapply by_add; eassumption
                  | eapply by_move_to_com; eassumption
                  | eapply by_integrate; eassumption
                  | apply by_set_G
                  | apply by_set_dt ] ]
      | rewrite fn_lookup_insert_ne by done; reflexivity ]
  | |- _ => reflexivity
  end.

Ltac born_done :=
  let r0 := fresh "r" in
  intros r0 ?;
  first
    [ lia
    | lazymatch goal with
      | |- derived (<[?n := _]> _ r0) =>
          assert (r0 = n) by lia; subst r0;
          rewrite fn_lookup_insert; eexists; split; [|reflexivity];
          first [ left; reflexivity | right; eexists; eassumption ]
      end ].

Ltac files_done :=
  let f0 := fresh "f" in
  let H := fresh "H" in
  intros f0 ? H;
  first
    [ left; exact H
    | lazymatch type of H with
      | <[?f := _]> _ !! _ = _ =>
          destruct (decide (f = f0));
          [ subst f0; rewrite lookup_insert_eq in H; injection H as <-;
            right; eexists _, _; eassumption
          | rewrite lookup_insert_ne in H by done; left; exact H ]
      end ].

Ltac delegated_leaf :=
  unfold delegated; cbn; split_and!;
  [ lia | heap_done | born_done | files_done ].

Section Delegation.
Import Py Cells.

#[local] Instance delegated_preorder `{L : Rebound} : PreOrder delegated.
Proof.
  split.
  - intros k. unfold delegated. split_and!; [lia|done|lia|auto].
  - intros k1 k2 k3 (N1 & H1 & B1 & F1) (N2 & H2 & B2 & F2).
    unfold delegated. split_and!.
    + lia.
    + intros r Hr. etrans; [by apply H1|apply H2; lia].
    + intros r Hr. destruct (decide (r < next k2)%nat).
      * destruct (B1 r) as (s0 & Hs0 & Hrtc); [lia|].
        exists s0. split; [done|]. etrans; [exact Hrtc|by apply H2].
      * apply B2. lia.
    + intros f ar Hf. destruct (F2 f ar Hf) as [Hf2|?]; [|by right].
      by apply F1.
Qed.

Lemma from_library_trans `{L : Rebound} k1 k2 s :
  (forall r, from_library k1 (heap k2 r)) ->
  from_library k2 s -> from_library k1 s.
Proof.
  intros H [(r & Hr)|Hd]; [|by right].
  destruct (H r) as [(r' & Hr')|(s0 & Hs0 & Hrtc)].
  - left. exists r'. by etrans.
  - right. exists s0. split; [done|by etrans].
Qed.

#[local] Instance reported_preorder `{L : Rebound} : PreOrder reported.
Proof.
  split.
  - intros k. split.
    + intros r. left. by exists r.
    + exists []. by rewrite app_nil_r.
  - intros k1 k2 k3 (H1 & ls1 & O1 & F1) (H2 & ls2 & O2 & F2). split.
    + intros r. by eapply from_library_trans.
    + exists (ls1 ++ ls2). rewrite O2, O1, app_assoc. split; [done|].
      apply Forall_app. split; [done|].
      eapply Forall_impl; [exact F2|].
      intros [t|xs]; [done|]. intros (s & Hs & Hxs).
      exists s. split; [by eapply from_library_trans|done].
Qed.

Lemma with_lines_app `{L : Rebound} ls k :
  heap (with_lines ls k) = heap k /\ out (with_lines ls k) = out k ++ ls.
Proof.
  revert k. induction ls as [|l ls IH]; intros k.
  - cbn. by rewrite app_nil_r.
  - destruct (IH (with_line l k)) as [H1 H2].
    unfold with_lines in *. cbn [foldl]. rewrite H1, H2. cbn.
    by rewrite <- app_assoc.
Qed.

(** A loop of prints. *)
Lemma print_loop `{L : Rebound} {A} (f : A -> Line) xs k :
  for_each xs (fun x => print (f x)) k = Done tt (with_lines (f <$> xs) k).
Proof.
  revert k. induction xs as [|x xs IH]; intros k; [done|].
  rewrite for_each_cons. unfold print at 1. by rewrite IH.
Qed.

(** The loop of the report prints one row for each orbit, with its angles
    divided by the value of [dtor], or stops before it prints any. *)
Lemma report_loop `{L : Rebound} os k :
  exists d os',
    (os' = os \/ os' = [])
    /\ kernel_of
         (for_each os (fun o =>
            w ← over_dtor (o_omega o);
            i ← over_dtor (o_inc o);
            O ← over_dtor (o_Omega o);
            print (Row [o_a o; o_e o; w; i; O])) k)
       = with_lines (row d <$> os') k.
Proof.
  set (body := fun o : Orbit => _).
  destruct (g_float k dtor) as [d|] eqn:Hd.
  - destruct (Req_dec_T d 0) as [Hz|Hnz].
    + exists d, []. split; [by right|].
      destruct os as [|o os]; [done|].
      rewrite for_each_cons.
      unfold body, over_dtor, get_float, div, mbind, nb_bind, bind.
      rewrite Hd. by destruct (Req_dec_T d 0).
    + exists d, os. split; [by left|].
      assert (Hbody : forall o k0,
                 g_float k0 dtor = Some d ->
                 body o k0 = Done tt (with_line (row d o) k0)).
      { intros o k0 H0.
        assert (Hover : forall x, over_dtor x k0 = Done (x / d) k0).
        { intros x. unfold over_dtor, get_float, div, mbind, nb_bind, bind.
          rewrite H0. by destruct (Req_dec_T d 0). }
        unfold body.
        by rewrite !(bind_step _ _ _ _ _ (Hover _)). }
      revert k Hd. induction os as [|o os IH]; intros k Hd; [done|].
      rewrite for_each_cons, Hbody by done. by apply IH.
  - exists 0, []. split; [by right|].
    destruct os as [|o os]; [done|].
    rewrite for_each_cons.
    unfold body, over_dtor, get_float, mbind, nb_bind, bind. by rewrite Hd.
Qed.

Ltac states_done :=
  let r0 := fresh "r" in
  intros r0;
  lazymatch goal with
  | |- from_library _ (<[?r := _]> _ r0) =>
      destruct (decide (r = r0));
      [ subst; rewrite fn_lookup_insert;
        first
          [ left; eexists; apply rtc_once;
            first [ eapply by_assign_units; eassumption
                  | eapply by_add; eassumption
                  | eapply by_move_to_com; eassumption
                  | eapply by_integrate; eassumption
                  | apply by_set_G
                  | apply by_set_dt ]
          | right; eexists; split; [|reflexivity];
            first [ left; reflexivity | right; eexists; eassumption ] ]
      | rewrite fn_lookup_insert_ne by done; left; eexists; reflexivity ]
  | |- _ => left; eexists; reflexivity
  end.

Ltac lines_done :=
  first
    [ exists []; split; [by rewrite app_nil_r|constructor]
    | eexists [Text _]; split;
      [reflexivity|constructor; [exact I|constructor]] ].

Ltac reported_leaf := unfold reported; cbn; split; [states_done|lines_done].

Section Reports.
Context `{L : Rebound}.
Import Py Cells.

Lemma reported_lines k k0 ls :
  reported k k0 -> Forall (library_line k0) ls ->
  reported k (with_lines ls k0).
Proof.
  intros Hk Hls. etrans; [exact Hk|].
  destruct (with_lines_app ls k0) as [Hh Ho]. split.
  - intros r. rewrite Hh. left. by exists r.
  - exists ls. by split.
Qed.

Lemma respects_bind_from (R : Kernel -> Kernel -> Prop) `{!Transitive R}
    {A B} (m : NB A) (f : A -> NB B) :
  respects R m ->
  (forall a k k1, m k = Done a k1 -> R k1 (kernel_of (f a k1))) ->
  respects R (m ≫= f).
Proof.
  intros Hm Hf k. specialize (Hm k). unfold mbind, nb_bind, bind.
  destruct (m k) as [a k1|e k1] eqn:E; cbn in Hm; [|exact Hm].
  etrans; [exact Hm|]. by eapply Hf.
Qed.

Lemma orbits_done r k os k1 :
  rb_calculate_orbits r k = Done os k1 ->
  calculate_orbits (heap k1 r) = Ok os.
Proof.
  unfold rb_calculate_orbits, emit, deref, lift, mbind, nb_bind, bind. cbn.
  destruct (calculate_orbits (heap k r)) as [os'|msg] eqn:E; [|done].
  intros H. injection H as <- <-. exact E.
Qed.

Lemma reported_orbits r : respects reported (rb_calculate_orbits r).
Proof. respects_go reported_leaf. Qed.

Lemma reported_print_elements : respects reported print_elements.
Proof.
  unfold print_elements.
  apply respects_bind; [apply _|respects_go reported_leaf|intros _].
  apply respects_bind; [apply _|respects_go reported_leaf|intros _].
  apply respects_bind; [apply _|respects_go reported_leaf|intros r].
  apply respects_bind_from; [apply _|apply reported_orbits|].
  intros os k k1 E%orbits_done.
  destruct (report_loop os k1) as (d & os' & Hos' & ->).
  apply reported_lines; [reflexivity|].
  apply Forall_fmap, List.Forall_forall. intros o Ho.
  exists (heap k1 r). split; [left; by exists r|].
  left. exists os, o, d. split_and!; [done| |done].
  by destruct Hos' as [->| ->].
Qed.

Lemma reported_6b6cbae2 : respects reported cell_6b6cbae2.
Proof.
  unfold cell_6b6cbae2.
  apply respects_bind; [apply _|respects_go reported_leaf|intros _].
  apply respects_bind; [apply _|respects_go reported_leaf|intros r].
  apply respects_bind_from; [apply _|apply reported_orbits|].
  intros os k k1 E%orbits_done.
  assert (Hrest : respects reported (r ← get_sim; rb_set_dt r 1.0)).
  { respects_calls ltac:(whole_call reported_leaf) reported_leaf. }
  unfold mbind at 1, nb_bind, bind. rewrite print_loop.
  etrans; [|apply Hrest].
  apply reported_lines; [reflexivity|].
  apply Forall_fmap, List.Forall_forall. intros o Ho.
  exists (heap k1 r). split; [left; by exists r|].
  right. left. by exists os, o.
Qed.

Lemma reported_2eb7fc48 : respects reported cell_2eb7fc48.
Proof.
  unfold cell_2eb7fc48.
  apply respects_bind; [apply _|respects_go reported_leaf|intros r0].
  apply respects_bind;
    [apply _|respects_calls ltac:(whole_call reported_leaf) reported_leaf
    |intros _].
  apply respects_bind; [apply _|respects_go reported_leaf|intros _].
  apply respects_bind; [apply _|respects_go reported_leaf|intros r].
  apply respects_bind_from; [apply _|respects_go reported_leaf|].
  intros s k k1 E. unfold deref in E. injection E as <- <-.
  rewrite print_loop.
  apply reported_lines; [reflexivity|].
  apply Forall_fmap, List.Forall_forall. intros p Hp.
  exists (heap k r). split; [left; by exists r|].
  right. right. by exists p.
Qed.

End Reports.
Ltac report_call :=
  idtac;
  lazymatch goal with
  | |- respects _ Cells.print_elements => apply reported_print_elements
  | |- respects _ Cells.cell_6b6cbae2 => apply reported_6b6cbae2
  | |- respects _ Cells.cell_2eb7fc48 => apply reported_2eb7fc48
  | |- _ => whole_call reported_leaf
  end.

(** C6: whatever the library does and from whatever kernel a cell of
    either notebook is run, and however it ends, every simulation object
    that was there has only gone through library calls ([sim.units = ...],
    [add], [move_to_com], [integrate]) and assignments of [G] and [dt];
    every new one was created or loaded by the library; every file that
    changed holds what the library's [save] returned; and every number
    printed is an element or the period of an orbit [calculate_orbits]
    returned for such a simulation, an angle of it divided by one number,
    or a coordinate of one of its bodies. *)
Theorem C6_simulation_states_and_files_are_the_library_s `{L : Rebound} :
  Forall (respects delegated) (Part000.notebook ++ HR8799.notebook)
  /\ Forall (respects reported) (Part000.notebook ++ HR8799.notebook).
Proof.
  split.
  - each_cell;
      respects_calls ltac:(whole_call delegated_leaf) delegated_leaf.
  - each_cell; respects_calls ltac:(report_call) reported_leaf.
Qed.

End Delegation.

(** ** Following a cell that completes

    [twp m Q k] is proved like [wp m Q k], with the value of each name read
    and the answer of each library call at hand. *)

Section Twp.
Context `{L : Rebound}.
Import Py.

Lemma twp_bind {A B} (m : NB A) (f : A -> NB B) Q k :
  twp m (fun a k1 => twp (f a) Q k1) k -> twp (m ≫= f) Q k.
Proof.
  intros (a & k1 & E1 & b & k' & E2 & HQ). exists b, k'. split; [|done].
  by rewrite (bind_step m f k a k1 E1).
Qed.

Lemma twp_ret {A} (a : A) Q k : Q a k -> twp (mret a) Q k.
Proof. intros H. by exists a, k. Qed.

Lemma twp_emit ev Q k : Q tt (with_event ev k) -> twp (emit ev) Q k.
Proof. intros H. by eexists _, _. Qed.

Lemma twp_print l Q k : Q tt (with_line l k) -> twp (print l) Q k.
Proof. intros H. by eexists _, _. Qed.

Lemma twp_get_sim r Q k : g_sim k = Some r -> Q r k -> twp get_sim Q k.
Proof. intros E H. exists r, k. unfold get_sim. by rewrite E. Qed.

Lemma twp_assign_sim r Q k :
  Q tt (with_sim (Some r) k) -> twp (assign_sim r) Q k.
Proof. intros H. by eexists _, _. Qed.

Lemma twp_del_sim r Q k :
  g_sim k = Some r -> Q tt (with_sim None k) -> twp del_sim Q k.
Proof. intros E H. eexists _, _. unfold del_sim. by rewrite E. Qed.

Lemma twp_get_op p Q k : g_op k = Some p -> Q p k -> twp get_op Q k.
Proof. intros E H. exists p, k. unfold get_op. by rewrite E. Qed.

Lemma twp_assign_op p Q k :
  Q tt (with_op (Some p) k) -> twp (assign_op p) Q k.
Proof. intros H. by eexists _, _. Qed.

Lemma twp_get_fig u Q k : g_fig k = Some u -> Q u k -> twp get_fig Q k.
Proof. intros E H. exists u, k. unfold get_fig. by rewrite E. Qed.

Lemma twp_assign_fig u Q k :
  Q tt (with_fig (Some u) k) -> twp (assign_fig u) Q k.
Proof. intros H. by eexists _, _. Qed.

Lemma twp_get_nframe n Q k :
  g_nframe k = Some n -> Q n k -> twp get_nframe Q k.
Proof. intros E H. exists n, k. unfold get_nframe. by rewrite E. Qed.

Lemma twp_assign_nframe n Q k :
  Q tt (with_nframe (Some n) k) -> twp (assign_nframe n) Q k.
Proof. intros H. by eexists _, _. Qed.

Lemma twp_get_float x v Q k :
  g_float k x = Some v -> Q v k -> twp (get_float x) Q k.
Proof. intros E H. exists v, k. unfold get_float. by rewrite E. Qed.

Lemma twp_assign_float x v Q k :
  Q tt (with_float x v k) -> twp (assign_float x v) Q k.
Proof. intros H. by eexists _, _. Qed.

Lemma twp_deref r Q k : Q (heap k r) k -> twp (deref r) Q k.
Proof. intros H. by eexists _, _. Qed.

Lemma twp_store r s Q k : Q tt (with_object r s k) -> twp (store r s) Q k.
Proof. intros H. by eexists _, _. Qed.

Lemma twp_fresh Q k : Q (next k) k -> twp fresh Q k.
Proof. intros H. by eexists _, _. Qed.

Lemma twp_alloc s Q k :
  Q (next k) (with_next (S (next k)) (with_object (next k) s k)) ->
  twp (alloc s) Q k.
Proof. intros H. by eexists _, _. Qed.

Lemma twp_read_file f Q k : Q (files k !! f) k -> twp (read_file f) Q k.
Proof. intros H. by eexists _, _. Qed.

Lemma twp_write_file f ar Q k :
  Q tt (with_file f ar k) -> twp (write_file f ar) Q k.
Proof. intros H. by eexists _, _. Qed.

Lemma twp_lift {A} (res : result A) a Q k :
  res = Ok a -> Q a k -> twp (lift res) Q k.
Proof. intros -> H. by exists a, k. Qed.

Lemma twp_div x y Q k : y <> 0 -> Q (x / y) k -> twp (div x y) Q k.
Proof.
  intros Hy H. exists (x / y), k. unfold div.
  by destruct (Req_dec_T y 0).
Qed.

Lemma twp_use {A} (m : NB A) Q k :
  twp m Q k -> exists a k', m k = Done a k' /\ Q a k'.
Proof. done. Qed.

End Twp.

(** The value of a name, in an explicit update of a kernel. *)
Ltac known := nb_simpl; first [reflexivity | eassumption].

Ltac twp_step :=
  lazymatch goal with
  | |- twp (_ ≫= _) _ _ => apply twp_bind
  | |- twp (mret _) _ _ => apply twp_ret
  | |- twp (Py.emit _) _ _ => apply twp_emit
  | |- twp (Py.print _) _ _ => apply twp_print
  | |- twp Py.get_sim _ _ => eapply twp_get_sim; [known|]
  | |- twp (Py.assign_sim _) _ _ => apply twp_assign_sim
  | |- twp Py.del_sim _ _ => eapply twp_del_sim; [known|]
  | |- twp Py.get_op _ _ => eapply twp_get_op; [known|]
  | |- twp (Py.assign_op _) _ _ => apply twp_assign_op
  | |- twp Py.get_fig _ _ => eapply twp_get_fig; [known|]
  | |- twp (Py.assign_fig _) _ _ => apply twp_assign_fig
  | |- twp Py.get_nframe _ _ => eapply twp_get_nframe; [known|]
  | |- twp (Py.assign_nframe _) _ _ => apply twp_assign_nframe
  | |- twp (Py.get_float _) _ _ => eapply twp_get_float; [known|]
  | |- twp (Py.assign_float _ _) _ _ => apply twp_assign_float
  | |- twp (Py.deref _) _ _ => apply twp_deref
  | |- twp (Py.store _ _) _ _ => apply twp_store
  | |- twp Py.fresh _ _ => apply twp_fresh
  | |- twp (Py.alloc _) _ _ => apply twp_alloc
  | |- twp (Py.read_file _) _ _ => apply twp_read_file
  | |- twp (Py.write_file _ _) _ _ => apply twp_write_file
  | |- twp (Py.lift (add ?args ?s)) _ _ =>
      first
        [ eapply twp_lift; [known|]
        | lazymatch goal with
          | T : forall a, total (add a) |- _ =>
              let s' := fresh "s" in let E := fresh "Eadd" in
              destruct (T args s) as [s' E]; nb_simpl_in E;
              eapply twp_lift; [nb_simpl; exact E|]
          end ]
  | |- twp (Py.lift _) _ _ => eapply twp_lift; [known|]
  | |- twp (Py.div _ _) _ _ => eapply twp_div; [nb_simpl; assumption|]
  | |- twp (Py.for_each _ _) _ _ => fail
  | |- twp ?m _ _ => let h := head_of m in unfold h
  end; cbv beta.

Ltac twp_go := repeat twp_step.

(** ** C10: degrees in, degrees out *)

Section Angles.
Import Py Cells.

Lemma dtor_nonzero : PI / 180 <> 0.
Proof. pose proof PI_RGT_0. lra. Qed.

Lemma deg_rad_deg x : x * (PI / 180) / (PI / 180) = x.
Proof. field. pose proof PI_RGT_0. lra. Qed.

Lemma with_lines_fields `{L : Rebound} ls k :
  g_sim (with_lines ls k) = g_sim k
  /\ g_float (with_lines ls k) = g_float k
  /\ log (with_lines ls k) = log k
  /\ out (with_lines ls k) = out k ++ ls.
Proof.
  revert k. induction ls as [|l ls IH]; intros k; cbn.
  - by rewrite app_nil_r.
  - destruct (IH (with_line l k)) as (H1 & H2 & H3 & H4).
    unfold with_lines in *. cbn [foldl]. rewrite H1, H2, H3, H4. cbn.
    by rewrite <- app_assoc.
Qed.

(** The rows of the report. *)
Lemma twp_rows `{L : Rebound} os d Q k :
  g_float k dtor = Some d -> d <> 0 ->
  Q tt (with_lines (row d <$> os) k) ->
  twp (for_each os (fun o =>
         w ← over_dtor (o_omega o);
         i ← over_dtor (o_inc o);
         O ← over_dtor (o_Omega o);
         print (Row [o_a o; o_e o; w; i; O]))) Q k.
Proof.
  revert k. induction os as [|o os IH]; intros k Hd Hnz HQ.
  - cbn [for_each]. by apply twp_ret.
  - cbn [for_each]. apply twp_bind. twp_go. apply IH; [exact Hd|exact Hnz|].
    exact HQ.
Qed.

(** The first body cell, run on a simulation that holds no body, with a
    library that accepts every body and gives back the elements it was
    given: the calls it makes and the lines it prints. *)
Lemma bodies_cell_runs `{L : Rebound} k r :
  returns_elements -> (forall a, total (add a)) ->
  g_sim k = Some r -> sim_particles (heap k r) = [] ->
  exists k',
    cell_a20bd72a k = Done tt k'
    /\ out k' = out k ++
         [Text ""; Text header;
          Row [16.64; 0.1397; 118.8; 27.8; 60.1];
          Row [26.29; 0.1112; 24.3; 27.8; 60.1]]
    /\ log k' = log k ++
         [EAdd r star_args;
          EAdd r (planet_args 5e-3 16.64 0.1397 (118.8 * (PI / 180)) 1.261
                    (27.8 * (PI / 180)) (60.1 * (PI / 180)));
          EAdd r (planet_args 5e-3 26.29 0.1112 (24.3 * (PI / 180)) 2.032
                    (27.8 * (PI / 180)) (60.1 * (PI / 180)));
          ECalculateOrbits r]
    /\ g_sim k' = Some r
    /\ g_float k' dtor = Some (PI / 180)
    /\ g_float k' inc_pl = Some (27.8 * (PI / 180))
    /\ g_float k' Omega_pl = Some (60.1 * (PI / 180))
    /\ g_float k' mass_e = Some 5e-3.
Proof.
  intros (HA & HB & HC) Ht Hs Hp.
  match goal with
  | |- exists k', ?m ?k = Done tt k' /\ @?P k' =>
      assert (Htwp : twp m (fun _ => P) k)
  end.
  { twp_go.
    lazymatch goal with
    | E1 : add star_args _ = Ok ?s1,
      E2 : add (planet_args _ 16.64 _ _ _ _ _) ?s1 = Ok ?s2,
      E3 : add (planet_args _ 26.29 _ _ _ _ _) ?s2 = Ok ?s3 |- _ =>
        pose proof (HA _ _ Hp E1) as H1;
        pose proof (HC _ _ _ E1) as L1;
        assert (N1 : sim_particles s1 <> [])
          by (intros N; rewrite N in L1; discriminate);
        destruct (HB _ _ _ _ _ _ _ _ _ _ N1 H1 E2) as [P2 H2];
        pose proof (HC _ _ _ E2) as L2;
        assert (N2 : sim_particles s2 <> [])
          by (intros N; rewrite N in L2; discriminate);
        destruct (HB _ _ _ _ _ _ _ _ _ _ N2 H2 E3) as [P3 H3]
    end.
    eapply twp_lift; [nb_simpl; exact H3|]. cbv beta.
    apply (twp_rows _ (PI / 180)); [known|apply dtor_nonzero|].
    match goal with
    | |- context [with_lines ?ls ?k0] =>
        destruct (with_lines_fields ls k0) as (Hg & Hf & Hl & Ho);
        rewrite Hg, Hf, Hl, Ho
    end.
    cbn. unfold row. cbn [o_a o_e o_omega o_inc o_Omega].
    rewrite !deg_rad_deg, <- !app_assoc. nb_simpl. done. }
  destruct Htwp as ([] & k' & E & HP). exists k'. by split.
Qed.

(** The report, whatever the orbits the library returns: one row for each,
    its three angles divided by the value of [dtor]. *)
Lemma report_rows `{L : Rebound} k r d os :
  g_sim k = Some r -> g_float k dtor = Some d -> d <> 0 ->
  calculate_orbits (heap k r) = Ok os ->
  exists k',
    print_elements k = Done tt k'
    /\ out k' = out k ++ Text "" :: Text header :: (row d <$> os).
Proof.
  intros Hs Hd Hnz Hos.
  match goal with
  | |- exists k', ?m ?k = Done tt k' /\ @?P k' =>
      assert (Htwp : twp m (fun _ => P) k)
  end.
  { unfold print_elements. twp_go.
    apply (twp_rows _ d); [known|exact Hnz|].
    match goal with
    | |- context [with_lines ?ls ?k0] =>
        destruct (with_lines_fields ls k0) as (_ & _ & _ & Ho); rewrite Ho
    end.
    cbn. by rewrite <- !app_assoc. }
  destruct Htwp as ([] & k' & E & HP). exists k'. by split.
Qed.

(** The angles and the mean anomalies of a run from top to bottom. *)
Lemma script_angles n m :
  omap angles_of (script n m) =
    written_angles <$> [118.8; 24.3; 28.5; 213.6; 118.8; 24.3; 28.5; 213.6]
  /\ omap anomaly_of (script n m) =
    [1.261; 2.032; 4.232; 2.642; 1.261; 2.032; 4.232; 2.642].
Proof. split; reflexivity. Qed.

(** The stand-in library accepts every body and gives back its elements. *)
Lemma stub_add_total a : total (@add stub_rebound a).
Proof. intros s. eexists. reflexivity. Qed.

Lemma stub_returns_elements : returns_elements (L:=stub_rebound).
Proof.
  split_and!.
  - intros s s' Hp H. injection H as <-. cbn. by rewrite Hp.
  - intros s s' os m a e w M i O Hp Hos H. injection H as <-.
    injection Hos as <-. exists 0. cbn.
    destruct (sim_particles s) as [|p ps]; [done|].
    cbn. by rewrite fmap_app.
  - intros args s s' H. injection H as <-. cbn.
    rewrite length_app. cbn. lia.
Qed.

Lemma set_up_empty :
  g_sim (L:=stub_rebound) set_up = Some 0%nat
  /\ sim_particles (heap (L:=stub_rebound) set_up 0%nat) = [].
Proof. split; reflexivity. Qed.

(** The mean anomaly is written in radians: multiplying it by [dtor] would
    change it. *)
Lemma radians_differ x : x <> 0 -> x <> x * (PI / 180).
Proof.
  intros Hx H. pose proof PI_4 as Hle. pose proof PI_RGT_0 as Hpos.
  assert (Hz : x * (1 - PI / 180) = 0) by lra.
  apply Rmult_integral in Hz as [Hz|Hz]; lra.
Qed.

(** C10, as stated, fails on the mean anomaly: the first body cell, run
    after the set-up cell, hands planet e's [M=1.261] to [sim.add] as it is
    written, not multiplied by [dtor]. *)
Lemma C10_mean_anomaly_is_not_converted :
  exists (k' : @Kernel stub_rebound) a,
    cell_a20bd72a set_up = Done tt k'
    /\ In (EAdd 0%nat a) (log k')
    /\ kw_omega a = Some (118.8 * (PI / 180))
    /\ kw_M a = Some 1.261
    /\ 1.261 <> 1.261 * (PI / 180).
Proof.
  destruct set_up_empty as [Hs Hp].
  destruct (bodies_cell_runs set_up 0%nat stub_returns_elements
              stub_add_total Hs Hp) as (k' & Hrun & _ & Hlog & _).
  exists k', (planet_args 5e-3 16.64 0.1397 (118.8 * (PI / 180)) 1.261
                (27.8 * (PI / 180)) (60.1 * (PI / 180))).
  split_and!; [exact Hrun| |reflexivity|reflexivity|apply radians_differ; lra].
  rewrite Hlog. apply in_or_app. right. right. left. reflexivity.
Qed.

(** C10, amended: the angles written in degrees (argument of periastron,
    inclination, longitude of the node) reach [sim.add] multiplied by
    [dtor = pi/180], while the mean anomaly reaches it as written; the report
    divides the three angles of every orbit by the same [dtor]; dividing
    [x * dtor] by [dtor] gives [x]; and with a library that accepts every
    body and returns the elements it was given, the first body cell, run on
    an empty simulation, prints for planets e and d the degrees they were
    written with. *)
Theorem C10_degrees_are_converted_with_dtor_and_back `{L : Rebound} k r :
  returns_elements -> (forall a, total (add a)) ->
  g_sim k = Some r -> sim_particles (heap k r) = [] ->
  (exists k',
      cell_a20bd72a k = Done tt k'
      /\ g_float k' dtor = Some (PI / 180)
      /\ log k' = log k ++
           [EAdd r star_args;
            EAdd r (planet_args 5e-3 16.64 0.1397 (118.8 * (PI / 180)) 1.261
                      (27.8 * (PI / 180)) (60.1 * (PI / 180)));
            EAdd r (planet_args 5e-3 26.29 0.1112 (24.3 * (PI / 180)) 2.032
                      (27.8 * (PI / 180)) (60.1 * (PI / 180)));
            ECalculateOrbits r]
      /\ out k' = out k ++
           [Text ""; Text header;
            Row [16.64; 0.1397; 118.8; 27.8; 60.1];
            Row [26.29; 0.1112; 24.3; 27.8; 60.1]]
      /\ (forall x, over_dtor (x * (PI / 180)) k' = Done x k')
      /\ (forall a e w M,
            add_planet mass_e a e w M k' =
            rb_add r (planet_args 5e-3 a e (w * (PI / 180)) M
                        (27.8 * (PI / 180)) (60.1 * (PI / 180))) k'))
  /\ (forall k0 r0 d os,
        g_sim k0 = Some r0 -> g_float k0 dtor = Some d -> d <> 0 ->
        calculate_orbits (heap k0 r0) = Ok os ->
        exists k1,
          print_elements k0 = Done tt k1
          /\ out k1 = out k0 ++ Text "" :: Text header :: (row d <$> os))
  /\ (forall nb m k0 k1,
        In (nb, m) notebooks -> run_all nb k0 = Done tt k1 ->
        omap angles_of (structural (log k1)) =
          omap angles_of (structural (log k0)) ++
          (written_angles <$>
             [118.8; 24.3; 28.5; 213.6; 118.8; 24.3; 28.5; 213.6])
        /\ omap anomaly_of (structural (log k1)) =
          omap anomaly_of (structural (log k0)) ++
          [1.261; 2.032; 4.232; 2.642; 1.261; 2.032; 4.232; 2.642]).
Proof.
  intros Hre Ht Hs Hp. split_and!.
  - destruct (bodies_cell_runs k r Hre Ht Hs Hp)
      as (k' & Hrun & Hout & Hlog & Hs' & Hd & Hi & HO & Hm).
    exists k'. split_and!; try assumption.
    + intros x. unfold over_dtor, get_float, div, mbind, nb_bind, bind.
      rewrite Hd. destruct (Req_dec_T (PI / 180) 0) as [E|_].
      * by destruct dtor_nonzero.
      * by rewrite deg_rad_deg.
    + intros a e w M.
      unfold add_planet, get_sim, get_float, mbind, nb_bind, bind.
      by rewrite Hs', Hm, Hd, Hi, HO.
  - intros k0 r0 d os. apply report_rows.
  - intros nb m k0 k1 Hin Hrun.
    destruct (notebook_script nb m k0 k1 Hin Hrun) as [-> _].
    destruct (script_angles (next k0) m) as [Ha HM].
    by rewrite !omap_app, Ha, HM.
Qed.

(** C10 on the stand-in library, which keeps the elements it is given: run
    after the set-up cell, the first body cell prints 118.8, 27.8, 60.1 for
    planet e and 24.3, 27.8, 60.1 for planet d. *)
Lemma C10_stub_prints_the_degrees_written :
  exists k' : @Kernel stub_rebound,
    cell_a20bd72a set_up = Done tt k'
    /\ out k' = out (L:=stub_rebound) set_up ++
         [Text ""; Text header;
          Row [16.64; 0.1397; 118.8; 27.8; 60.1];
          Row [26.29; 0.1112; 24.3; 27.8; 60.1]].
Proof.
  destruct (proj1 (C10_degrees_are_converted_with_dtor_and_back
                     (L:=stub_rebound) set_up 0%nat stub_returns_elements
                     stub_add_total (proj1 set_up_empty)
                     (proj2 set_up_empty)))
    as (k' & Hrun & _ & _ & Hout & _).
  exists k'. exact (conj Hrun Hout).
Defined.

End Angles.

(** ** Running order *)

(** A library call that does not raise has an answer. *)
Ltac answered :=
  let b := fresh "b" in
  let E := fresh "Ecall" in
  lazymatch goal with
  | |- twp (Py.lift ?res) _ _ =>
      lazymatch res with
      | assign_units ?u ?s =>
          lazymatch goal with
          | T : forall u, total (assign_units u) |- _ =>
              destruct (T u s) as [b E]
          end
      | add ?a ?s =>
          lazymatch goal with
          | T : forall a, total (add a) |- _ => destruct (T a s) as [b E]
          end
      | calculate_orbits ?s =>
          lazymatch goal with
          | T : total calculate_orbits |- _ => destruct (T s) as [b E]
          end
      | move_to_com ?s =>
          lazymatch goal with
          | T : total move_to_com |- _ => destruct (T s) as [b E]
          end
      | integrate ?t ?s =>
          lazymatch goal with
          | T : forall tmax, total (integrate tmax) |- _ =>
              destruct (T t s) as [b E]
          end
      | save ?s ?old =>
          lazymatch goal with
          | T : forall s, total (save s) |- _ => destruct (T s old) as [b E]
          end
      | status ?s =>
          lazymatch goal with
          | T : total status |- _ => destruct (T s) as [b E]
          end
      | orbit_plot ?s =>
          lazymatch goal with
          | T : total orbit_plot |- _ => destruct (T s) as [b E]
          end
      | plot_update ?s =>
          lazymatch goal with
          | T : total plot_update |- _ => destruct (T s) as [b E]
          end
      end;
      eapply twp_lift; [exact E|]; nb_simpl_in E
  end.

Ltac run_step_total := first [twp_step | answered].
Ltac run_total := repeat run_step_total.

(** The checkpoint is there and [load] accepts it. *)
Ltac loaded :=
  lazymatch goal with
  | |- twp (Py.lift (load _)) _ _ =>
      nb_simpl;
      lazymatch goal with
      | Hf : Py.files _ !! _ = Some ?ar,
        T : forall ar, exists s, load (Some ar) = Ok s |- _ =>
          let s0 := fresh "s" in
          let E := fresh "Eload" in
          rewrite Hf; destruct (T ar) as [s0 E];
          eapply twp_lift; [exact E|]; run_total
      end
  end.

Ltac ready_done :=
  unfold ready, named; nb_simpl; rewrite ?lookup_insert_eq;
  split_and!;
  first [ assumption | reflexivity | eexists; first [reflexivity|eassumption] ].

Section Totality.
Context `{L : Rebound}.
Import Py Cells.

Lemma twp_unit (m : NB unit) (P : Kernel -> Prop) k :
  twp m (fun _ k' => P k') k -> exists k', m k = Done tt k' /\ P k'.
Proof. intros ([] & k' & E & HP). eauto. Qed.

Lemma twp_for_each {A} (I : Kernel -> Prop) (body : A -> NB unit) xs Q k :
  (forall x k0, I k0 -> twp (body x) (fun _ k1 => I k1) k0) ->
  I k -> (forall k', I k' -> Q tt k') ->
  twp (for_each xs body) Q k.
Proof.
  intros Hb HI HQ. revert k HI.
  induction xs as [|x xs IH]; intros k HI.
  - exists tt, k. split; [done|auto].
  - destruct (Hb x k HI) as ([] & k1 & E & HI1).
    destruct (IH k1 HI1) as (a & k' & E' & HQ').
    exists a, k'. split; [|done]. by rewrite for_each_cons, E.
Qed.

Lemma twp_prints {A} (f : A -> Line) xs Q k :
  Q tt (with_lines (f <$> xs) k) ->
  twp (for_each xs (fun x => print (f x))) Q k.
Proof.
  intros H. exists tt, (with_lines (f <$> xs) k).
  split; [apply print_loop|done].
Qed.

Lemma with_lines_names ls k :
  g_sim (with_lines ls k) = g_sim k
  /\ g_op (with_lines ls k) = g_op k
  /\ g_float (with_lines ls k) = g_float k
  /\ files (with_lines ls k) = files k.
Proof.
  revert k. induction ls as [|l ls IH]; intros k; [done|].
  destruct (IH (with_line l k)) as (H1 & H2 & H3 & H4).
  unfold with_lines in *. cbn [foldl]. by rewrite H1, H2, H3, H4.
Qed.

Lemma ready_with_lines ls k : ready k -> ready (with_lines ls k).
Proof.
  destruct (with_lines_names ls k) as (H1 & H2 & H3 & H4).
  unfold ready, named. by rewrite H1, H2, H3, H4.
Qed.

Lemma frame_keeps_ready frame k :
  never_raises -> In frame [Part000.animation_frame; Part000.zoom_frame] ->
  ready k /\ is_Some (g_float k framestep) /\ is_Some (g_fig k) ->
  twp frame
    (fun _ k' => ready k' /\ is_Some (g_float k' framestep)
                 /\ is_Some (g_fig k')) k.
Proof.
  intros (Tu & Ta & To & Tm & Ti & Ts & Tl & Tst & Tp & Tup) Hin
         ((([r Hs] & Hd & [i Hi] & [O HO] & [m Hm]) & [p Hp] & [ar Hf])
          & [f Hfs] & [u Hu]).
  destruct Hin as [<-|[<-|[]]]; run_total;
    (split_and!; [ready_done|eexists; known..]).
Qed.

Lemma frame_keeps_ready_nofig k :
  never_raises ->
  ready k /\ is_Some (g_float k framestep) ->
  twp HR8799.animation_frame
    (fun _ k' => ready k' /\ is_Some (g_float k' framestep)) k.
Proof.
  intros (Tu & Ta & To & Tm & Ti & Ts & Tl & Tst & Tp & Tup)
         ((([r Hs] & Hd & [i Hi] & [O HO] & [m Hm]) & [p Hp] & [ar Hf])
          & [f Hfs]).
  run_total. split; [ready_done|eexists; known].
Qed.

End Totality.

Ltac report_done :=
  apply (twp_rows _ (PI / 180)); [known|apply dtor_nonzero|];
  apply ready_with_lines.

(** The loop of an animation cell. *)
Ltac loop_done :=
  lazymatch goal with
  | |- twp (Py.for_each _ (fun _ => HR8799.animation_frame)) _ _ =>
      apply (twp_for_each
               (fun k => ready k /\ is_Some (Py.g_float k framestep)));
      [ intros _ ? ?; by apply frame_keeps_ready_nofig
      | split; [ready_done|eexists; known]
      | intros ? [? _]; assumption ]
  | |- twp (Py.for_each _ (fun _ => _)) _ _ =>
      apply (twp_for_each
               (fun k => ready k /\ is_Some (Py.g_float k framestep)
                         /\ is_Some (Py.g_fig k)));
      [ intros _ ? ?; apply frame_keeps_ready; [done|cbn; auto|done]
      | split_and!; [ready_done|eexists; known..]
      | intros ? [? _]; assumption ]
  end.

Section Later_cells.
Context `{L : Rebound}.
Import Py Cells.

(** Once the first seven code cells have run, each of the later cells
    completes, and leaves things so that any of them can run next. *)
Lemma later_cell_completes c k :
  never_raises -> ready k ->
  In c (drop 7 Part000.notebook ++ drop 7 HR8799.notebook) ->
  exists k', c k = Done tt k' /\ ready k'.
Proof.
  intros Hlib Hk Hin. apply twp_unit.
  pose proof Hlib as (Tu & Ta & To & Tm & Ti & Ts & Tl & Tst & Tp & Tup).
  pose proof Hk as
    (([r Hs] & Hd & [i Hi] & [O HO] & [m Hm]) & [p Hp] & [ar Hf]).
  cbn in Hin.
  repeat (destruct Hin as [<-|Hin]); [..|destruct Hin]; run_total;
    try loaded; try loop_done; try (report_done; ready_done);
    try ready_done.
Qed.

Lemma named_with_lines ls k : named k -> named (with_lines ls k).
Proof.
  destruct (with_lines_names ls k) as (H1 & H2 & H3 & H4).
  unfold named. by rewrite H1, H3.
Qed.

Lemma set_up_completes k :
  never_raises ->
  exists k', cell_ae108e7f k = Done tt k' /\ is_Some (g_sim k').
Proof.
  intros (Tu & Ta & To & Tm & Ti & Ts & Tl & Tst & Tp & Tup).
  apply twp_unit. run_total. eexists; known.
Qed.

Lemma bodies_complete k :
  never_raises -> is_Some (g_sim k) ->
  exists k', cell_a20bd72a k = Done tt k' /\ named k'.
Proof.
  intros (Tu & Ta & To & Tm & Ti & Ts & Tl & Tst & Tp & Tup) [r Hs].
  apply twp_unit. run_total.
  apply (twp_rows _ (PI / 180)); [known|apply dtor_nonzero|].
  apply named_with_lines. ready_done.
Qed.

Lemma periods_complete k :
  never_raises -> named k ->
  exists k', cell_6b6cbae2 k = Done tt k' /\ named k'.
Proof.
  intros (Tu & Ta & To & Tm & Ti & Ts & Tl & Tst & Tp & Tup)
         ([r Hs] & Hd & [i Hi] & [O HO] & [m Hm]).
  apply twp_unit. run_total.
  apply twp_prints.
  destruct (with_lines_names ((fun o => Row [o_P o]) <$> b)
              (with_event (ECalculateOrbits r)
                 (with_line (Text "   P (yr) ") k))) as (H1 & H2 & H3 & H4).
  apply twp_bind; eapply twp_get_sim; [rewrite H1; known|].
  run_total. unfold named. nb_simpl. rewrite H1, H3. nb_simpl.
  split_and!; first [assumption | eexists; eassumption].
Qed.

Lemma positions_complete k :
  never_raises -> named k ->
  exists k', cell_2eb7fc48 k = Done tt k' /\ named k'.
Proof.
  intros (Tu & Ta & To & Tm & Ti & Ts & Tl & Tst & Tp & Tup)
         ([r Hs] & Hd & [i Hi] & [O HO] & [m Hm]).
  apply twp_unit. run_total. apply twp_prints, named_with_lines.
  ready_done.
Qed.

Lemma first_plot_completes k :
  never_raises -> named k ->
  exists k', cell_2a7b7034 k = Done tt k' /\ ready k'.
Proof.
  intros (Tu & Ta & To & Tm & Ti & Ts & Tl & Tst & Tp & Tup)
         ([r Hs] & Hd & [i Hi] & [O HO] & [m Hm]).
  apply twp_unit. run_total. ready_done.
Qed.

Lemma run_all_step c cs k k1 k' :
  c k = Done tt k1 -> run_all cs k1 = Done tt k' ->
  run_all (c :: cs) k = Done tt k'.
Proof. intros Hc Hcs. unfold run_all in *. by rewrite for_each_cons, Hc. Qed.

Lemma later_cells_complete cs k :
  never_raises -> ready k ->
  Forall (fun c => In c (drop 7 Part000.notebook ++ drop 7 HR8799.notebook))
    cs ->
  exists k', run_all cs k = Done tt k' /\ ready k'.
Proof.
  intros Hlib Hk Hcs. revert k Hk.
  induction Hcs as [|c cs Hc _ IH]; intros k Hk.
  - by exists k.
  - destruct (later_cell_completes c k Hlib Hk Hc) as (k1 & E1 & Hk1).
    destruct (IH k1 Hk1) as (k' & E' & Hk').
    exists k'. split; [by eapply run_all_step|done].
Qed.

Lemma first_cells_complete nb m k :
  never_raises -> In (nb, m) notebooks ->
  exists k', run_all (take 7 nb) k = Done tt k' /\ ready k'.
Proof.
  intros Hlib Hin.
  assert (Hpre : exists c1 c2,
             take 7 nb = [c1; c2; cell_ae108e7f; cell_a20bd72a;
                          cell_6b6cbae2; cell_2eb7fc48; cell_2a7b7034]
             /\ (exists k1, c1 k = Done tt k1)
             /\ (forall k1, exists k2, c2 k1 = Done tt k2)).
  { destruct Hin as [Hnb|[Hnb|[]]]; injection Hnb as <- <-;
      eexists _, _; (split; [reflexivity|]);
      (split; [eexists; reflexivity|intros; eexists; reflexivity]). }
  destruct Hpre as (c1 & c2 & -> & (k1 & E1) & H2).
  destruct (H2 k1) as (k2 & E2).
  destruct (set_up_completes k2 Hlib) as (k3 & E3 & H3).
  destruct (bodies_complete k3 Hlib H3) as (k4 & E4 & H4).
  destruct (periods_complete k4 Hlib H4) as (k5 & E5 & H5).
  destruct (positions_complete k5 Hlib H5) as (k6 & E6 & H6).
  destruct (first_plot_completes k6 Hlib H6) as (k7 & E7 & H7).
  exists k7. split; [|done].
  repeat (eapply run_all_step; [eassumption|]). reflexivity.
Qed.

Lemma run_all_append cs1 cs2 k k1 k' :
  run_all cs1 k = Done tt k1 -> run_all cs2 k1 = Done tt k' ->
  run_all (cs1 ++ cs2) k = Done tt k'.
Proof.
  revert k. induction cs1 as [|c cs1 IH]; intros k H1 H2.
  - apply run_all_nil in H1. by subst.
  - apply run_all_cons in H1 as (k0 & Hc & H1). cbn.
    eapply run_all_step; [exact Hc|]. by apply IH.
Qed.

(** X1: with a library whose calls raise nothing, a run of either notebook
    from top to bottom completes, whatever the kernel held before: every
    name a cell reads has been bound by a cell above it, [dtor] is not 0
    where the report divides by it, and "start.bin" has been saved before
    it is loaded. *)
Theorem X1_run_from_top_to_bottom_completes nb m k :
  never_raises -> In (nb, m) notebooks ->
  exists k', run_all nb k = Done tt k' /\ ready k'.
Proof.
  intros Hlib Hin.
  destruct (first_cells_complete nb m k Hlib Hin) as (k7 & E7 & H7).
  destruct (later_cells_complete (drop 7 nb) k7 Hlib H7) as (k' & E' & Hk').
  { apply List.Forall_forall. intros c Hc. apply in_or_app.
    destruct Hin as [Hnb|[Hnb|[]]]; injection Hnb as <- <-; auto. }
  exists k'. split; [|done].
  rewrite <- (take_drop 7 nb). by eapply run_all_append.
Qed.

(** X2: once the first seven code cells have run, the cells below them
    can be run in any order and any number of times: each completes, with a
    library whose calls raise nothing, and leaves bound what the others
    read. *)
Theorem X2_later_cells_run_in_any_order k :
  never_raises -> ready k ->
  (forall c,
      In c (drop 7 Part000.notebook ++ drop 7 HR8799.notebook) ->
      exists k', c k = Done tt k' /\ ready k')
  /\ (forall cs,
        Forall (fun c => In c (drop 7 Part000.notebook
                                 ++ drop 7 HR8799.notebook)) cs ->
        exists k', run_all cs k = Done tt k' /\ ready k').
Proof.
  intros Hlib Hk. split.
  - intros c Hc. by apply later_cell_completes.
  - intros cs Hcs. by apply later_cells_complete.
Qed.

End Later_cells.

(** ** Names the cells need *)

Section Needs.
Context `{L : Rebound}.
Import Py Cells.


End Needs.

(** ** What the report leaves *)

Section Report.
Context `{L : Rebound}.
Import Py Cells.

Lemma with_lines_keeps ls k :
  g_sim (with_lines ls k) = g_sim k
  /\ g_op (with_lines ls k) = g_op k
  /\ g_float (with_lines ls k) = g_float k
  /\ heap (with_lines ls k) = heap k
  /\ next (with_lines ls k) = next k
  /\ files (with_lines ls k) = files k
  /\ log (with_lines ls k) = log k.
Proof.
  revert k. induction ls as [|l ls IH]; intros k; [done|].
  destruct (IH (with_line l k)) as (H1 & H2 & H3 & H4 & H5 & H6 & H7).
  unfold with_lines in *. cbn [foldl].
  by rewrite H1, H2, H3, H4, H5, H6, H7.
Qed.

(** A report that completes has made one call and printed lines. *)
Lemma wp_report Q k :
  (forall r ls,
      g_sim k = Some r ->
      Q tt (with_lines ls
              (with_event (ECalculateOrbits r)
                 (with_line (Text header) (with_line (Text "") k))))) ->
  wp print_elements Q k.
Proof.
  intros HQ. unfold print_elements. wp_go.
  intros [] k' E.
  lazymatch type of E with
  | for_each ?os _ ?k0 = _ =>
      destruct (report_loop os k0) as (d & os' & _ & Hk)
  end.
  rewrite E in Hk. cbn in Hk. subst k'. by apply HQ.
Qed.

End Report.

(** Reading a kernel through the lines printed on it. *)
Ltac lines_off :=
  repeat lazymatch goal with
  | |- context [with_lines ?ls ?k0] =>
      let H1 := fresh in let H2 := fresh in let H3 := fresh in
      let H4 := fresh in let H5 := fresh in let H6 := fresh in
      let H7 := fresh in
      destruct (with_lines_keeps ls k0) as (H1 & H2 & H3 & H4 & H5 & H6 & H7);
      rewrite ?H1, ?H2, ?H3, ?H4, ?H5, ?H6, ?H7;
      clear H1 H2 H3 H4 H5 H6 H7
  end.

Ltac follow H :=
  wp_start H; wp_go;
  try (apply wp_report;
       let r := fresh "r" in
       let Hr := fresh "Hrep" in
       intros r ? Hr; wp_known Hr r; lines_off).

(** ** A plot of another simulation *)

Section Stale.
Context `{L : Rebound}.
Import Py Cells.

Lemma stale_frame frame r p f k :
  In frame frames -> op_sim p <> r ->
  g_sim k = Some r -> g_op k = Some p -> g_float k framestep = Some f ->
  let k' := kernel_of (frame k) in
  (g_sim k' = Some r /\ g_op k' = Some p /\ g_float k' framestep = Some f
   /\ heap k' r = heap k r)
  /\ exists evs,
      log k' = log k ++ evs
      /\ Forall (fun ev => is_integrate ev = true ->
                           ev = EIntegrate (op_sim p) (fadd (sim_t (heap k r)) f))
           evs.
Proof.
  intros Hin Hne Hs Hp Hf.
  destruct Hin as [<-|[<-|[<-|[]]]]; unfold_frames; nb_exec_goal;
    (split; [done|]); trace_done;
    repeat (apply List.Forall_cons; [cbn; first [done|intros; reflexivity]|]);
    apply List.Forall_nil.
Qed.

Lemma stale_frames frame r p f s0 xs k :
  In frame frames -> op_sim p <> r ->
  g_sim k = Some r -> g_op k = Some p -> g_float k framestep = Some f ->
  heap k r = s0 ->
  let k' := kernel_of (for_each xs (fun _ : nat => frame) k) in
  heap k' r = s0
  /\ exists evs,
      log k' = log k ++ evs
      /\ Forall (fun ev => is_integrate ev = true ->
                           ev = EIntegrate (op_sim p) (fadd (sim_t s0) f))
           evs.
Proof.
  intros Hin Hne. revert k.
  induction xs as [|x xs IH]; intros k Hs Hp Hf Hh; cbn zeta.
  - cbn. split; [done|]. exists []. by rewrite app_nil_r.
  - rewrite for_each_cons.
    destruct (stale_frame frame r p f k Hin Hne Hs Hp Hf)
      as ((Hs1 & Hp1 & Hf1 & Hh1) & e1 & H1 & F1).
    rewrite Hh in *.
    destruct (frame k) as [[] k1|e k1]; cbn in *.
    + destruct (IH k1 Hs1 Hp1 Hf1 Hh1) as (Hh' & e2 & H2 & F2).
      split; [done|]. exists (e1 ++ e2).
      rewrite H2, H1, app_assoc. split; [done|]. by apply Forall_app.
    + split; [done|]. by exists e1.
Qed.

Lemma stale_cell c n k r p :
  In (c, n) [(Part000.cell_337451a2, 500%nat); (Part000.cell_fa08bc25, 500%nat);
             (HR8799.cell_337451a2, 220%nat)] ->
  g_sim k = Some r -> g_op k = Some p -> op_sim p <> r ->
  heap (kernel_of (c k)) r = heap k r
  /\ exists evs,
      log (kernel_of (c k)) = log k ++ evs
      /\ Forall (fun ev => is_integrate ev = true ->
                   ev = EIntegrate (op_sim p)
                          (fadd (sim_t (heap k r)) (sim_dt (heap k r))))
           evs.
Proof.
  intros Hin Hs Hp Hne.
  destruct Hin as [Hc|[Hc|[Hc|[]]]]; injection Hc as <- <-;
    nb_exec_goal; rewrite ?Rmult_1_l;
    lazymatch goal with
    | |- context [for_each ?xs (fun _ => ?frame) ?k0] =>
        destruct (stale_frames frame r p (sim_dt (heap k r)) (heap k r) xs k0)
          as (Hh & evs & Hl & HF);
        [cbn; auto|done|nb_simpl; done..|];
        rewrite Hh, Hl; split; [done|]; by exists evs
    end.
Qed.

(** The cell that resets [sim] leaves [op] with the simulation it had. *)
Lemma reset_leaves_plot k k' r :
  aliased r k -> (r < next k)%nat -> cell_ea6ed7d6 k = Done tt k' ->
  g_sim k' = Some (next k) /\ g_op k' = Some {| op_sim := r |}
  /\ heap k' r = heap k r.
Proof.
  intros [Hs Hp] Hlt H. follow H. nb_simpl. done.
Qed.

(** X5: when [op] was made from another simulation than the one [sim]
    names now, an animation cell that does not make its own plot steps the
    simulation of [op]: the simulation [sim] names is left as it was, so
    [sim.t] does not move, and every [integrate] call is made on [op.sim]
    with the same time [sim.t + sim.dt].  The reset cell leaves things so:
    [sim] names the simulation it loaded, [op] still holds the one [sim]
    named before. *)
Theorem X5_animation_steps_the_simulation_of_the_plot c n k r p :
  In (c, n) [(Part000.cell_337451a2, 500%nat); (Part000.cell_fa08bc25, 500%nat);
             (HR8799.cell_337451a2, 220%nat)] ->
  g_sim k = Some r -> g_op k = Some p -> op_sim p <> r ->
  (heap (kernel_of (c k)) r = heap k r
   /\ exists evs,
       log (kernel_of (c k)) = log k ++ evs
       /\ Forall (fun ev => is_integrate ev = true ->
                    ev = EIntegrate (op_sim p)
                           (fadd (sim_t (heap k r)) (sim_dt (heap k r))))
            evs)
  /\ (forall k0 k1 r0,
        aliased r0 k0 -> (r0 < next k0)%nat ->
        cell_ea6ed7d6 k0 = Done tt k1 ->
        g_sim k1 = Some (next k0) /\ g_op k1 = Some {| op_sim := r0 |}
        /\ r0 <> next k0 /\ heap k1 r0 = heap k0 r0).
Proof.
  intros Hin Hs Hp Hne. split.
  - by eapply stale_cell.
  - intros k0 k1 r0 Ha Hlt H.
    destruct (reset_leaves_plot k0 k1 r0 Ha Hlt H) as (H1 & H2 & H3).
    split_and!; [done|done|lia|done].
Qed.

(** X4: with [sim] bound and [op] unbound, the animation cells that read
    [op.fig] raise [NameError] for [op] before any call into the library;
    by then they have bound [nframe] and bound [framestep] to [sim.dt]. *)
Theorem X4_animation_cells_need_op c n k r :
  In (c, n) [(Part000.cell_337451a2, 500%nat); (Part000.cell_fa08bc25, 500%nat);
             (HR8799.cell_337451a2, 220%nat)] ->
  g_sim k = Some r -> g_op k = None ->
  exists k',
    c k = Raise (NameError "op") k'
    /\ log k' = log k /\ heap k' = heap k
    /\ g_nframe k' = Some n
    /\ g_float k' framestep = Some (sim_dt (heap k r)).
Proof.
  intros Hin Hs Hp.
  destruct Hin as [Hc|[Hc|[Hc|[]]]]; injection Hc as <- <-;
    nb_exec_goal; eexists; (split; [reflexivity|]); nb_simpl;
    rewrite ?Rmult_1_l; done.
Qed.

End Stale.

(** ** Running a cell again *)

Section Again.
Context `{L : Rebound}.
Import Py Cells.

(** The first body cell: three additions, one after the other, to the
    simulation [sim] names. *)
Lemma bodies_added k k' r :
  g_sim k = Some r -> cell_a20bd72a k = Done tt k' ->
  exists s1 s2,
    add star_args (heap k r) = Ok s1
    /\ add (planet_args 5e-3 16.64 0.1397 (118.8 * (PI / 180)) 1.261
              (27.8 * (PI / 180)) (60.1 * (PI / 180))) s1 = Ok s2
    /\ add (planet_args 5e-3 26.29 0.1112 (24.3 * (PI / 180)) 2.032
              (27.8 * (PI / 180)) (60.1 * (PI / 180))) s2 = Ok (heap k' r)
    /\ g_sim k' = Some r
    /\ log k' = log k ++
         [EAdd r star_args;
          EAdd r (planet_args 5e-3 16.64 0.1397 (118.8 * (PI / 180)) 1.261
                    (27.8 * (PI / 180)) (60.1 * (PI / 180)));
          EAdd r (planet_args 5e-3 26.29 0.1112 (24.3 * (PI / 180)) 2.032
                    (27.8 * (PI / 180)) (60.1 * (PI / 180)));
          ECalculateOrbits r].
Proof.
  intros Hs H. follow H. nb_simpl. eexists _, _.
  split_and!; [eassumption..|done|by rewrite <- !app_assoc].
Qed.

(** X6: the first body cell run twice adds the star and the two planets
    twice, to the same simulation: with a library whose [add] adds one
    body, it then holds six bodies more than before the first run. *)
Theorem X6_body_cell_run_twice_adds_the_bodies_twice k k1 k2 r :
  (forall args s s',
      add args s = Ok s' ->
      length (sim_particles s') = S (length (sim_particles s))) ->
  g_sim k = Some r ->
  cell_a20bd72a k = Done tt k1 -> cell_a20bd72a k1 = Done tt k2 ->
  length (sim_particles (heap k2 r))
  = (6 + length (sim_particles (heap k r)))%nat
  /\ List.filter is_add (log k2) =
     List.filter is_add (log k) ++
     [EAdd r star_args;
      EAdd r (planet_args 5e-3 16.64 0.1397 (118.8 * (PI / 180)) 1.261
                (27.8 * (PI / 180)) (60.1 * (PI / 180)));
      EAdd r (planet_args 5e-3 26.29 0.1112 (24.3 * (PI / 180)) 2.032
                (27.8 * (PI / 180)) (60.1 * (PI / 180)));
      EAdd r star_args;
      EAdd r (planet_args 5e-3 16.64 0.1397 (118.8 * (PI / 180)) 1.261
                (27.8 * (PI / 180)) (60.1 * (PI / 180)));
      EAdd r (planet_args 5e-3 26.29 0.1112 (24.3 * (PI / 180)) 2.032
                (27.8 * (PI / 180)) (60.1 * (PI / 180)))].
Proof.
  intros Hone Hs H1 H2.
  destruct (bodies_added k k1 r Hs H1)
    as (s1 & s2 & A1 & A2 & A3 & Hs1 & L1).
  destruct (bodies_added k1 k2 r Hs1 H2)
    as (s3 & s4 & A4 & A5 & A6 & Hs2 & L2).
  split.
  - rewrite (Hone _ _ _ A6), (Hone _ _ _ A5), (Hone _ _ _ A4),
      (Hone _ _ _ A3), (Hone _ _ _ A2), (Hone _ _ _ A1). done.
  - rewrite L2, L1, !List.filter_app. cbn. by rewrite <- app_assoc.
Qed.

(** The cells that integrate to a time written in them. *)
Lemma long_run_clock c T k k' r :
  integrate_reaches_tmax ->
  In (c, T) [(cell_40ea86cc, 100000); (cell_75724b6c, 1000000)] ->
  g_sim k = Some r -> c k = Done tt k' ->
  g_sim k' = Some r /\ sim_t (heap k' r) = T.
Proof.
  intros Hlaw Hin Hs H.
  destruct Hin as [Hc|[Hc|[]]]; injection Hc as <- <-; follow H; nb_simpl;
    (split; [done|]);
    match goal with E : integrate _ _ = Ok _ |- _ => by apply Hlaw in E end.
Qed.

(** X7: the two long integrations run to a time written in the cell
    (100000 and 1000000), not for a duration: with a library whose
    [integrate(tmax)] returns with the clock at [tmax], the clock is at
    that time after the cell whatever it was before, and running the cell
    again leaves it there. *)
Theorem X7_long_integrations_end_at_the_time_written c T k k' r :
  integrate_reaches_tmax ->
  In (c, T) [(cell_40ea86cc, 100000); (cell_75724b6c, 1000000)] ->
  g_sim k = Some r -> c k = Done tt k' ->
  g_sim k' = Some r /\ sim_t (heap k' r) = T
  /\ (forall k'', c k' = Done tt k'' ->
        sim_t (heap k'' r) = sim_t (heap k' r)).
Proof.
  intros Hlaw Hin Hs H.
  destruct (long_run_clock c T k k' r Hlaw Hin Hs H) as [Hs' Ht].
  split_and!; [done|done|].
  intros k'' H'.
  destruct (long_run_clock c T k' k'' r Hlaw Hin Hs' H') as [_ Ht'].
  by rewrite Ht, Ht'.
Qed.

End Again.

(** ** The checkpoint *)

Ltac same_files_leaf := unfold same_files; cbn; done.

Section Checkpoint.
Context `{L : Rebound}.
Import Py Cells.

#[local] Instance same_files_preorder : PreOrder same_files.
Proof.
  split.
  - by intros k.
  - intros k1 k2 k3 H1 H2. unfold same_files in *. congruence.
Qed.

Lemma unsaving_cells_keep_files c :
  In c (unsaving Part000.notebook ++ unsaving HR8799.notebook) ->
  respects same_files c.
Proof.
  intros Hin. cbn in Hin.
  repeat (destruct Hin as [<-|Hin]); [..|destruct Hin];
    respects_go same_files_leaf.
Qed.

Lemma first_plot_saves k k1 r :
  g_sim k = Some r -> cell_2a7b7034 k = Done tt k1 ->
  exists ar,
    save (heap k r) (files k !! "start.bin") = Ok ar
    /\ files k1 !! "start.bin" = Some ar
    /\ heap k1 = heap k.
Proof.
  intros Hs H. follow H. nb_simpl. rewrite lookup_insert_eq. eauto.
Qed.

Lemma reset_loads k k' :
  cell_ea6ed7d6 k = Done tt k' ->
  exists d i O me s0 s1 s2,
    g_float k dtor = Some d /\ g_float k inc_pl = Some i
    /\ g_float k Omega_pl = Some O /\ g_float k mass_e = Some me
    /\ load (files k !! "start.bin") = Ok s0
    /\ add (planet_args me 43.12 0.0561 (28.5 * d) 4.232 i O) s0 = Ok s1
    /\ add (planet_args 3e-3 70.50 0.0113 (213.6 * d) 2.642 i O) s1 = Ok s2
    /\ move_to_com s2 = Ok (heap k' (next k))
    /\ g_sim k' = Some (next k).
Proof.
  intros H. follow H. nb_simpl. eexists _, _, _, _, _, _, _.
  split_and!; [eassumption..|done].
Qed.

Lemma unsaving_run_keeps_files cs k k' :
  Forall (fun c => In c (unsaving Part000.notebook
                           ++ unsaving HR8799.notebook)) cs ->
  run_all cs k = Done tt k' -> files k' = files k.
Proof.
  intros Hcs H.
  assert (Hr : respects same_files (run_all cs)).
  { apply respects_for_each_in; [apply _|].
    eapply Forall_impl; [exact Hcs|]. apply unsaving_cells_keep_files. }
  exact (respects_done _ _ _ _ _ Hr H).
Qed.

(** X8: the reset cell starts from the simulation as it was when the first
    plot cell saved it, whatever cells other than that one ran in between
    (the animation, say, which steps [sim]): with a library whose [load]
    gives back what [save] was given, the simulation [sim] names after the
    reset is that saved state with planets c and b added and moved to the
    centre of mass. *)
Theorem X8_reset_returns_to_the_saved_simulation k k1 k2 k3 r mids :
  load_inverts_save -> g_sim k = Some r ->
  cell_2a7b7034 k = Done tt k1 ->
  Forall (fun c => In c (unsaving Part000.notebook
                           ++ unsaving HR8799.notebook)) mids ->
  run_all mids k1 = Done tt k2 ->
  cell_ea6ed7d6 k2 = Done tt k3 ->
  exists d i O me s1 s2,
    g_float k2 dtor = Some d /\ g_float k2 inc_pl = Some i
    /\ g_float k2 Omega_pl = Some O /\ g_float k2 mass_e = Some me
    /\ add (planet_args me 43.12 0.0561 (28.5 * d) 4.232 i O) (heap k r)
       = Ok s1
    /\ add (planet_args 3e-3 70.50 0.0113 (213.6 * d) 2.642 i O) s1 = Ok s2
    /\ move_to_com s2 = Ok (heap k3 (next k2))
    /\ g_sim k3 = Some (next k2).
Proof.
  intros Hlaw Hs H1 Hmids H2 H3.
  destruct (first_plot_saves k k1 r Hs H1) as (ar & Hsave & Hfile & _).
  apply Hlaw in Hsave.
  pose proof (unsaving_run_keeps_files mids k1 k2 Hmids H2) as Hfiles.
  destruct (reset_loads k2 k3 H3)
    as (d & i & O & me & s0 & s1 & s2 & Hd & Hi & HO & Hm & Hl & A1 & A2
        & Hc & Hs3).
  rewrite Hfiles, Hfile, Hsave in Hl. injection Hl as <-.
  exists d, i, O, me, s1, s2. done.
Qed.

End Checkpoint.

(** ** The report at its edges *)

Section Edges.
Context `{L : Rebound}.
Import Py Cells.

(** X9: the report at its edges.  The blank line and the header are
    printed and [calculate_orbits] is called before anything can fail.  If
    the library raises, that is the outcome.  With no orbit to print the
    report completes without reading [dtor].  With an orbit to print it
    raises [NameError] when [dtor] is unbound and [ZeroDivisionError] when
    [dtor] is 0, before it prints a row. *)
Theorem X9_report_edges k r :
  g_sim k = Some r ->
  let k1 := with_event (ECalculateOrbits r)
              (with_line (Text header) (with_line (Text "") k)) in
  (forall msg,
      calculate_orbits (heap k r) = Err msg ->
      print_elements k = Raise (ReboundError msg) k1)
  /\ (calculate_orbits (heap k r) = Ok [] -> print_elements k = Done tt k1)
  /\ (forall o os,
        calculate_orbits (heap k r) = Ok (o :: os) ->
        g_float k dtor = None ->
        print_elements k = Raise (NameError "dtor") k1)
  /\ (forall o os,
        calculate_orbits (heap k r) = Ok (o :: os) ->
        g_float k dtor = Some 0 ->
        print_elements k = Raise ZeroDivisionError k1).
Proof.
  intros Hs k1. subst k1. split_and!.
  - intros msg E. unfold print_elements. nb_exec_goal. reflexivity.
  - intros E. unfold print_elements. nb_exec_goal. reflexivity.
  - intros o os E Hd. unfold print_elements. nb_exec_goal. reflexivity.
  - intros o os E Hd. unfold print_elements. nb_exec_goal;
      first [reflexivity|congruence].
Qed.

(** X10: the reset cell gives planet c the mass [mass_e] is bound to when
    it runs: run after the last experiment, which rebinds [mass_e] to its
    literal [m], it adds planet c with mass [m]; planet b gets 3e-3 as
    written. *)
Theorem X10_reset_reads_the_mass_bound_last m k k1 k2 d i O :
  g_float k dtor = Some d -> g_float k inc_pl = Some i ->
  g_float k Omega_pl = Some O ->
  cell_6cb48360 m k = Done tt k1 -> cell_ea6ed7d6 k1 = Done tt k2 ->
  structural (log k2) =
  structural (log k) ++
  [ENew (next k); EAdd (next k) star_args;
   EAdd (next k) (planet_args m 16.64 0.1397 (118.8 * d) 1.261 i O);
   EAdd (next k) (planet_args m 26.29 0.1112 (24.3 * d) 2.032 i O);
   EAdd (next k) (planet_args m 43.12 0.0561 (28.5 * d) 4.232 i O);
   EAdd (next k) (planet_args (m * 0.5) 70.50 0.0113 (213.6 * d) 2.642 i O);
   ELoad "start.bin" (S (next k));
   EAdd (S (next k)) (planet_args m 43.12 0.0561 (28.5 * d) 4.232 i O);
   EAdd (S (next k)) (planet_args 3e-3 70.50 0.0113 (213.6 * d) 2.642 i O)].
Proof.
  intros Hd Hi HO H1 H2.
  eapply at_6cb48360 in H1; [|by unfold at_state].
  eapply at_ea6ed7d6 in H2; [|exact H1].
  destruct H2 as (_ & _ & _ & _ & _ & _ & Ht).
  rewrite Ht, <- app_assoc. reflexivity.
Qed.

End Edges.

(** ** A step before every update *)

Section Interleaving.
Context `{L : Rebound}.
Import Py Cells.

Lemma frame_interleaved frame k :
  In frame frames ->
  exists evs,
    log (kernel_of (frame k)) = log k ++ evs
    /\ (count is_plot_update evs <= count is_integrate evs <= 1)%nat
    /\ (forall k', frame k = Done tt k' -> count is_plot_update evs = 1%nat).
Proof.
  intros [<-|[<-|[<-|[]]]]; unfold_frames; nb_exec_goal; trace_done;
    unfold count; cbn; (split; [lia|]); intros k' H; first [done|lia].
Qed.

Lemma frames_interleaved frame xs k :
  In frame frames ->
  exists evs,
    log (kernel_of (for_each xs (fun _ : nat => frame) k)) = log k ++ evs
    /\ (count is_plot_update evs <= count is_integrate evs
        <= S (count is_plot_update evs))%nat
    /\ (forall k', for_each xs (fun _ : nat => frame) k = Done tt k' ->
          count is_plot_update evs = count is_integrate evs).
Proof.
  intros Hin. revert k. induction xs as [|x xs IH]; intros k.
  - exists []. cbn. rewrite app_nil_r. unfold count. cbn.
    split_and!; [done|lia|lia|done].
  - rewrite for_each_cons.
    destruct (frame_interleaved frame k Hin) as (e1 & H1 & C1 & D1).
    destruct (frame k) as [[] k1|e k1]; cbn in H1.
    + destruct (IH k1) as (e2 & H2 & C2 & D2).
      specialize (D1 k1 eq_refl).
      exists (e1 ++ e2). rewrite H2, H1, app_assoc, !count_app.
      split_and!; [done|lia|lia|].
      intros k' E. specialize (D2 k' E). lia.
    + exists e1. split_and!; [done|lia|lia|done].
Qed.

(** X11: however an animation cell ends, it has made as many
    [op.update()] calls as [integrate] calls, or one fewer: the plot is
    never updated without a step before it. *)
Theorem X11_no_update_without_a_step c n k :
  In (c, n) animation_cells ->
  exists evs,
    log (kernel_of (c k)) = log k ++ evs
    /\ (count is_plot_update evs <= count is_integrate evs
        <= S (count is_plot_update evs))%nat.
Proof.
  intros Hin.
  destruct Hin as [Hc|[Hc|[Hc|[Hc|[]]]]]; injection Hc as <- <-;
    nb_exec_goal;
    lazymatch goal with
    | |- context [for_each ?xs (fun _ => ?frame) ?k0] =>
        destruct (frames_interleaved frame xs k0) as (e & -> & C & _);
        [cbn; auto|];
        cbn; rewrite <- ?app_assoc; eexists; (split; [reflexivity|]);
        rewrite ?count_app; unfold count in *; cbn; lia
    | |- _ => trace_done; unfold count; cbn; lia
    end.
Qed.

End Interleaving.

(** ** The plot an animation cell finds *)

Section Found_plot.
Context `{L : Rebound}.
Import Py Cells.

Lemma run_all_last cs c k k' :
  run_all (cs ++ [c]) k = Done tt k' ->
  exists k1, run_all cs k = Done tt k1 /\ c k1 = Done tt k'.
Proof.
  revert k. induction cs as [|c0 cs IH]; intros k H.
  - apply run_all_cons in H as (k1 & Hc & H). apply run_all_nil in H.
    subst. by exists k.
  - cbn in H. apply run_all_cons in H as (k0 & Hc & H).
    destruct (IH k0 H) as (k1 & H1 & H2).
    exists k1. split; [by eapply run_all_step|done].
Qed.

Lemma plot_cell_aliases c k k' :
  In c [cell_2a7b7034; cell_76ca7354; Part000.cell_6e7036c7;
        cell_75724b6c] ->
  c k = Done tt k' -> exists r, aliased r k'.
Proof.
  intros Hin. revert k k'.
  exact (proj1 (List.Forall_forall _ _) plot_cells_alias c Hin).
Qed.

(** X15: in the order of the notebooks every animation cell finds [op]
    made from the simulation [sim] names: the cell above the first
    animation and the cell above the second one of part_000 make the plot
    from [sim], and the second animation cell of rebound_HR8799 makes its
    own, so that it moves the clock of [sim] by 220 steps whatever [op]
    held before. *)
Theorem X15_animation_cells_find_the_plot_of_sim nb m k k1 :
  In (nb, m) notebooks -> run_all (take 7 nb) k = Done tt k1 ->
  (exists r, aliased r k1)
  /\ (forall k0 k2,
        run_all (take 13 Part000.notebook) k0 = Done tt k2 ->
        exists r, aliased r k2)
  /\ (forall k0 k2 r,
        integrate_reaches_tmax -> g_sim k0 = Some r ->
        HR8799.cell_fa08bc25 k0 = Done tt k2 ->
        aliased r k2
        /\ sim_t (heap k2 r)
           = stepped 220 (sim_dt (heap k0 r)) (sim_t (heap k0 r))).
Proof.
  intros Hin H. split_and!.
  - assert (Hlast : exists cs, take 7 nb = cs ++ [cell_2a7b7034]).
    { destruct Hin as [Hnb|[Hnb|[]]]; injection Hnb as <- <-;
        by eexists [_; _; _; _; _; _]. }
    destruct Hlast as [cs Hcs]. rewrite Hcs in H.
    apply run_all_last in H as (k0 & _ & H).
    eapply plot_cell_aliases; [|exact H]. cbn. auto.
  - intros k0 k2 H2.
    change (take 13 Part000.notebook)
      with (take 12 Part000.notebook ++ [Part000.cell_6e7036c7]) in H2.
    apply run_all_last in H2 as (k3 & _ & H2).
    eapply plot_cell_aliases; [|exact H2]. cbn. auto.
  - intros k0 k2 r Hlaw Hs H2.
    nb_exec H2.
    eapply frames_advance in H2;
      [|exact Hlaw|cbn; auto
       |split; [split|]; nb_simpl; [exact Hs|reflexivity|reflexivity]].
    destruct H2 as [[Ha _] Ht]. rewrite length_range in Ht.
    split; [exact Ha|]. rewrite Ht. nb_simpl. by rewrite Rmult_1_l.
Qed.

End Found_plot.

(** ** The cells that print what the library holds *)

Section Printing_cells.
Context `{L : Rebound}.
Import Py Cells.

(** X12: the cell of the periods asks the library for the orbits, prints
    one row for each with its period, and only then assigns [sim.dt = 1.0],
    which changes nothing else of the simulation; when the library raises,
    the title is all that was printed and [sim.dt] is not assigned. *)
Theorem X12_periods_then_time_step k r :
  g_sim k = Some r ->
  (forall os,
      calculate_orbits (heap k r) = Ok os ->
      exists k',
        cell_6b6cbae2 k = Done tt k'
        /\ out k' = out k ++ Text "   P (yr) "
                             :: ((fun o => Row [o_P o]) <$> os)
        /\ log k' = log k ++ [ECalculateOrbits r; ESetDt r 1.0]
        /\ heap k' r = set_dt 1.0 (heap k r))
  /\ (forall msg,
        calculate_orbits (heap k r) = Err msg ->
        cell_6b6cbae2 k =
        Raise (ReboundError msg)
          (with_event (ECalculateOrbits r)
             (with_line (Text "   P (yr) ") k))).
Proof.
  intros Hs. split.
  - intros os Hos. apply twp_unit. unfold cell_6b6cbae2. twp_go.
    apply twp_prints.
    lazymatch goal with
    | |- context [with_lines ?ls ?k0] =>
        destruct (with_lines_keeps ls k0) as (H1 & H2 & H3 & H4 & H5 & H6 & H7);
        destruct (with_lines_app ls k0) as [_ H8]
    end.
    apply twp_bind; eapply twp_get_sim; [rewrite H1; known|].
    twp_go. nb_simpl. rewrite H4, H7, H8. nb_simpl.
    split_and!; [by rewrite <- app_assoc|by rewrite <- app_assoc|done].
  - intros msg Hos. unfold cell_6b6cbae2. nb_exec_goal. reflexivity.
Qed.

(** X13: the cell of the positions prints the coordinates of the bodies
    of the simulation [move_to_com] returned, one row for each body in
    their order; when [move_to_com] raises nothing is printed. *)
Theorem X13_positions_after_move_to_com k r :
  g_sim k = Some r ->
  (forall s',
      move_to_com (heap k r) = Ok s' ->
      exists k',
        cell_2eb7fc48 k = Done tt k'
        /\ heap k' r = s'
        /\ out k' = out k ++ Text "   X (au)    Y (au)    Z (au) "
                             :: ((fun p => Row [p_x p; p_y p; p_z p])
                                   <$> sim_particles s'))
  /\ (forall msg,
        move_to_com (heap k r) = Err msg ->
        cell_2eb7fc48 k =
        Raise (ReboundError msg) (with_event (EMoveToCom r) k)).
Proof.
  intros Hs. split.
  - intros s' Hm. apply twp_unit. unfold cell_2eb7fc48. twp_go.
    apply twp_prints.
    lazymatch goal with
    | |- context [with_lines ?ls ?k0] =>
        destruct (with_lines_app ls k0) as [H1 H2]
    end.
    rewrite H1, H2. nb_simpl. split; [done|by rewrite <- app_assoc].
  - intros msg Hm. unfold cell_2eb7fc48. nb_exec_goal. reflexivity.
Qed.

(** X14: the cell of the first plot makes the plot, binds [op] to it, and
    then saves: [save] is given the simulation and what "start.bin" held,
    and the file becomes what it returns, the simulation staying as it
    was.  When the plot fails, [op] and the file are as they were; when
    [save] fails, [op] is bound already and the file is as it was. *)
Theorem X14_plot_then_checkpoint k r :
  g_sim k = Some r ->
  (forall u ar,
      orbit_plot (heap k r) = Ok u ->
      save (heap k r) (files k !! "start.bin") = Ok ar ->
      exists k',
        cell_2a7b7034 k = Done tt k'
        /\ g_op k' = Some {| op_sim := r |}
        /\ files k' = <["start.bin" := ar]> (files k)
        /\ heap k' = heap k)
  /\ (forall msg,
        orbit_plot (heap k r) = Err msg ->
        exists k',
          cell_2a7b7034 k = Raise (ReboundError msg) k'
          /\ g_op k' = g_op k /\ files k' = files k)
  /\ (forall u msg,
        orbit_plot (heap k r) = Ok u ->
        save (heap k r) (files k !! "start.bin") = Err msg ->
        exists k',
          cell_2a7b7034 k = Raise (ReboundError msg) k'
          /\ g_op k' = Some {| op_sim := r |} /\ files k' = files k).
Proof.
  intros Hs. split_and!.
  - intros u ar Hp Hsave. apply twp_unit. unfold cell_2a7b7034. twp_go.
    done.
  - intros msg Hp. unfold cell_2a7b7034. nb_exec_goal.
    eexists. split; [reflexivity|done].
  - intros u msg Hp Hsave. unfold cell_2a7b7034. nb_exec_goal.
    eexists. split; [reflexivity|done].
Qed.

End Printing_cells.

(** ** C3: nothing stands between the notebook and [sim.add] *)


Section Unguarded.
Import Py Cells.


End Unguarded.

(** ** The stand-in library at work *)

Section Stand_in.
Import Py Cells.

Lemma stub_never_raises : never_raises (L:=stub_rebound).
Proof.
  split_and!; try (intros ? ?; eexists; reflexivity);
    try (intros ?; eexists; reflexivity).
Qed.

Lemma checkpointed_ready : ready checkpointed.
Proof.
  unfold ready, named, checkpointed. nb_simpl.
  rewrite lookup_insert_eq. split_and!; try reflexivity; eexists; reflexivity.
Qed.


Lemma stub_reaches_tmax : integrate_reaches_tmax (L:=stub_rebound).
Proof. intros tmax s s' H. injection H as <-. reflexivity. Qed.

Lemma stub_load_inverts_save : load_inverts_save (L:=stub_rebound).
Proof. intros s old ar H. injection H as <-. reflexivity. Qed.

Lemma stub_adds_one_body args s s' :
  @add stub_rebound args s = Ok s' ->
  length (sim_particles s') = S (length (sim_particles s)).
Proof. intros H. injection H as <-. cbn. rewrite length_app. cbn. lia. Qed.

(** X1 on the stand-in library: one notebook, run in a kernel that holds
    nothing. *)
Lemma X1_run_on_the_stand_in :
  exists k' : @Kernel stub_rebound,
    run_all Part000.notebook initial = Done tt k' /\ ready k'.
Proof.
  exact (X1_run_from_top_to_bottom_completes (L:=stub_rebound)
           Part000.notebook 7.3e-3 initial stub_never_raises
           (or_introl eq_refl)).
Defined.

(** X2 on the stand-in library: the reset cell, then the last experiment,
    then the reset cell again. *)
Lemma X2_reset_then_experiment_then_reset :
  exists k' : @Kernel stub_rebound,
    run_all [cell_ea6ed7d6; cell_6cb48360 7.3e-3; cell_ea6ed7d6] checkpointed
    = Done tt k'
    /\ ready k'.
Proof.
  apply (proj2 (X2_later_cells_run_in_any_order (L:=stub_rebound)
                  checkpointed stub_never_raises checkpointed_ready)).
  repeat apply List.Forall_cons; [..|apply List.Forall_nil];
    apply in_or_app; left; cbn; auto 20.
Defined.


(** X4 on the stand-in library: the first animation cell with a simulation
    and no plot. *)
Lemma X4_animation_before_the_plot :
  exists k' : @Kernel stub_rebound,
    Part000.cell_337451a2 unplotted = Raise (NameError "op") k'
    /\ log k' = log (L:=stub_rebound) unplotted
    /\ heap k' = heap (L:=stub_rebound) unplotted
    /\ g_nframe k' = Some 500%nat
    /\ g_float k' framestep
       = Some (sim_dt (heap (L:=stub_rebound) unplotted 0%nat)).
Proof.
  apply (X4_animation_cells_need_op (L:=stub_rebound)
           Part000.cell_337451a2 500%nat unplotted 0%nat);
    [left; reflexivity|reflexivity|reflexivity].
Defined.

(** X5 on the stand-in library: [sim] names object 1 and [op] holds
    object 0; the animation leaves object 1 as it was. *)
Lemma X5_animation_leaves_the_new_simulation :
  heap (kernel_of (Part000.cell_337451a2 (L:=stub_rebound) replaced)) 1%nat
  = heap (L:=stub_rebound) replaced 1%nat.
Proof.
  assert (Hne : op_sim {| op_sim := 0%nat |} <> 1%nat) by (cbn; lia).
  exact (proj1 (proj1 (X5_animation_steps_the_simulation_of_the_plot
                         (L:=stub_rebound) Part000.cell_337451a2 500%nat
                         replaced 1%nat {| op_sim := 0%nat |}
                         (or_introl eq_refl) eq_refl eq_refl Hne))).
Defined.

(** X6 on the stand-in library: the first body cell twice after the set-up
    cell. *)
Lemma X6_six_bodies_after_two_runs :
  exists k1 k2 : @Kernel stub_rebound,
    cell_a20bd72a set_up = Done tt k1
    /\ cell_a20bd72a k1 = Done tt k2
    /\ length (sim_particles (heap k2 0%nat)) = 6%nat.
Proof.
  destruct (bodies_complete (L:=stub_rebound) set_up stub_never_raises)
    as (k1 & E1 & N1); [eexists; reflexivity|].
  destruct (bodies_complete k1 stub_never_raises (proj1 N1))
    as (k2 & E2 & _).
  exists k1, k2. split_and!; [exact E1|exact E2|].
  exact (proj1 (X6_body_cell_run_twice_adds_the_bodies_twice
                  (L:=stub_rebound) set_up k1 k2 0%nat stub_adds_one_body
                  eq_refl E1 E2)).
Defined.

(** X7 on the stand-in library, whose [integrate] only moves the clock. *)
Lemma X7_clock_at_100000 :
  exists k' : @Kernel stub_rebound,
    cell_40ea86cc checkpointed = Done tt k'
    /\ sim_t (heap k' 0%nat) = 100000.
Proof.
  destruct (later_cell_completes (L:=stub_rebound) cell_40ea86cc checkpointed
              stub_never_raises checkpointed_ready) as (k' & E & _).
  { apply in_or_app. left. cbn. auto 20. }
  exists k'. split; [exact E|].
  exact (proj1 (proj2 (X7_long_integrations_end_at_the_time_written
                         (L:=stub_rebound) cell_40ea86cc 100000 checkpointed
                         k' 0%nat stub_reaches_tmax (or_introl eq_refl)
                         eq_refl E))).
Defined.

(** X8 on the stand-in library: the first plot, the animation, the
    reset. *)
Lemma X8_reset_after_the_animation :
  exists (k1 k2 k3 : @Kernel stub_rebound) d i O me s1 s2,
    cell_2a7b7034 checkpointed = Done tt k1
    /\ run_all [Part000.cell_337451a2] k1 = Done tt k2
    /\ cell_ea6ed7d6 k2 = Done tt k3
    /\ g_float k2 dtor = Some d /\ g_float k2 inc_pl = Some i
    /\ g_float k2 Omega_pl = Some O /\ g_float k2 mass_e = Some me
    /\ @add stub_rebound
         (planet_args me 43.12 0.0561 (28.5 * d) 4.232 i O)
         (heap checkpointed 0%nat) = Ok s1
    /\ @add stub_rebound
         (planet_args 3e-3 70.50 0.0113 (213.6 * d) 2.642 i O) s1 = Ok s2
    /\ @move_to_com stub_rebound s2 = Ok (heap k3 (next k2))
    /\ g_sim k3 = Some (next k2).
Proof.
  destruct (first_plot_completes (L:=stub_rebound) checkpointed
              stub_never_raises (proj1 checkpointed_ready))
    as (k1 & E1 & R1).
  assert (Hmids : Forall (fun c => In c (unsaving Part000.notebook
                                           ++ unsaving HR8799.notebook))
                    [Part000.cell_337451a2 (L:=stub_rebound)]).
  { apply List.Forall_cons; [|apply List.Forall_nil].
    apply in_or_app. left. cbn. auto 20. }
  destruct (later_cells_complete (L:=stub_rebound) [Part000.cell_337451a2]
              k1 stub_never_raises R1) as (k2 & E2 & R2).
  { apply List.Forall_cons; [|apply List.Forall_nil].
    apply in_or_app. left. cbn. auto 20. }
  destruct (later_cell_completes (L:=stub_rebound) cell_ea6ed7d6 k2
              stub_never_raises R2) as (k3 & E3 & _).
  { apply in_or_app. left. cbn. auto 20. }
  destruct (X8_reset_returns_to_the_saved_simulation (L:=stub_rebound)
              checkpointed k1 k2 k3 0%nat [Part000.cell_337451a2]
              stub_load_inverts_save eq_refl E1 Hmids E2 E3)
    as (d & i & O & me & s1 & s2 & H).
  exists k1, k2, k3, d, i, O, me, s1, s2. split_and!; [done|done|done|..];
    apply H.
Defined.

(** X9 on the stand-in library: after the set-up cell there is no orbit,
    and the report completes though [dtor] is unbound. *)
Lemma X9_report_of_an_empty_simulation :
  print_elements (L:=stub_rebound) set_up =
  Done tt (with_event (ECalculateOrbits 0%nat)
             (with_line (Text header) (with_line (Text "") set_up))).
Proof.
  exact (proj1 (proj2 (X9_report_edges (L:=stub_rebound) set_up 0%nat
                         eq_refl)) eq_refl).
Defined.

Lemma checkpointed_floats :
  g_float checkpointed dtor = Some (PI / 180)
  /\ g_float checkpointed inc_pl = Some (27.8 * (PI / 180))
  /\ g_float checkpointed Omega_pl = Some (60.1 * (PI / 180)).
Proof. unfold checkpointed. nb_simpl. done. Qed.

(** X10 on the stand-in library: the last experiment with 7.3e-3, then the
    reset. *)
Lemma X10_planet_c_with_the_last_mass :
  exists k1 k2 : @Kernel stub_rebound,
    cell_6cb48360 7.3e-3 checkpointed = Done tt k1
    /\ cell_ea6ed7d6 k1 = Done tt k2
    /\ In (EAdd 2%nat (planet_args 7.3e-3 43.12 0.0561 (28.5 * (PI / 180))
                         4.232 (27.8 * (PI / 180)) (60.1 * (PI / 180))))
         (structural (log k2)).
Proof.
  destruct (later_cell_completes (L:=stub_rebound) (cell_6cb48360 7.3e-3)
              checkpointed stub_never_raises checkpointed_ready)
    as (k1 & E1 & R1).
  { apply in_or_app. left. cbn. auto 20. }
  destruct (later_cell_completes (L:=stub_rebound) cell_ea6ed7d6 k1
              stub_never_raises R1) as (k2 & E2 & _).
  { apply in_or_app. left. cbn. auto 20. }
  exists k1, k2. split_and!; [exact E1|exact E2|].
  destruct checkpointed_floats as (Hd & Hi & HO).
  rewrite (X10_reset_reads_the_mass_bound_last (L:=stub_rebound) 7.3e-3
             checkpointed k1 k2 _ _ _ Hd Hi HO E1 E2).
  apply in_or_app. right. cbn. auto 20.
Defined.

(** X11 on the stand-in library. *)
Lemma X11_updates_and_steps_of_an_animation :
  exists evs,
    log (kernel_of (Part000.cell_337451a2 (L:=stub_rebound) plotted))
    = log (L:=stub_rebound) plotted ++ evs
    /\ (count is_plot_update evs <= count is_integrate evs
        <= S (count is_plot_update evs))%nat.
Proof.
  exact (X11_no_update_without_a_step (L:=stub_rebound)
           Part000.cell_337451a2 500%nat plotted (or_introl eq_refl)).
Defined.

(** X14 on the stand-in library, whose checkpoint is the simulation. *)
Lemma X14_first_checkpoint :
  exists k' : @Kernel stub_rebound,
    cell_2a7b7034 set_up = Done tt k'
    /\ g_op k' = Some {| op_sim := 0%nat |}
    /\ files k' = <["start.bin" := heap (L:=stub_rebound) set_up 0%nat]>
                    (files (L:=stub_rebound) set_up)
    /\ heap k' = heap (L:=stub_rebound) set_up.
Proof.
  exact (proj1 (X14_plot_then_checkpoint (L:=stub_rebound) set_up 0%nat
                  eq_refl) tt (heap set_up 0%nat) eq_refl eq_refl).
Defined.

(** X15 on the stand-in library: the first seven cells of one notebook. *)
Lemma X15_plot_of_sim_after_seven_cells :
  exists (k1 : @Kernel stub_rebound) r,
    run_all (take 7 Part000.notebook) initial = Done tt k1
    /\ aliased r k1.
Proof.
  destruct (first_cells_complete (L:=stub_rebound) Part000.notebook 7.3e-3
              initial stub_never_raises (or_introl eq_refl))
    as (k1 & E1 & _).
  destruct (proj1 (X15_animation_cells_find_the_plot_of_sim
                     (L:=stub_rebound) Part000.notebook 7.3e-3 initial k1
                     (or_introl eq_refl) E1)) as [r Hr].
  exists k1, r. exact (conj E1 Hr).
Defined.



(** X12 on the stand-in library: a simulation that holds the star and a
    planet has one orbit, whose period is printed before the time step is
    assigned. *)
Lemma X12_period_of_a_planet :
  exists k' : @Kernel stub_rebound,
    cell_6b6cbae2 populated = Done tt k'
    /\ out k' = out (L:=stub_rebound) populated
                ++ [Text "   P (yr) "; Row [0]]
    /\ log k' = log (L:=stub_rebound) populated
                ++ [ECalculateOrbits 0%nat; ESetDt 0%nat 1.0]
    /\ heap k' 0%nat = set_dt 1.0 two_bodies.
Proof.
  exact (proj1 (X12_periods_then_time_step (L:=stub_rebound) populated 0%nat
                  eq_refl)
           [stub_orbit
              (stub_particle (planet_args 5e-3 16.64 0.1397 2 1.261 0.5 1))]
           eq_refl).
Defined.

(** X13 on the stand-in library, whose [move_to_com] returns the
    simulation as it is: one row for the star and one for the planet. *)
Lemma X13_positions_of_two_bodies :
  exists k' : @Kernel stub_rebound,
    cell_2eb7fc48 populated = Done tt k'
    /\ heap k' 0%nat = two_bodies
    /\ out k' = out (L:=stub_rebound) populated
                ++ [Text "   X (au)    Y (au)    Z (au) ";
                    Row [0; 0; 0]; Row [16.64; 0.1397; 2]].
Proof.
  exact (proj1 (X13_positions_after_move_to_com (L:=stub_rebound) populated
                  0%nat eq_refl) two_bodies eq_refl).
Defined.

End Stand_in.
